(** * OhMyCook: resilient AI calls, two-stage recipe retrieval, remote
    persistence and local-first synchronisation.

    A shallow embedding of
    - [callGeminiApi]                  (services/geminiService.ts),
    - [handleGetRecipeRecommendations] (api/gemini.ts),
    - [handleRecipeSelect]             (components/RecipeRecommendations.tsx),
    - [supabaseRequest], [handleResponse] (services/supabaseClient.ts),
    - the operations of services/supabaseService.ts,
    - the synchronisation effects of [AppContent] (App.tsx),
    followed by the properties of the specification that concern them. *)

From Stdlib Require Import Ascii.
From stdpp Require Import gmap strings list pretty.

Set Warnings "-register-all".

Open Scope string_scope.

(** ** JavaScript helpers *)

Module JS.

(** [s.includes(needle)] on strings. *)
Fixpoint includes (needle s : string) : bool :=
  String.prefix needle s ||
  match s with
  | EmptyString => false
  | String _ rest => includes needle rest
  end.

(** Truthiness of a string: only the empty string is falsy. *)
Definition truthy (s : string) : bool :=
  match s with EmptyString => false | _ => true end.

(** [a || b] on strings. *)
Definition or_else (a b : string) : string := if truthy a then a else b.

(** Values thrown by the code or by the platform.  [Thrown name message]
    is an instance of [Error] (or of one of its subclasses, [name]);
    [NotAnError] is any other thrown value. *)
Inductive ErrorClass := Error | TypeError | SyntaxError.

Inductive exn :=
| Thrown (cls : ErrorClass) (message : string)
| NotAnError (value : string).

(** [error instanceof Error] *)
Definition instanceof_Error (e : exn) : bool :=
  match e with Thrown _ _ => true | NotAnError _ => false end.

(** The settlement of a promise. *)
Inductive result (A : Type) :=
| Ok (value : A)
| Throw (e : exn).
Arguments Ok {A} value.
Arguments Throw {A} e.

(** Parsed JSON.  Numbers are integers, which is all the code looks at. *)
Inductive json :=
| JNull
| JBool (b : bool)
| JNum (n : Z)
| JStr (s : string)
| JArr (items : list json)
| JObj (fields : list (string * json)).

(** [o[key]] for an object produced by [JSON.parse]. *)
Fixpoint field (key : string) (fields : list (string * json)) : option json :=
  match fields with
  | [] => None
  | (k, v) :: rest => if String.eqb k key then Some v else field key rest
  end.

(** Truthiness of a parsed JSON value (arrays and objects are truthy). *)
Definition truthy_json (j : json) : bool :=
  match j with
  | JNull => false
  | JBool b => b
  | JNum n => negb (n =? 0)%Z
  | JStr s => truthy s
  | JArr _ | JObj _ => true
  end.

Fixpoint join (sep : string) (l : list string) : string :=
  match l with
  | [] => ""
  | [x] => x
  | x :: rest => x +:+ sep +:+ join sep rest
  end.

(** [String(v)] for a parsed JSON value; inside an array [null] prints as
    the empty string. *)
Fixpoint to_string (j : json) : string :=
  match j with
  | JNull => "null"
  | JBool true => "true"
  | JBool false => "false"
  | JNum n => pretty n
  | JStr s => s
  | JArr items =>
      join "," (map (fun e => match e with JNull => "" | _ => to_string e end) items)
  | JObj _ => "[object Object]"
  end.

(** [arr.includes(s)] for a string [s]: strict equality with an element. *)
Definition array_includes (s : string) (items : list json) : bool :=
  existsb (fun e => match e with JStr t => String.eqb t s | _ => false end) items.

(** Numbers are IEEE-754 doubles, with 53 bits of significand.
    [nearest a] is the double nearest to the natural number [a], a tie
    going to the even significand: the naturals up to 2^53 are doubles,
    from there on only the multiples of a power of 2 are.  (Magnitudes
    from 2^1024 on, which are read as [Infinity], are not modelled; no
    integer column of the store holds them.) *)
Definition nearest (a : Z) : Z :=
  let shift := (Z.log2 a - 52)%Z in
  if (shift <=? 0)%Z then a
  else
    let q := Z.shiftr a shift in
    let r := Z.land a (Z.ones shift) in
    let half := Z.shiftl 1 (shift - 1) in
    Z.shiftl (if (half <? r)%Z || ((r =? half)%Z && Z.odd q) then (q + 1)%Z else q) shift.

(** The number that [JSON.parse] makes of an integer literal. *)
Definition to_double (n : Z) : Z :=
  if (n <? 0)%Z then (- nearest (- n))%Z else nearest n.

(** [a + b] on two integer-valued doubles: the exact sum, rounded. *)
Definition js_add (a b : Z) : Z := to_double (a + b).

End JS.

(** ** The resilient request executor (services/geminiService.ts) *)

Module Gemini.
Import JS.

(** What [callGeminiApi] reads of a [Response]: [json] is what
    [JSON.parse] makes of the body text, [None] when it throws. *)
Record Response := {
  ok : bool;
  status : Z;
  text : string;
  json_body : option json
}.

(** How one [fetch('/api/gemini', ...)] settles. *)
Inductive FetchOutcome :=
| Rejects (e : exn)          (* network-level failure *)
| Resolves (r : Response).

(** Observable events of one execution, in order. *)
Inductive Event :=
| EFetch (action : string) (attempt : nat)
| EWarnOverloaded (attempt : nat) (delay : Z)
| EWarnFailed (attempt : nat) (error : exn) (delay : Z)
| ESleep (delay : Z)
| EConsoleError (action : string) (attempts : nat) (error : exn).

Definition MAX_RETRIES : nat := 3.

(** [errorData.error || ''], a string or an array (the two values that
    have an [includes] method), or the [TypeError] of the property access
    or of the missing method. *)
Inductive ErrorMessage :=
| MsgString (s : string)
| MsgArray (items : list json).

Definition errorMessage (errorData : json) : result ErrorMessage :=
  match errorData with
  | JNull => Throw (Thrown TypeError "Cannot read properties of null (reading 'error')")
  | JObj fields =>
      match field "error" fields with
      | None => Ok (MsgString "")
      | Some v =>
          if truthy_json v then
            match v with
            | JStr s => Ok (MsgString s)
            | JArr items => Ok (MsgArray items)
            | _ => Throw (Thrown TypeError "errorMessage.includes is not a function")
            end
          else Ok (MsgString "")
      end
  | _ => Ok (MsgString "")
  end.

Definition isRetryable (m : ErrorMessage) : bool :=
  match m with
  | MsgString s => includes "overloaded" s || includes "503" s
  | MsgArray items => array_includes "overloaded" items || array_includes "503" items
  end.

(** [errorMessage || `API call failed with status: ${response.status}`] *)
Definition message_or_status (m : ErrorMessage) (status : Z) : string :=
  match m with
  | MsgString s => or_else s ("API call failed with status: " +:+ pretty status)
  | MsgArray items => to_string (JArr items)
  end.

(** The way control leaves the [try] block of one iteration. *)
Inductive TryExit :=
| Returns (value : json)
| Continues (events : list Event) (delay : Z)
| Throws (e : exn).

Definition try_block (outcome : FetchOutcome) (attempt : nat) (delay : Z) : TryExit :=
  match outcome with
  | Rejects e => Throws e
  | Resolves response =>
      if ok response then
        match json_body response with
        | Some v => Returns v
        | None => Throws (Thrown SyntaxError "Unexpected token in JSON")
        end
      else
        let errorText := text response in
        match json_body response with
        | None =>
            Throws (Thrown Error
              (or_else errorText ("API call failed with status: " +:+ pretty (status response))))
        | Some errorData =>
            match errorMessage errorData with
            | Throw e => Throws e
            | Ok msg =>
                if isRetryable msg && (attempt <? MAX_RETRIES)%nat then
                  Continues [EWarnOverloaded attempt delay; ESleep delay] (delay * 2)
                else
                  Throws (Thrown Error (message_or_status msg (status response)))
            end
        end
  end.

Section Executor.
(** [net k] is how the fetch issued by attempt [k] settles. *)
Variable net : nat -> FetchOutcome.
Variable action : string.

Inductive Completion :=
| Done (r : result json)
| OutOfFuel.

(** The [for] loop from [attempt] on; [fuel] bounds the iterations. *)
Fixpoint attempts (fuel attempt : nat) (delay : Z) : Completion * list Event :=
  match fuel with
  | O => (OutOfFuel, [])
  | S fuel' =>
      if (attempt <=? MAX_RETRIES)%nat then
        match try_block (net attempt) attempt delay with
        | Returns v => (Done (Ok v), [EFetch action attempt])
        | Continues evs delay' =>
            let '(r, tr) := attempts fuel' (S attempt) delay' in
            (r, EFetch action attempt :: evs ++ tr)
        | Throws error =>
            if (attempt <? MAX_RETRIES)%nat then
              let '(r, tr) := attempts fuel' (S attempt) (delay * 2) in
              (r, EFetch action attempt :: EWarnFailed attempt error delay
                    :: ESleep delay :: tr)
            else
              (Done (Throw (if instanceof_Error error then error
                            else Thrown Error "An unknown error occurred during the API call.")),
               [EFetch action attempt; EConsoleError action MAX_RETRIES error])
        end
      else
        (Done (Throw (Thrown Error ("API call for " +:+ action +:+ " failed after all retries."))),
         [])
  end.

Definition callGeminiApi : Completion * list Event :=
  attempts (S MAX_RETRIES) 1 1000.
End Executor.

(** The network-visible part of a trace: requests and timed waits. *)
Inductive Step := Request | Wait (ms : Z).

Fixpoint schedule (tr : list Event) : list Step :=
  match tr with
  | [] => []
  | EFetch _ _ :: rest => Request :: schedule rest
  | ESleep d :: rest => Wait d :: schedule rest
  | _ :: rest => schedule rest
  end.

(** The outcomes the executor classifies as retryable: an error body
    whose message mentions "overloaded" or "503", or a network-level
    exception. *)
Definition retryable_outcome (o : FetchOutcome) : Prop :=
  match o with
  | Rejects _ => True
  | Resolves r =>
      ok r = false /\
      exists errorData msg,
        json_body r = Some errorData /\ errorMessage errorData = Ok msg /\
        isRetryable msg = true
  end.

End Gemini.

(** ** The two-stage recipe retrieval protocol *)

Module Recipes.
Import JS.

Inductive Difficulty := Easy | Medium | Hard.

Record Substitution := { missing : string; substitute : string }.

(** [Recipe] of types.ts, with the fields of the specification (section 3). *)
Record Recipe := {
  recipeName : string;
  englishRecipeName : string;
  description : string;
  cuisine : string;
  cookTime : Z;
  difficulty : Difficulty;
  spiciness : Z;
  calories : Z;
  servings : Z;
  ingredients : list string;
  missingIngredients : list string;
  instructions : list string;
  substitutions : list Substitution;
  isDetailsLoaded : bool
}.

(** [Partial<Recipe>]: every field may be absent. *)
Record PartialRecipe := {
  p_recipeName : option string;
  p_englishRecipeName : option string;
  p_description : option string;
  p_cuisine : option string;
  p_cookTime : option Z;
  p_difficulty : option Difficulty;
  p_spiciness : option Z;
  p_calories : option Z;
  p_servings : option Z;
  p_ingredients : option (list string);
  p_missingIngredients : option (list string);
  p_instructions : option (list string);
  p_substitutions : option (list Substitution);
  p_isDetailsLoaded : option bool
}.

(** Stage A, api/gemini.ts: the tail of [handleGetRecipeRecommendations],
    applied to the array parsed from the model's answer:
    [recipes.map(r => ({...r, instructions: [], substitutions: [],
    isDetailsLoaded: false}))]. *)
Definition mark_overview (r : Recipe) : Recipe :=
  {| recipeName := recipeName r;
     englishRecipeName := englishRecipeName r;
     description := description r;
     cuisine := cuisine r;
     cookTime := cookTime r;
     difficulty := difficulty r;
     spiciness := spiciness r;
     calories := calories r;
     servings := servings r;
     ingredients := ingredients r;
     missingIngredients := missingIngredients r;
     instructions := [];
     substitutions := [];
     isDetailsLoaded := false |}.

(** [generated] is the outcome of [ai.models.generateContent] followed by
    [JSON.parse(response.text.trim())]. *)
Definition handleGetRecipeRecommendations (generated : result (list Recipe))
  : result (list Recipe) :=
  match generated with
  | Throw e => Throw e
  | Ok recipes => Ok (map mark_overview recipes)
  end.

(** Stage B, RecipeRecommendations.tsx.
    [{...recipe, ...details, isDetailsLoaded: true}] *)
Definition updatedRecipe (recipe : Recipe) (details : PartialRecipe) : Recipe :=
  {| recipeName := default (recipeName recipe) (p_recipeName details);
     englishRecipeName := default (englishRecipeName recipe) (p_englishRecipeName details);
     description := default (description recipe) (p_description details);
     cuisine := default (cuisine recipe) (p_cuisine details);
     cookTime := default (cookTime recipe) (p_cookTime details);
     difficulty := default (difficulty recipe) (p_difficulty details);
     spiciness := default (spiciness recipe) (p_spiciness details);
     calories := default (calories recipe) (p_calories details);
     servings := default (servings recipe) (p_servings details);
     ingredients := default (ingredients recipe) (p_ingredients details);
     missingIngredients := default (missingIngredients recipe) (p_missingIngredients details);
     instructions := default (instructions recipe) (p_instructions details);
     substitutions := default (substitutions recipe) (p_substitutions details);
     isDetailsLoaded := true |}.

Inductive Language := en | ko.

(** The part of the component state that [handleRecipeSelect] touches,
    with the calls and log lines it produces. *)
Record View := {
  recipes : list Recipe;
  selectedRecipe : option Recipe;
  detailCalls : list (string * list string * Language);
  errorLog : list exn
}.

Section Select.
(** [getRecipeDetails] of services/geminiService.ts, as the component sees
    it: a call that settles with the details or with a failure. *)
Variable getRecipeDetails : string -> list string -> Language -> result PartialRecipe.
Variable ingredientNames : list string.
Variable language : Language.

Definition handleRecipeSelect (recipe : Recipe) (v : View) : View :=
  let v1 := {| recipes := recipes v; selectedRecipe := Some recipe;
               detailCalls := detailCalls v; errorLog := errorLog v |} in
  if negb (isDetailsLoaded recipe) then
    let call := (recipeName recipe, ingredientNames, language) in
    match getRecipeDetails (recipeName recipe) ingredientNames language with
    | Ok details =>
        let updated := updatedRecipe recipe details in
        {| recipes := map (fun r => if String.eqb (recipeName r) (recipeName recipe)
                                    then updated else r) (recipes v1);
           selectedRecipe := Some updated;
           detailCalls := detailCalls v1 ++ [call];
           errorLog := errorLog v1 |}
    | Throw error =>
        {| recipes := recipes v1;
           selectedRecipe := selectedRecipe v1;
           detailCalls := detailCalls v1 ++ [call];
           errorLog := errorLog v1 ++ [error] |}
    end
  else v1.
End Select.

End Recipes.

(** ** Data of types.ts

    types.ts is not among the sources at hand; the records below carry the
    fields the code reads and writes (and section 3 of the specification,
    README "Supabase setup" for the table columns). *)

Module Types.

Record Ingredient := { name : string; quantity : string }.

Record ShoppingListItem := { item_name : string }.

Record UserSettings := {
  cookingLevel : string;
  allergies : list string;
  preferredCuisines : list string;
  dislikedIngredients : list string;
  availableTools : list string;
  spicinessPreference : Z;
  maxCookTime : Z
}.

Record User := {
  user_key : string;                 (* [id] *)
  user_email : string;               (* [email] *)
  hasCompletedOnboarding : bool
}.

Record UserProfileRecord := {
  id : string;
  email : string;
  display_name : option string;
  has_completed_onboarding : option bool;
  preferred_cuisines : option (list string)
}.

Record UserIngredientRecord := {
  user_id : string;
  ingredient_name : string;
  ingredient_quantity : string       (* column [quantity] *)
}.

Record UserSavedRecipeRecord := {
  saved_user_id : string;            (* column [user_id] *)
  saved_recipe_name : string;        (* column [recipe_name] *)
  recipe_data : Recipes.Recipe
}.

Record SearchEventRecord := {
  event_user_id : option string;     (* column [user_id], nullable *)
  event_recipe_name : string;        (* column [recipe_name] *)
  search_term : string
}.

Record RecipeSearchCount := {
  recipe_name : string;
  search_count : Z
}.

End Types.

(** ** The remote persistence client *)

Module Supabase.
Import JS Types.

(** *** Configuration *)

Record Config := {
  supabaseUrl : option string;       (* import.meta.env.VITE_SUPABASE_URL *)
  supabaseAnonKey : option string    (* import.meta.env.VITE_SUPABASE_ANON_KEY *)
}.

Definition present (v : option string) : bool :=
  match v with Some s => truthy s | None => false end.

(** [Boolean(supabaseUrl && supabaseAnonKey)] *)
Definition isSupabaseConfigured (c : Config) : bool :=
  present (supabaseUrl c) && present (supabaseAnonKey c).

(** *** Requests and responses

    A path is a collection with at most one equality filter,
    [/table?column=eq.value]; [encodeFilter] and the service's decoding
    cancel out, so [equals] holds the plain value.  A body is the array
    given to [JSON.stringify]. *)

Inductive Table :=
| user_profiles | user_ingredients | user_saved_recipes
| search_events | recipe_search_counts.

Definition rowT (t : Table) : Type :=
  match t with
  | user_profiles => UserProfileRecord
  | user_ingredients => UserIngredientRecord
  | user_saved_recipes => UserSavedRecipeRecord
  | search_events => SearchEventRecord
  | recipe_search_counts => RecipeSearchCount
  end.

Record Filter := { column : string; equals : string }.

Inductive Method := GET | POST | PUT | PATCH | DELETE.

(** [mkRequest table filter method body prefer] is the pair of a path and
    of the [init] given to [supabaseRequest]; a call without [init] is a
    GET. *)
Record Request (t : Table) := mkRequest {
  filter_by : option Filter;
  method : Method;
  body : option (list (rowT t));
  prefer : option string
}.
Arguments filter_by {t} _.
Arguments method {t} _.
Arguments body {t} _.
Arguments prefer {t} _.

(** The body text of a response: empty, text that [JSON.parse] accepts
    (with its value), or text that it rejects. *)
Inductive Body (T : Type) :=
| Blank
| Parsed (v : T)
| Unparsable (raw : string).
Arguments Blank {T}.
Arguments Parsed {T} v.
Arguments Unparsable {T} raw.

(** A response: [Failure] has [ok = false], [Success] has [ok = true]. *)
Inductive Response (T : Type) :=
| Failure (status : Z) (statusText text : string)
| Success (status : Z) (text : Body T).
Arguments Failure {T} status statusText text.
Arguments Success {T} status text.

(** *** The remote store

    The store is outside the repository.  It is modelled at its interface
    (specification section 6, README "Supabase setup"): a REST resource
    per table, equality filters, plain inserts, and upserts selected by
    [Prefer: resolution=merge-duplicates] on the tables that have a key
    ([user_profiles.id], [recipe_search_counts.recipe_name]).  Server-made
    columns ([id] of the serial tables, timestamps) are left out. *)

Record Store := {
  profiles : gmap string UserProfileRecord;
  pantry : list UserIngredientRecord;
  saved : list UserSavedRecipeRecord;
  events : list SearchEventRecord;
  counts : gmap string RecipeSearchCount
}.

Definition reply {R} (representation : bool) (rows : list R) : Body (list R) :=
  if representation then Parsed rows else Blank.

Definition bad_request {T} : Response T := Failure 400 "Bad Request" "".
Definition not_allowed {T} : Response T := Failure 405 "Method Not Allowed" "".
Definition conflict {T} : Response T :=
  Failure 409 "Conflict" "duplicate key value violates unique constraint".

(** A table without a client-visible key: rows are kept in insertion
    order.  [col c r] is the text of column [c] of row [r]. *)
Definition selected {R} (col : string -> R -> option string) (f : option Filter) (r : R) : Prop :=
  match f with
  | None => True
  | Some f => col (column f) r = Some (equals f)
  end.

#[global] Instance selected_dec {R} col f (r : R) : Decision (selected col f r).
Proof. destruct f; simpl; apply _. Defined.

Definition serve_rows {R} (col : string -> R -> option string)
    (f : option Filter) (m : Method) (b : option (list R)) (representation : bool)
    (rows : list R) : Response (list R) * list R :=
  match m with
  | GET => (Success 200 (Parsed (filter (selected col f) rows)), rows)
  | DELETE =>
      (Success (if representation then 200 else 204)
               (reply representation (filter (selected col f) rows)),
       filter (fun r => ~ selected col f r) rows)
  | POST =>
      match b with
      | Some new => (Success 201 (reply representation new), (rows ++ new)%list)
      | None => (bad_request, rows)
      end
  | _ => (not_allowed, rows)
  end.

(** A table with a key column: at most one row per key. *)
Definition upsert {R} (key : R -> string) (new : list R) (m : gmap string R) : gmap string R :=
  foldl (fun acc r => <[key r := r]> acc) m new.

Definition merge_duplicates (p : option string) : bool :=
  match p with
  | Some s => String.eqb s "resolution=merge-duplicates"
  | None => false
  end.

Definition serve_keyed {R} (key_column : string) (key : R -> string)
    (f : option Filter) (m : Method) (b : option (list R)) (p : option string)
    (representation : bool) (rows : gmap string R) : Response (list R) * gmap string R :=
  match m with
  | GET =>
      match f with
      | None => (Success 200 (Parsed (map snd (map_to_list rows))), rows)
      | Some f =>
          if String.eqb (column f) key_column
          then (Success 200 (Parsed (option_list (rows !! equals f))), rows)
          else (bad_request, rows)
      end
  | POST =>
      match b with
      | Some new =>
          if merge_duplicates p || forallb (fun r => bool_decide (rows !! key r = None)) new
          then (Success 201 (reply representation new), upsert key new rows)
          else (conflict, rows)
      | None => (bad_request, rows)
      end
  | DELETE =>
      match f with
      | Some f =>
          if String.eqb (column f) key_column
          then (Success (if representation then 200 else 204)
                        (reply representation (option_list (rows !! equals f))),
                delete (equals f) rows)
          else (bad_request, rows)
      | None => (bad_request, rows)
      end
  | _ => (not_allowed, rows)
  end.

Definition ingredient_column (c : string) (r : UserIngredientRecord) : option string :=
  if String.eqb c "user_id" then Some (user_id r)
  else if String.eqb c "ingredient_name" then Some (ingredient_name r)
  else if String.eqb c "quantity" then Some (ingredient_quantity r)
  else None.

Definition saved_column (c : string) (r : UserSavedRecipeRecord) : option string :=
  if String.eqb c "user_id" then Some (saved_user_id r)
  else if String.eqb c "recipe_name" then Some (saved_recipe_name r)
  else None.

Definition event_column (c : string) (r : SearchEventRecord) : option string :=
  if String.eqb c "user_id" then event_user_id r
  else if String.eqb c "recipe_name" then Some (event_recipe_name r)
  else if String.eqb c "search_term" then Some (search_term r)
  else None.

(** The store's answer to a request it accepts to process. *)
Definition serve (t : Table) : Request t -> bool -> Store ->
    Response (list (rowT t)) * Store :=
  match t with
  | user_profiles => fun req representation s =>
      let '(r, m) := serve_keyed "id" id (filter_by req) (method req) (body req)
                       (prefer req) representation (profiles s) in
      (r, {| profiles := m; pantry := pantry s; saved := saved s;
             events := events s; counts := counts s |})
  | user_ingredients => fun req representation s =>
      let '(r, l) := serve_rows ingredient_column (filter_by req) (method req) (body req)
                       representation (pantry s) in
      (r, {| profiles := profiles s; pantry := l; saved := saved s;
             events := events s; counts := counts s |})
  | user_saved_recipes => fun req representation s =>
      let '(r, l) := serve_rows saved_column (filter_by req) (method req) (body req)
                       representation (saved s) in
      (r, {| profiles := profiles s; pantry := pantry s; saved := l;
             events := events s; counts := counts s |})
  | search_events => fun req representation s =>
      let '(r, l) := serve_rows event_column (filter_by req) (method req) (body req)
                       representation (events s) in
      (r, {| profiles := profiles s; pantry := pantry s; saved := saved s;
             events := l; counts := counts s |})
  | recipe_search_counts => fun req representation s =>
      let '(r, m) := serve_keyed "recipe_name" recipe_name (filter_by req) (method req)
                       (body req) (prefer req) representation (counts s) in
      (r, {| profiles := profiles s; pantry := pantry s; saved := saved s;
             events := events s; counts := m |})
  end.

(** *** The world the client runs in *)

(** What the network and the store do with the next request. *)
Inductive Behaviour :=
| Unreachable (e : exn)                              (* [fetch] rejects *)
| Refuse (status : Z) (statusText text : string)     (* non-2xx answer, nothing stored *)
| Serve (representation : bool).                     (* processed; writes echo rows or not *)

Record RequestLine := {
  to_table : Table;
  with_filter : option Filter;
  with_method : Method
}.

Inductive LogEntry :=
| SkipWarning (t : Table) (f : option Filter)
| ErrorEntry (label : string) (e : exn).

(** An entry of [localStorage]: text that [JSON.parse] rejects, or a
    serialised value. *)
Inductive Stored (T : Type) :=
| Corrupt
| Snapshot (v : T).
Arguments Corrupt {T}.
Arguments Snapshot {T} v.

Record LocalStorage := {
  stored_settings : gmap string (Stored UserSettings);
  stored_ingredients : gmap string (Stored (list Ingredient));
  stored_savedRecipes : gmap string (Stored (list Recipes.Recipe));
  stored_shoppingList : gmap string (Stored (list ShoppingListItem))
}.

Record World := {
  config : Config;
  store : Store;
  script : list Behaviour;
  sent : list RequestLine;
  console : list LogEntry;
  localStorage : LocalStorage
}.

Definition with_store (s : Store) (w : World) : World :=
  {| config := config w; store := s; script := script w; sent := sent w;
     console := console w; localStorage := localStorage w |}.

Definition with_request (l : RequestLine) (w : World) : World :=
  {| config := config w; store := store w; script := tail (script w);
     sent := (sent w ++ [l])%list; console := console w;
     localStorage := localStorage w |}.

Definition with_log (e : LogEntry) (w : World) : World :=
  {| config := config w; store := store w; script := script w; sent := sent w;
     console := (console w ++ [e])%list; localStorage := localStorage w |}.

Definition with_localStorage (ls : LocalStorage) (w : World) : World :=
  {| config := config w; store := store w; script := script w; sent := sent w;
     console := console w; localStorage := ls |}.

(** Asynchronous code: a computation on the world that resolves or
    rejects. *)
Definition M (A : Type) : Type := World -> result A * World.

Definition ret {A} (a : A) : M A := fun w => (Ok a, w).

Definition throw {A} (e : exn) : M A := fun w => (Throw e, w).

Definition bind {A B} (m : M A) (k : A -> M B) : M B :=
  fun w => match m w with
           | (Ok a, w') => k a w'
           | (Throw e, w') => (Throw e, w')
           end.

Definition catch {A} (m : M A) (handler : exn -> M A) : M A :=
  fun w => match m w with
           | (Ok a, w') => (Ok a, w')
           | (Throw e, w') => handler e w'
           end.

Notation "'do' x <- m ; k" := (bind m (fun x => k))
  (at level 10, x name, m at level 100, k at level 200).

Definition console_warn (e : LogEntry) : M unit := fun w => (Ok tt, with_log e w).

Definition console_error (label : string) (e : exn) : M unit :=
  fun w => (Ok tt, with_log (ErrorEntry label e) w).

(** An exhausted script stands for a store that keeps answering. *)
Definition next_behaviour (w : World) : Behaviour :=
  match script w with
  | b :: _ => b
  | [] => Serve false
  end.

Definition fetch {t} (req : Request t) : M (Response (list (rowT t))) :=
  fun w =>
    let line := {| to_table := t; with_filter := filter_by req; with_method := method req |} in
    match next_behaviour w with
    | Unreachable e => (Throw e, with_request line w)
    | Refuse status statusText text =>
        (Ok (Failure status statusText text), with_request line w)
    | Serve representation =>
        let '(r, s) := serve t req representation (store w) in
        (Ok r, with_store s (with_request line w))
    end.

(** *** services/supabaseClient.ts *)

Definition handleResponse {T} (response : Response T) : M (option T) :=
  match response with
  | Failure status statusText text =>
      let details := or_else text statusText in
      throw (Thrown Error
        ("Supabase request failed (" +:+ pretty status +:+ "): " +:+ details))
  | Success _ Blank => ret None
  | Success _ (Parsed v) => ret (Some v)
  | Success _ (Unparsable _) => throw (Thrown SyntaxError "Unexpected token in JSON")
  end.

(** The type of the request primitive, [supabaseRequest<T>(path, init)]. *)
Definition Primitive : Type := forall t, Request t -> M (option (list (rowT t))).

(** The client guarded by [isSupabaseConfigured]. *)
Module Client.

Definition supabaseRequest : Primitive := fun t req w =>
  if negb (isSupabaseConfigured (config w)) then
    (do _ <- console_warn (SkipWarning t (filter_by req)) ; ret None) w
  else
    (do response <- fetch req ; handleResponse response) w.

End Client.

(** The client that also carries the auth code, guarded by
    [hasSupabaseConfig]. *)
Module AuthClient.

Definition hasSupabaseConfig (c : Config) : bool :=
  present (supabaseUrl c) && present (supabaseAnonKey c).

Definition supabaseRequest : Primitive := fun t req w =>
  if negb (hasSupabaseConfig (config w)) then
    throw (Thrown Error "Supabase is not configured.") w
  else
    (do response <- fetch req ; handleResponse response) w.

End AuthClient.

(** *** services/supabaseService.ts *)

Section Service.
Variable supabaseRequest : Primitive.
(** [String.prototype.trim] *)
Variable trim : string -> string.

Definition merge : option string := Some "resolution=merge-duplicates".

(** [const [row] = value]: the first element of an array, [undefined] for
    an empty one; [undefined] itself is not iterable. *)
Definition first_row {R} (value : option (list R)) : M (option R) :=
  match value with
  | None => throw (Thrown TypeError "undefined is not iterable")
  | Some rows => ret (head rows)
  end.

Definition saveUserProfile (profile : UserProfileRecord) : M (option UserProfileRecord) :=
  let payload :=
    {| id := id profile;
       email := email profile;
       display_name := display_name profile;
       has_completed_onboarding := Some (default false (has_completed_onboarding profile));
       preferred_cuisines := Some (default [] (preferred_cuisines profile)) |} in
  do rows <- supabaseRequest user_profiles
       (mkRequest user_profiles None POST (Some [payload]) merge) ;
  first_row rows.

Definition recordRecipeSearch (userId : option string) (recipeName : string)
    (searchTerm : option string) : M (option RecipeSearchCount) :=
  let recipeLabel := trim recipeName in
  let term := trim (default recipeLabel searchTerm) in
  do _ <- supabaseRequest search_events
       (mkRequest search_events None POST
        (Some [ {| event_user_id := userId; event_recipe_name := recipeLabel;
                   search_term := term |} ])
        None) ;
  do existing <- supabaseRequest recipe_search_counts
       (mkRequest recipe_search_counts
        (Some {| column := "recipe_name"; equals := recipeLabel |}) GET None None) ;
  let nextCount :=
    js_add (default 0%Z (to_double <$> (search_count <$> (existing ≫= head)))) 1 in
  do rows <- supabaseRequest recipe_search_counts
       (mkRequest recipe_search_counts None POST
        (Some [ {| recipe_name := recipeLabel; search_count := nextCount |} ]) merge) ;
  first_row rows.

Definition getUserIngredients (userId : string) : M (list UserIngredientRecord) :=
  if negb (truthy userId) then
    throw (Thrown Error "User ID is required to fetch ingredients.")
  else
    do data <- supabaseRequest user_ingredients
         (mkRequest user_ingredients
            (Some {| column := "user_id"; equals := userId |}) GET None None) ;
    ret (default [] data).

Definition replaceUserIngredients (userId : string) (ingredients : list Ingredient)
    : M (list UserIngredientRecord) :=
  if negb (truthy userId) then
    throw (Thrown Error "User ID is required to update ingredients.")
  else
    do _ <- supabaseRequest user_ingredients
         (mkRequest user_ingredients
            (Some {| column := "user_id"; equals := userId |}) DELETE None None) ;
    if (length ingredients =? 0)%nat then ret []
    else
      let records := map (fun ingredient =>
                            {| user_id := userId;
                               ingredient_name := name ingredient;
                               ingredient_quantity := quantity ingredient |}) ingredients in
      do data <- supabaseRequest user_ingredients
           (mkRequest user_ingredients None POST (Some records) None) ;
      ret (default [] data).

(** Modelled from the spec: [getUserSavedRecipes] is imported by App.tsx
    from services/supabaseService.ts but is absent from the copy of that
    file at hand.  Section 4.3: a simple filtered read that defaults to an
    empty collection. *)
Definition getUserSavedRecipes (userId : string) : M (list UserSavedRecipeRecord) :=
  do data <- supabaseRequest user_saved_recipes
       (mkRequest user_saved_recipes
          (Some {| column := "user_id"; equals := userId |}) GET None None) ;
  ret (default [] data).

(** Modelled from the spec: [replaceUserSavedRecipes] is absent from the
    same file.  Section 4.3: the delete-then-insert contract of the pantry,
    keyed by (userId, recipeName). *)
Definition replaceUserSavedRecipes (userId : string) (recipes : list Recipes.Recipe)
    : M (list UserSavedRecipeRecord) :=
  do _ <- supabaseRequest user_saved_recipes
       (mkRequest user_saved_recipes
          (Some {| column := "user_id"; equals := userId |}) DELETE None None) ;
  if (length recipes =? 0)%nat then ret []
  else
    let records := map (fun recipe =>
                          {| saved_user_id := userId;
                             saved_recipe_name := Recipes.recipeName recipe;
                             recipe_data := recipe |}) recipes in
    do data <- supabaseRequest user_saved_recipes
         (mkRequest user_saved_recipes None POST (Some records) None) ;
    ret (default [] data).

End Service.

End Supabase.

(** ** The local-first synchronisation of App.tsx *)

Module App.
Import JS Types Supabase.

Definition defaultSettings : UserSettings :=
  {| cookingLevel := "Beginner";
     allergies := [];
     preferredCuisines := [];
     dislikedIngredients := [];
     availableTools := [];
     spicinessPreference := 3;
     maxCookTime := 30 |}.

(** The [useState] cells of [AppContent] that the synchronisation reads
    and writes. *)
Record AppState := {
  currentUser : option User;
  settings : UserSettings;
  ingredients : list Ingredient;
  shoppingList : list ShoppingListItem;
  savedRecipes : list Recipes.Recipe;
  ingredientsLoaded : bool;
  savedRecipesLoaded : bool
}.

Definition setSettings (v : UserSettings) (st : AppState) : AppState :=
  {| currentUser := currentUser st; settings := v; ingredients := ingredients st;
     shoppingList := shoppingList st; savedRecipes := savedRecipes st;
     ingredientsLoaded := ingredientsLoaded st;
     savedRecipesLoaded := savedRecipesLoaded st |}.

Definition setIngredients (v : list Ingredient) (st : AppState) : AppState :=
  {| currentUser := currentUser st; settings := settings st; ingredients := v;
     shoppingList := shoppingList st; savedRecipes := savedRecipes st;
     ingredientsLoaded := ingredientsLoaded st;
     savedRecipesLoaded := savedRecipesLoaded st |}.

Definition setShoppingList (v : list ShoppingListItem) (st : AppState) : AppState :=
  {| currentUser := currentUser st; settings := settings st;
     ingredients := ingredients st; shoppingList := v;
     savedRecipes := savedRecipes st; ingredientsLoaded := ingredientsLoaded st;
     savedRecipesLoaded := savedRecipesLoaded st |}.

Definition setSavedRecipes (v : list Recipes.Recipe) (st : AppState) : AppState :=
  {| currentUser := currentUser st; settings := settings st;
     ingredients := ingredients st; shoppingList := shoppingList st;
     savedRecipes := v; ingredientsLoaded := ingredientsLoaded st;
     savedRecipesLoaded := savedRecipesLoaded st |}.

Definition setIngredientsLoaded (v : bool) (st : AppState) : AppState :=
  {| currentUser := currentUser st; settings := settings st;
     ingredients := ingredients st; shoppingList := shoppingList st;
     savedRecipes := savedRecipes st; ingredientsLoaded := v;
     savedRecipesLoaded := savedRecipesLoaded st |}.

Definition setSavedRecipesLoaded (v : bool) (st : AppState) : AppState :=
  {| currentUser := currentUser st; settings := settings st;
     ingredients := ingredients st; shoppingList := shoppingList st;
     savedRecipes := savedRecipes st; ingredientsLoaded := ingredientsLoaded st;
     savedRecipesLoaded := v |}.

Definition setCurrentUser (v : option User) (st : AppState) : AppState :=
  {| currentUser := v; settings := settings st;
     ingredients := ingredients st; shoppingList := shoppingList st;
     savedRecipes := savedRecipes st; ingredientsLoaded := ingredientsLoaded st;
     savedRecipesLoaded := savedRecipesLoaded st |}.

(** [`ohmycook-${key}-${userId ?? 'guest'}`] *)
Definition getUserScopedKey (key : string) (userId : option string) : string :=
  "ohmycook-" +:+ key +:+ "-" +:+ default "guest" userId.

(** [stored ? JSON.parse(stored) : fallback], the fallback also when the
    parse throws. *)
Definition loadCachedState {T} (slot : gmap string (Stored T)) (key : string) (fallback : T) : T :=
  match slot !! key with
  | Some (Snapshot v) => v
  | Some Corrupt => fallback
  | None => fallback
  end.

(** [email.split('@')[0]] *)
Fixpoint before_at (s : string) : string :=
  match s with
  | EmptyString => EmptyString
  | String c rest => if Ascii.eqb c "@"%char then EmptyString else String c (before_at rest)
  end.

(** The request primitive of the client the application is built with. *)
Section Effects.
Variable supabaseRequest : Primitive.

(** The effect on [currentUser, settings, ingredients, savedRecipes,
    shoppingList]: the four snapshots go to the local cache. *)
Definition persistEffect (st : AppState) : M unit :=
  match currentUser st with
  | None => ret tt
  | Some user =>
      let settingsKey := getUserScopedKey "settings" (Some (user_key user)) in
      let ingredientsKey := getUserScopedKey "ingredients" (Some (user_key user)) in
      let savedRecipesKey := getUserScopedKey "savedrecipes" (Some (user_key user)) in
      let shoppingListKey := getUserScopedKey "shoppinglist" (Some (user_key user)) in
      fun w =>
        let ls := localStorage w in
        (Ok tt,
         with_localStorage
           {| stored_settings := <[settingsKey := Snapshot (settings st)]> (stored_settings ls);
              stored_ingredients :=
                <[ingredientsKey := Snapshot (ingredients st)]> (stored_ingredients ls);
              stored_savedRecipes :=
                <[savedRecipesKey := Snapshot (savedRecipes st)]> (stored_savedRecipes ls);
              stored_shoppingList :=
                <[shoppingListKey := Snapshot (shoppingList st)]> (stored_shoppingList ls) |}
           w)
  end.

(** The effect on [currentUser, ingredients, ingredientsLoaded]. *)
Definition pushIngredientsEffect (st : AppState) : M unit :=
  match currentUser st with
  | None => ret tt
  | Some user =>
      if negb (ingredientsLoaded st) then ret tt
      else
        catch (do _ <- replaceUserIngredients supabaseRequest (user_key user) (ingredients st) ;
               ret tt)
              (fun error => console_error "Failed to persist ingredients to Supabase" error)
  end.

(** The effect on [currentUser, savedRecipes, savedRecipesLoaded]. *)
Definition pushSavedRecipesEffect (st : AppState) : M unit :=
  match currentUser st with
  | None => ret tt
  | Some user =>
      if negb (savedRecipesLoaded st) then ret tt
      else
        catch (do _ <- replaceUserSavedRecipes supabaseRequest (user_key user) (savedRecipes st) ;
               ret tt)
              (fun error => console_error "Failed to persist saved recipes to Supabase" error)
  end.

(** [syncUserData], started by the effect on [currentUser].  [st] is the
    state its [set...] calls meet when the requests have settled. *)
Definition syncUserData (user : User) (cachedSettings : UserSettings) (st : AppState)
    : M AppState :=
  do st' <-
    catch
      (do _ <- saveUserProfile supabaseRequest
                 {| id := user_key user;
                    email := user_email user;
                    display_name := Some (before_at (user_email user));
                    has_completed_onboarding := Some (hasCompletedOnboarding user);
                    preferred_cuisines := Some (preferredCuisines cachedSettings) |} ;
       do remoteIngredients <-
            catch (getUserIngredients supabaseRequest (user_key user)) (fun _ => ret []) ;
       do remoteSavedRecipes <-
            catch (getUserSavedRecipes supabaseRequest (user_key user)) (fun _ => ret []) ;
       let st1 :=
         setIngredients
           (if (0 <? length remoteIngredients)%nat
            then map (fun item => {| name := ingredient_name item;
                                     quantity := ingredient_quantity item |})
                     remoteIngredients
            else [])
           st in
       let st2 :=
         setSavedRecipes
           (if (0 <? length remoteSavedRecipes)%nat
            then map recipe_data remoteSavedRecipes
            else [])
           st1 in
       ret st2)
      (fun error =>
         do _ <- console_error "Failed to sync user data from Supabase" error ;
         ret st) ;
  ret (setSavedRecipesLoaded true (setIngredientsLoaded true st')).

(** The synchronous part of the effect on [currentUser]: without a user
    the state is reset, with one the four cached collections are loaded;
    both gates are closed.  The second component is [cachedSettings]. *)
Definition loadSession (st : AppState) (w : World) : AppState * UserSettings :=
  match currentUser st with
  | None =>
      (setSavedRecipesLoaded false (setIngredientsLoaded false
         (setShoppingList [] (setSavedRecipes [] (setIngredients []
            (setSettings defaultSettings st))))),
       defaultSettings)
  | Some user =>
      let ls := localStorage w in
      let settingsKey := getUserScopedKey "settings" (Some (user_key user)) in
      let ingredientsKey := getUserScopedKey "ingredients" (Some (user_key user)) in
      let savedRecipesKey := getUserScopedKey "savedrecipes" (Some (user_key user)) in
      let shoppingListKey := getUserScopedKey "shoppinglist" (Some (user_key user)) in
      let cachedSettings := loadCachedState (stored_settings ls) settingsKey defaultSettings in
      (setSavedRecipesLoaded false (setIngredientsLoaded false
         (setShoppingList (loadCachedState (stored_shoppingList ls) shoppingListKey [])
            (setSavedRecipes (loadCachedState (stored_savedRecipes ls) savedRecipesKey [])
               (setIngredients (loadCachedState (stored_ingredients ls) ingredientsKey [])
                  (setSettings cachedSettings st))))),
       cachedSettings)
  end.

(** The state variables an effect depends on. *)
Inductive StateVar :=
| VCurrentUser | VSettings | VIngredients | VSavedRecipes | VShoppingList
| VIngredientsLoaded | VSavedRecipesLoaded.

#[global] Instance StateVar_eq_dec : EqDecision StateVar.
Proof. solve_decision. Defined.

Definition persist_deps : list StateVar :=
  [VCurrentUser; VSettings; VIngredients; VSavedRecipes; VShoppingList].
Definition pushIngredients_deps : list StateVar :=
  [VCurrentUser; VIngredients; VIngredientsLoaded].
Definition pushSavedRecipes_deps : list StateVar :=
  [VCurrentUser; VSavedRecipes; VSavedRecipesLoaded].

Definition triggered (changed deps : list StateVar) : bool :=
  existsb (fun v => bool_decide (v ∈ deps)) changed.

Definition when (b : bool) (m : M unit) : M unit := if b then m else ret tt.

(** After a render in which the variables [changed] have new values, the
    effects that depend on one of them run, in the order of their
    declaration. *)
Definition run_effects (changed : list StateVar) (st : AppState) : M unit :=
  do _ <- when (triggered changed persist_deps) (persistEffect st) ;
  do _ <- when (triggered changed pushIngredients_deps) (pushIngredientsEffect st) ;
  when (triggered changed pushSavedRecipes_deps) (pushSavedRecipesEffect st).

(** A local mutation of the pantry ([setIngredients] from the ingredient
    manager or from onboarding) and the effects of the render it causes. *)
Definition mutateIngredients (f : list Ingredient -> list Ingredient) (st : AppState)
    : M AppState :=
  let st' := setIngredients (f (ingredients st)) st in
  do _ <- run_effects [VIngredients] st' ;
  ret st'.

(** [handleToggleSaveRecipe]'s update of the saved recipes. *)
Definition toggleSaveRecipe (recipeToToggle : Recipes.Recipe) (prev : list Recipes.Recipe)
    : list Recipes.Recipe :=
  let same (r : Recipes.Recipe) :=
    String.eqb (Recipes.recipeName r) (Recipes.recipeName recipeToToggle) in
  if existsb same prev
  then List.filter (fun r => negb (same r)) prev
  else (prev ++ [recipeToToggle])%list.

(** A local mutation of the saved recipes and the effects of the render
    it causes. *)
Definition mutateSavedRecipes (f : list Recipes.Recipe -> list Recipes.Recipe)
    (st : AppState) : M AppState :=
  let st' := setSavedRecipes (f (savedRecipes st)) st in
  do _ <- run_effects [VSavedRecipes] st' ;
  ret st'.

(** Local mutations made one after the other, each with its render. *)
Inductive Mutation :=
| MutatePantry (f : list Ingredient -> list Ingredient)
| MutateSaved (f : list Recipes.Recipe -> list Recipes.Recipe).

Definition mutate (m : Mutation) (st : AppState) : M AppState :=
  match m with
  | MutatePantry f => mutateIngredients f st
  | MutateSaved f => mutateSavedRecipes f st
  end.

Fixpoint mutations (ms : list Mutation) (st : AppState) : M AppState :=
  match ms with
  | [] => ret st
  | m :: rest => do st' <- mutate m st ; mutations rest st'
  end.

(** The effect on [currentUser], with the renders it causes: the cache is
    loaded and the gates are closed, the effects of that render run, then
    the remote data arrives and the effects of the last render run. *)
Definition sessionEffect (st : AppState) : M AppState :=
  fun w =>
    let '(st1, cachedSettings) := loadSession st w in
    match currentUser st with
    | None =>
        (do _ <- run_effects [VSettings; VIngredients; VSavedRecipes; VShoppingList;
                              VIngredientsLoaded; VSavedRecipesLoaded] st1 ;
         ret st1) w
    | Some user =>
        (do _ <- run_effects [VSettings; VIngredients; VSavedRecipes; VShoppingList;
                              VIngredientsLoaded; VSavedRecipesLoaded] st1 ;
         do st2 <- syncUserData user cachedSettings st1 ;
         do _ <- run_effects [VIngredients; VSavedRecipes;
                              VIngredientsLoaded; VSavedRecipesLoaded] st2 ;
         ret st2) w
    end.

End Effects.

End App.

(** * Vocabulary of the properties and sample data *)

(** ** Executor scenarios *)

Section ExecutorScenarios.
Import JS Gemini.

(** The double quote character. *)
Definition dquote : string := String (ascii_of_nat 34) EmptyString.

(** A "model overloaded (503)" answer. *)
Definition overloaded_503 : FetchOutcome :=
  Resolves {| ok := false; status := 503;
              text := "{" +:+ dquote +:+ "error" +:+ dquote +:+ ":" +:+ dquote
                      +:+ "The model is overloaded (503)" +:+ dquote +:+ "}";
              json_body := Some (JObj [("error", JStr "The model is overloaded (503)")]) |}.

(** The page of a gateway that timed out: not JSON. *)
Definition gateway_timeout : FetchOutcome :=
  Resolves {| ok := false; status := 504;
              text := "<html>504 Gateway Time-out</html>";
              json_body := None |}.

End ExecutorScenarios.

(** ** Retrieval scenarios *)

Section RetrievalScenarios.
Import JS Recipes.

(** Two overview entries that collide on "Kimchi Stew", and a third one. *)
Definition sample_recipe (n d : string) (t : Z) : Recipe :=
  {| recipeName := n; englishRecipeName := n; description := d; cuisine := "korean";
     cookTime := t; difficulty := Easy; spiciness := 3; calories := 400; servings := 2;
     ingredients := ["Kimchi"]; missingIngredients := []; instructions := [];
     substitutions := []; isDetailsLoaded := false |}.

Definition stew : Recipe := sample_recipe "Kimchi Stew" "Spicy and hearty" 30.

Definition stew_twin : Recipe := sample_recipe "Kimchi Stew" "A milder take" 45.

Definition pancake : Recipe := sample_recipe "Kimchi Pancake" "Crisp" 20.

Definition stew_details : PartialRecipe :=
  {| p_recipeName := None; p_englishRecipeName := None; p_description := None;
     p_cuisine := None; p_cookTime := None; p_difficulty := None; p_spiciness := None;
     p_calories := None; p_servings := None;
     p_ingredients := Some ["300g Kimchi"; "200g Pork"];
     p_missingIngredients := None;
     p_instructions := Some ["Fry the pork"; "Add kimchi and water"; "Simmer"];
     p_substitutions := Some [];
     p_isDetailsLoaded := None |}.

Definition sample_view : View :=
  {| recipes := [stew; stew_twin; pancake]; selectedRecipe := None;
     detailCalls := []; errorLog := [] |}.

Definition details_available : string -> list string -> Language -> result PartialRecipe :=
  fun _ _ _ => Ok stew_details.

Definition details_unavailable : string -> list string -> Language -> result PartialRecipe :=
  fun _ _ _ => Throw (Thrown Error "The model is overloaded (503)").

End RetrievalScenarios.

(** ** Terms for the remote store *)

Section StoreTerms.
Import JS Types Supabase.

Definition line_of {t} (req : Request t) : RequestLine :=
  {| to_table := t; with_filter := filter_by req; with_method := method req |}.

Definition owned_by (userId : string) (r : UserIngredientRecord) : Prop :=
  user_id r = userId.

#[global] Instance owned_by_dec userId r : Decision (owned_by userId r).
Proof. unfold owned_by. apply _. Defined.

Definition by_user (userId : string) : option Filter :=
  Some {| column := "user_id"; equals := userId |}.

(** The rows that [replaceUserIngredients] sends for a pantry. *)
Definition records_of (userId : string) (ingredients : list Ingredient)
    : list UserIngredientRecord :=
  map (fun ingredient => {| user_id := userId;
                            ingredient_name := name ingredient;
                            ingredient_quantity := quantity ingredient |}) ingredients.

Definition with_pantry (l : list UserIngredientRecord) (s : Store) : Store :=
  {| profiles := profiles s; pantry := l; saved := saved s;
     events := events s; counts := counts s |}.

Definition delete_pantry (userId : string) : Request user_ingredients :=
  mkRequest user_ingredients (by_user userId) DELETE None None.

Definition insert_pantry (rows : list UserIngredientRecord) : Request user_ingredients :=
  mkRequest user_ingredients None POST (Some rows) None.

Definition select_pantry (userId : string) : Request user_ingredients :=
  mkRequest user_ingredients (by_user userId) GET None None.

Definition with_events (l : list SearchEventRecord) (s : Store) : Store :=
  {| profiles := profiles s; pantry := pantry s; saved := saved s;
     events := l; counts := counts s |}.

Definition with_counts (m : gmap string RecipeSearchCount) (s : Store) : Store :=
  {| profiles := profiles s; pantry := pantry s; saved := saved s;
     events := events s; counts := m |}.

(** The count stored for a recipe name, 0 when there is no row. *)
Definition stored_count (label : string) (s : Store) : Z :=
  default 0%Z (search_count <$> counts s !! label).

(** The counts that the client reads and increments without rounding:
    those from -2^53 up to, but not including, 2^53. *)
Definition counted_exactly (c : Z) : Prop :=
  (-9007199254740992 <= c < 9007199254740992)%Z.

(** The error with which a request fails under a behaviour of the store,
    if it does: the network failure, or the error that [handleResponse]
    makes of a non-2xx answer. *)
Definition failure_of (b : Behaviour) : option exn :=
  match b with
  | Unreachable e => Some e
  | Refuse status statusText text =>
      Some (Thrown Error ("Supabase request failed (" +:+ pretty status +:+ "): "
                          +:+ or_else text statusText))
  | Serve _ => None
  end.

Definition saved_by (userId : string) (r : UserSavedRecipeRecord) : Prop :=
  saved_user_id r = userId.

#[global] Instance saved_by_dec userId r : Decision (saved_by userId r).
Proof. unfold saved_by. apply _. Defined.

(** What a fetch of the pantry brings back under a behaviour of the
    store: the user's rows when the request is processed, nothing when it
    fails. *)
Definition fetched_pantry (b : Behaviour) (userId : string) (s : Store)
    : list UserIngredientRecord :=
  match b with
  | Serve _ => filter (owned_by userId) (pantry s)
  | _ => []
  end.

Definition fetched_saved (b : Behaviour) (userId : string) (s : Store)
    : list UserSavedRecipeRecord :=
  match b with
  | Serve _ => filter (saved_by userId) (saved s)
  | _ => []
  end.

End StoreTerms.

(** ** Store scenarios *)

Section StoreScenarios.
Import JS Types Supabase.

Definition configured : Config :=
  {| supabaseUrl := Some "https://ohmycook.supabase.co"; supabaseAnonKey := Some "anon-key" |}.

Definition unconfigured : Config :=
  {| supabaseUrl := None; supabaseAnonKey := Some "anon-key" |}.

Definition empty_cache : LocalStorage :=
  {| stored_settings := ∅; stored_ingredients := ∅;
     stored_savedRecipes := ∅; stored_shoppingList := ∅ |}.

(** The pantry of "u" holds one egg row, next to a row of "v". *)
Definition egg_store : Store :=
  {| profiles := ∅;
     pantry := [ {| user_id := "u"; ingredient_name := "Egg"; ingredient_quantity := "2" |};
                 {| user_id := "v"; ingredient_name := "Milk"; ingredient_quantity := "1L" |} ];
     saved := []; events := []; counts := ∅ |}.

Definition world_of (c : Config) (s : Store) (behaviours : list Behaviour) : World :=
  {| config := c; store := s; script := behaviours; sent := []; console := [];
     localStorage := empty_cache |}.

(** A [trim] for ASCII blanks, enough for the scenario. *)
Definition is_blank (c : ascii) : bool :=
  Ascii.eqb c " "%char || Ascii.eqb c (ascii_of_nat 9) || Ascii.eqb c (ascii_of_nat 10)
  || Ascii.eqb c (ascii_of_nat 13).

Fixpoint trim_start (s : string) : string :=
  match s with
  | String c rest => if is_blank c then trim_start rest else s
  | EmptyString => EmptyString
  end.

Fixpoint trim_end (s : string) : string :=
  match s with
  | String c rest =>
      match trim_end rest with
      | EmptyString => if is_blank c then EmptyString else String c EmptyString
      | kept => String c kept
      end
  | EmptyString => EmptyString
  end.

Definition trim_blanks (s : string) : string := trim_end (trim_start s).

Definition kimchi_store : Store :=
  {| profiles := ∅; pantry := []; saved := []; events := [];
     counts := {[ "Kimchi Stew" := {| recipe_name := "Kimchi Stew"; search_count := 5 |} ]} |}.






End StoreScenarios.

(** ** Terms and scenarios for the synchronisation *)

Section SyncTerms.
Import JS Types Supabase App.

Definition to_ingredient (item : UserIngredientRecord) : Ingredient :=
  {| name := ingredient_name item; quantity := ingredient_quantity item |}.

(** The state in which [syncUserData] leaves the application when the
    fetches brought back [remoteIngredients] and [remoteSavedRecipes]. *)
Definition synced (st : AppState) (remoteIngredients : list UserIngredientRecord)
    (remoteSavedRecipes : list UserSavedRecipeRecord) : AppState :=
  {| currentUser := currentUser st; settings := settings st;
     ingredients := map to_ingredient remoteIngredients;
     shoppingList := shoppingList st;
     savedRecipes := map recipe_data remoteSavedRecipes;
     ingredientsLoaded := true; savedRecipesLoaded := true |}.

Definition cook : User :=
  {| user_key := "u"; user_email := "cook@example.com"; hasCompletedOnboarding := true |}.

(** A session that is still reconciling: the cache is loaded, the gates
    are closed. *)
Definition reconciling : AppState :=
  {| currentUser := Some cook; settings := defaultSettings;
     ingredients := [ {| name := "Egg"; quantity := "2" |} ];
     shoppingList := []; savedRecipes := [];
     ingredientsLoaded := false; savedRecipesLoaded := false |}.

Definition add_rice (l : list Ingredient) : list Ingredient :=
  (l ++ [ {| name := "Rice"; quantity := "1kg" |} ])%list.

(** A session start with a stale cached pantry. *)
Definition stale : AppState :=
  {| currentUser := Some cook; settings := defaultSettings;
     ingredients := [ {| name := "Stale bread"; quantity := "1" |} ];
     shoppingList := []; savedRecipes := [stew];
     ingredientsLoaded := false; savedRecipesLoaded := false |}.

(** The profile upsert and the pantry fetch are processed, the
    saved-recipes fetch fails. *)
Definition sync_world : World :=
  world_of configured egg_store
    [Serve true; Serve false; Refuse 503 "Service Unavailable" ""].

End SyncTerms.

(** * Further vocabulary *)

Section ExecutorTerms.
Import JS Gemini.

(** The value a fetch outcome makes [callGeminiApi] return, if any: the
    parsed body of a 2xx answer. *)
Definition returned (o : FetchOutcome) : option json :=
  match o with
  | Resolves r => if ok r then json_body r else None
  | Rejects _ => None
  end.

(** A network failure that is not an [Error] object, then two gateway
    pages. *)
Definition odd_rejection (k : nat) : FetchOutcome :=
  match k with
  | 3 => Rejects (NotAnError "aborted")
  | _ => gateway_timeout
  end.

(** An answer that is served at the second attempt. *)
Definition second_time_lucky (k : nat) : FetchOutcome :=
  match k with
  | 1 => overloaded_503
  | _ => Resolves {| ok := true; status := 200; text := "{}";
                     json_body := Some (JObj [("result", JArr [])]) |}
  end.

(** An error body without a message at the last attempt. *)
Definition silent_failure (k : nat) : FetchOutcome :=
  match k with
  | 3 => Resolves {| ok := false; status := 500; text := "{}"; json_body := Some (JObj []) |}
  | _ => overloaded_503
  end.

End ExecutorTerms.

(** * Further code of the repository *)

(** ** services/supabaseService.ts, continued *)

Module SupabaseMore.
Import JS Types Supabase.

Section Service.
Variable supabaseRequest : Primitive.

Definition appendUserIngredient (userId : string) (ingredient : Ingredient)
    : M (option UserIngredientRecord) :=
  do rows <- supabaseRequest user_ingredients
       (mkRequest user_ingredients None POST
          (Some [ {| user_id := userId; ingredient_name := name ingredient;
                     ingredient_quantity := quantity ingredient |} ])
          merge) ;
  first_row rows.

End Service.

End SupabaseMore.

Section StoreTermsMore.
Import JS Types Supabase SupabaseMore.

(** A behaviour under which the store processes the request. *)
Definition processes (b : Behaviour) : Prop :=
  match b with Serve _ => True | _ => False end.

(** A configured client in front of a store that processes every request
    the script foresees (an exhausted script processes them too). *)
Definition reliable (w : World) : Prop :=
  isSupabaseConfigured (config w) = true /\ Forall processes (script w).

(** [n] searches for one recipe, each awaited before the next one is
    started; the worlds are threaded, the results are dropped. *)
Fixpoint searches (trim : string -> string) (n : nat) (userId : option string)
    (recipeName : string) (w : World) : World :=
  match n with
  | O => w
  | S k =>
      snd (recordRecipeSearch Client.supabaseRequest trim userId recipeName None
             (searches trim k userId recipeName w))
  end.

Definition with_profiles (m : gmap string UserProfileRecord) (s : Store) : Store :=
  {| profiles := m; pantry := pantry s; saved := saved s;
     events := events s; counts := counts s |}.

(** The row that [saveUserProfile] sends for a profile. *)
Definition profile_payload (profile : UserProfileRecord) : UserProfileRecord :=
  {| id := id profile;
     email := email profile;
     display_name := display_name profile;
     has_completed_onboarding := Some (default false (has_completed_onboarding profile));
     preferred_cuisines := Some (default [] (preferred_cuisines profile)) |}.

Definition bare_profile : UserProfileRecord :=
  {| id := "u"; email := "cook@example.com"; display_name := None;
     has_completed_onboarding := None; preferred_cuisines := None |}.

Definition rice : Ingredient := {| name := "Rice"; quantity := "1kg" |}.

Definition tofu : Ingredient := {| name := "Tofu"; quantity := "1 block" |}.

End StoreTermsMore.

Section SyncTermsMore.
Import JS Types Supabase App.

(** A user record that has not been given an id yet. *)
Definition nameless : User :=
  {| user_key := ""; user_email := "guest@example.com"; hasCompletedOnboarding := false |}.

Definition nameless_session : AppState :=
  {| currentUser := Some nameless; settings := defaultSettings;
     ingredients := [rice]; shoppingList := []; savedRecipes := [];
     ingredientsLoaded := true; savedRecipesLoaded := true |}.

End SyncTermsMore.

(** ** App.tsx, continued *)

Module AppMore.
Import JS Types Supabase App.

(** The pantry update of [handleSaveSettings]: the initial ingredients
    whose name is not in the pantry yet are appended, each with the
    quantity [basicUnit] (the text of [t('basicUnit')]). *)
Definition addInitialIngredients (basicUnit : string) (initialIngredients : list string)
    (ingredients : list Ingredient) : list Ingredient :=
  if (0 <? length initialIngredients)%nat then
    let currentIngredientNames := map name ingredients in
    let newIngredientsToAdd :=
      map (fun n => {| name := n; quantity := basicUnit |})
          (List.filter (fun n => negb (existsb (String.eqb n) currentIngredientNames))
                       initialIngredients) in
    (ingredients ++ newIngredientsToAdd)%list
  else ingredients.

(** The state updates of [handleLogout]. *)
Definition handleLogout (st : AppState) : AppState :=
  setCurrentUser None
    (setShoppingList [] (setSavedRecipes [] (setIngredients []
       (setSettings defaultSettings st)))).

Section Commits.
Variable supabaseRequest : Primitive.

(** The render after [currentUser] and other variables have changed: the
    effects that depend on a changed variable run in the order of their
    declaration, the session effect last. *)
Definition commitCurrentUser (others : list StateVar) (st : AppState) : M AppState :=
  do _ <- run_effects supabaseRequest (VCurrentUser :: others) st ;
  sessionEffect supabaseRequest st.

(** [handleLogout] and the render it causes. *)
Definition logout (st : AppState) : M AppState :=
  commitCurrentUser [VSettings; VIngredients; VSavedRecipes; VShoppingList] (handleLogout st).

(** [setCurrentUser(user)] of [handleLogin] and [handleSignup], and the
    render it causes. *)
Definition establish (user : User) (st : AppState) : M AppState :=
  commitCurrentUser [] (setCurrentUser (Some user) st).

End Commits.

End AppMore.

Section AppTermsMore.
Import JS Types Supabase App AppMore.

(** The state after a logout. *)
Definition signed_out : AppState :=
  {| currentUser := None; settings := defaultSettings; ingredients := [];
     shoppingList := []; savedRecipes := [];
     ingredientsLoaded := false; savedRecipesLoaded := false |}.

(** A session in full swing. *)
Definition cooking : AppState :=
  {| currentUser := Some cook; settings := defaultSettings;
     ingredients := [rice; tofu]; shoppingList := [ {| item_name := "Kimchi" |} ];
     savedRecipes := [stew];
     ingredientsLoaded := true; savedRecipesLoaded := true |}.

(** A local cache that holds a pantry for "u". *)
Definition cached_pantry : LocalStorage :=
  {| stored_settings := ∅;
     stored_ingredients := {[ "ohmycook-ingredients-u" := Snapshot [rice; tofu] ]};
     stored_savedRecipes := ∅; stored_shoppingList := ∅ |}.

Definition local_only : World :=
  {| config := unconfigured; store := egg_store; script := []; sent := []; console := [];
     localStorage := cached_pantry |}.

End AppTermsMore.

Section ResultTerms.
Import JS Supabase.

(** The value a settled computation resolved to, if it did. *)
Definition resolved {A} (x : result A * World) : option A :=
  match fst x with
  | Ok v => Some v
  | Throw _ => None
  end.

End ResultTerms.

(** ** components/RecipeRecommendations.tsx, continued *)

Module RecipesMore.
Import JS Recipes.

Record RecipeFilters := {
  filter_cuisine : string;
  filter_servings : Z;
  filter_spiciness : string;
  filter_difficulty : string;
  filter_maxCookTime : Z
}.

(** The state that [handleFetchRecipes] touches, with the Stage-A calls it
    makes. *)
Record Panel := {
  shown : list Recipe;                 (* [recipes] *)
  isLoading : bool;
  error : option string;
  overviewCalls : list (list string * list string * RecipeFilters * Language)
}.

(** [prev.includes(name) ? prev.filter(i => i !== name) : [...prev, name]] *)
Definition togglePriorityIngredient (n : string) (prev : list string) : list string :=
  if existsb (String.eqb n) prev
  then List.filter (fun i => negb (String.eqb i n)) prev
  else (prev ++ [n])%list.

Section Fetch.
(** [getRecipeRecommendations] of services/geminiService.ts as the component
    sees it, and the translation [t]. *)
Variable getRecipeRecommendations :
  list string -> list string -> RecipeFilters -> Language -> result (list Recipe).
Variable t : string -> string.
Variable ingredientNames : list string.    (* [ingredients.map(ing => ing.name)] *)
Variable priorityIngredients : list string.
Variable filters : RecipeFilters.
Variable language : Language.

Definition handleFetchRecipes (p : Panel) : Panel :=
  if (length ingredientNames =? 0)%nat then
    {| shown := shown p; isLoading := isLoading p;
       error := Some (t "addIngredientsFirst"); overviewCalls := overviewCalls p |}
  else
    let calls :=
      (overviewCalls p ++ [(ingredientNames, priorityIngredients, filters, language)])%list in
    match getRecipeRecommendations ingredientNames priorityIngredients filters language with
    | Ok fetched =>
        {| shown := fetched; isLoading := false;
           error := if (length fetched =? 0)%nat then Some (t "noRecipesFound") else None;
           overviewCalls := calls |}
    | Throw err =>
        {| shown := []; isLoading := false;
           error := Some (match err with
                          | Thrown _ message => message
                          | NotAnError _ => "An unknown error occurred."
                          end);
           overviewCalls := calls |}
    end.

End Fetch.

End RecipesMore.

Section RetrievalTermsMore.
Import JS Recipes RecipesMore.

Definition any_filters : RecipeFilters :=
  {| filter_cuisine := "any"; filter_servings := 2; filter_spiciness := "medium";
     filter_difficulty := "medium"; filter_maxCookTime := 45 |}.

(** A panel that still shows the result of an earlier search. *)
Definition earlier_result : Panel :=
  {| shown := [stew; pancake]; isLoading := false; error := None; overviewCalls := [] |}.

Definition overview_fails :
    list string -> list string -> RecipeFilters -> Language -> result (list Recipe) :=
  fun _ _ _ _ => Throw (Thrown Error "The model is overloaded (503)").

Definition plain (key : string) : string := key.

End RetrievalTermsMore.

(** ** The server side of the AI calls (api/gemini.ts) and the exported
    calls of services/geminiService.ts *)

Module Endpoint.
Import JS Gemini.

(** What [handler] reads of a [Request]: its method and how [req.json()]
    settles. *)
Record HttpRequest := {
  req_method : string;
  req_json : result json
}.

(** A [new Response(JSON.stringify(body), {status, ...})]; every response
    of [handler] has the content type application/json. *)
Record HttpResponse := {
  res_status : Z;
  res_body : json
}.

(** The lines [handler] writes with [console.error]. *)
Inductive ServerLog :=
| LogMissingKey
| LogFailure (error : exn).

(** [{ error: message }] *)
Definition error_body (message : string) : json := JObj [("error", JStr message)].

(** [{ result }]; [JSON.stringify] drops a field whose value is
    [undefined]. *)
Definition result_body (r : option json) : json :=
  match r with
  | Some v => JObj [("result", v)]
  | None => JObj []
  end.

(** [const { action, payload } = parsed]; [None] is [undefined]. *)
Definition destructure (parsed : json) : result (option json * option json) :=
  match parsed with
  | JNull => Throw (Thrown TypeError "Cannot destructure property 'action' of null")
  | JObj fields => Ok (field "action" fields, field "payload" fields)
  | _ => Ok (None, None)
  end.

(** [`${action}`] *)
Definition template (action : option json) : string :=
  match action with
  | None => "undefined"
  | Some j => to_string j
  end.

Section Handler.
(** [process.env.API_KEY] *)
Variable API_KEY : option string.
(** The four action handlers, from the payload ([None] when the body has
    none) to the value they return. *)
Variable handleGetRecipeRecommendations : option json -> result (option json).
Variable handleGetRecipeDetails : option json -> result (option json).
Variable handleAnalyzeReceipt : option json -> result (option json).
Variable handleChatWithAIChef : option json -> result (option json).

(** The [switch (action)]: strict equality with the four names. *)
Definition route (action : option json) : option (option json -> result (option json)) :=
  match action with
  | Some (JStr a) =>
      if String.eqb a "getRecipeRecommendations" then Some handleGetRecipeRecommendations
      else if String.eqb a "getRecipeDetails" then Some handleGetRecipeDetails
      else if String.eqb a "analyzeReceipt" then Some handleAnalyzeReceipt
      else if String.eqb a "chatWithAIChef" then Some handleChatWithAIChef
      else None
  | _ => None
  end.

(** The body of the [try] block. *)
Definition dispatch (req : HttpRequest) : result HttpResponse :=
  match req_json req with
  | Throw e => Throw e
  | Ok parsed =>
      match destructure parsed with
      | Throw e => Throw e
      | Ok (action, payload) =>
          match route action with
          | Some handle =>
              match handle payload with
              | Throw e => Throw e
              | Ok r => Ok {| res_status := 200; res_body := result_body r |}
              end
          | None =>
              Ok {| res_status := 400;
                    res_body := error_body ("Invalid action: " +:+ template action) |}
          end
      end
  end.

Definition handler (req : HttpRequest) : HttpResponse * list ServerLog :=
  if negb (String.eqb (req_method req) "POST") then
    ({| res_status := 405; res_body := error_body "Method Not Allowed" |}, [])
  else if negb (from_option truthy false API_KEY) then
    ({| res_status := 500;
        res_body := error_body "Server configuration error: API_KEY is missing." |},
     [LogMissingKey])
  else
    match dispatch req with
    | Ok response => (response, [])
    | Throw error =>
        ({| res_status := 500;
            res_body := error_body
              (match error with
               | Thrown _ message => message
               | NotAnError _ => "An unknown internal server error occurred."
               end) |},
         [LogFailure error])
    end.

End Handler.

(** *** The client in front of this handler *)

Section Client.
Variable API_KEY : option string.
(** The action handlers as they run for the request of attempt [k] of a
    client call: every request calls the AI service anew, so that their
    outcome may differ from one attempt to the next. *)
Variable handleGetRecipeRecommendations : nat -> option json -> result (option json).
Variable handleGetRecipeDetails : nat -> option json -> result (option json).
Variable handleAnalyzeReceipt : nat -> option json -> result (option json).
Variable handleChatWithAIChef : nat -> option json -> result (option json).

(** [JSON.stringify] of the platform, for the bodies that [handler]
    builds; parsing its text gives the body back. *)
Variable stringify : json -> string.

(** The response as the client's [fetch] delivers it. *)
Definition delivered (r : HttpResponse) : Response :=
  {| ok := (200 <=? res_status r)%Z && (res_status r <=? 299)%Z;
     status := res_status r;
     text := stringify (res_body r);
     json_body := Some (res_body r) |}.

(** The request of [callGeminiApi(action, payload)]: a POST whose body is
    [JSON.stringify({ action, payload })]. *)
Definition request_of (action : string) (payload : json) : HttpRequest :=
  {| req_method := "POST";
     req_json := Ok (JObj [("action", JStr action); ("payload", payload)]) |}.

(** The switch of the server at attempt [k]. *)
Definition routed (k : nat) (action : option json)
    : option (option json -> result (option json)) :=
  route (handleGetRecipeRecommendations k) (handleGetRecipeDetails k)
        (handleAnalyzeReceipt k) (handleChatWithAIChef k) action.

(** The answer of the server to the request of attempt [k]. *)
Definition answered (k : nat) (req : HttpRequest) : HttpResponse :=
  fst (handler API_KEY (handleGetRecipeRecommendations k) (handleGetRecipeDetails k)
         (handleAnalyzeReceipt k) (handleChatWithAIChef k) req).

(** [callGeminiApi(action, payload)] with the request of every attempt
    answered by [handler]. *)
Definition remote_call (action : string) (payload : json) : Completion * list Event :=
  callGeminiApi (fun k => Resolves (delivered (answered k (request_of action payload))))
                action.

(** [data.result] *)
Definition data_result (data : json) : result (option json) :=
  match data with
  | JNull => Throw (Thrown TypeError "Cannot read properties of null (reading 'result')")
  | JObj fields => Ok (field "result" fields)
  | _ => Ok None
  end.

(** The exported calls [getRecipeRecommendations], [getRecipeDetails],
    [analyzeReceipt] and [chatWithAIChef] of services/geminiService.ts:
    [const data = await callGeminiApi(action, payload); return
    data.result], each with its own action name and payload. *)
Definition exported_call (action : string) (payload : json) : option (result (option json)) :=
  match fst (remote_call action payload) with
  | OutOfFuel => None
  | Done (Throw e) => Some (Throw e)
  | Done (Ok data) => Some (data_result data)
  end.

End Client.

End Endpoint.

Section EndpointTerms.
Import JS Gemini Endpoint.

(** A handler of the server that answers with its payload. *)
Definition echo_handler : option json -> result (option json) :=
  fun payload => Ok payload.

(** The same at every attempt. *)
Definition echo_always : nat -> option json -> result (option json) :=
  fun _ => echo_handler.

(** A handler whose call of the AI service fails at the first attempt of
    a client call only. *)
Definition flaky_handler : nat -> option json -> result (option json) :=
  fun k payload =>
    match k with
    | 1%nat => Throw (Thrown Error "The model is overloaded. Please try again later.")
    | _ => Ok payload
    end.

Definition plain_stringify : json -> string := to_string.

(** [message || `API call failed with status: ${status}`], the message
    the client raises for an error body. *)
Definition raised_message (message : string) (status : Z) : string :=
  or_else message ("API call failed with status: " +:+ pretty status).

End EndpointTerms.

(** ** The auth client of services/supabaseClient.ts ([class SupabaseAuth])

    The code runs in a browser: [localStorage] is defined.  The
    subscribed callbacks are observers: they neither throw nor call the
    client back. *)

Module Auth.
Import JS Supabase.

Record SupabaseAuthUser := {
  auth_id : string;
  auth_email : option string
}.

Record SupabaseSession := {
  access_token : string;
  refresh_token : option string;
  expires_in : option Z;
  expires_at : option Z;
  token_type : option string;
  user : SupabaseAuthUser
}.

Inductive AuthEvent := SIGNED_IN | SIGNED_OUT | TOKEN_REFRESHED | PASSWORD_RECOVERY.

(** The requests of the client, with what distinguishes them. *)
Inductive AuthRequest :=
| TokenRequest (email password : string)     (* POST /auth/v1/token?grant_type=password *)
| SignupRequest (email password : string)    (* POST /auth/v1/signup *)
| LogoutRequest (bearer : string).           (* POST /auth/v1/logout *)

(** A callback is known by its identity; [heard] lists the calls the
    callbacks have received. *)
Record AuthWorld := {
  hasSupabaseConfig : bool;
  slot : option (Stored SupabaseSession);    (* localStorage['ohmycook-supabase-session'] *)
  listeners : list nat;                      (* the [Set], in insertion order *)
  heard : list (nat * AuthEvent * option SupabaseSession);
  requests : list AuthRequest
}.

Definition with_slot (s : option (Stored SupabaseSession)) (w : AuthWorld) : AuthWorld :=
  {| hasSupabaseConfig := hasSupabaseConfig w; slot := s; listeners := listeners w;
     heard := heard w; requests := requests w |}.

Definition with_listeners (l : list nat) (w : AuthWorld) : AuthWorld :=
  {| hasSupabaseConfig := hasSupabaseConfig w; slot := slot w; listeners := l;
     heard := heard w; requests := requests w |}.

Definition with_heard (h : list (nat * AuthEvent * option SupabaseSession)) (w : AuthWorld)
    : AuthWorld :=
  {| hasSupabaseConfig := hasSupabaseConfig w; slot := slot w; listeners := listeners w;
     heard := h; requests := requests w |}.

Definition send (r : AuthRequest) (w : AuthWorld) : AuthWorld :=
  {| hasSupabaseConfig := hasSupabaseConfig w; slot := slot w; listeners := listeners w;
     heard := heard w; requests := (requests w ++ [r])%list |}.

Definition persistSession (session : option SupabaseSession) (w : AuthWorld) : AuthWorld :=
  match session with
  | Some s => with_slot (Some (Snapshot s)) w
  | None => with_slot None w
  end.

Definition getStoredSession (w : AuthWorld) : option SupabaseSession :=
  match slot w with
  | Some (Snapshot s) => Some s
  | Some Corrupt => None
  | None => None
  end.

(** [this.listeners.add(callback)] and the [unsubscribe] it returns. *)
Definition onAuthStateChange (callback : nat) (w : AuthWorld) : AuthWorld :=
  if existsb (Nat.eqb callback) (listeners w) then w
  else with_listeners (listeners w ++ [callback])%list w.

Definition unsubscribe (callback : nat) (w : AuthWorld) : AuthWorld :=
  with_listeners (List.filter (fun cb => negb (Nat.eqb cb callback)) (listeners w)) w.

Definition notify (event : AuthEvent) (session : option SupabaseSession) (w : AuthWorld)
    : AuthWorld :=
  with_heard (heard w ++ map (fun cb => (cb, event, session)) (listeners w))%list w.

(** [{ data: { session, user }, error }] *)
Record AuthResponse := {
  data_session : option SupabaseSession;
  data_user : option SupabaseAuthUser;
  error : option exn
}.

Definition not_configured : exn := Thrown Error "Supabase is not configured.".

(** [{ data: { session }, error }] *)
Definition getSession (w : AuthWorld) : option SupabaseSession * option exn :=
  if negb (hasSupabaseConfig w) then (None, Some not_configured)
  else (getStoredSession w, None).

(** What the answer of the token and signup endpoints holds: [p_error] is
    the message of [payload.error] (empty when it has none). *)
Record TokenPayload := {
  p_error : option string;
  p_access_token : option string;
  p_user : option SupabaseAuthUser;
  p_session : option SupabaseSession
}.

(** How the request and [toJson] settle. *)
Inductive TokenAnswer :=
| FetchRejects (e : exn)
| BodyUnparsable (e : exn)
| Answers (ok : bool) (payload : TokenPayload).

Definition failed (message : string) : AuthResponse :=
  {| data_session := None; data_user := None; error := Some (Thrown Error message) |}.

Definition signInWithPassword (email password : string) (answer : TokenAnswer)
    (w : AuthWorld) : result AuthResponse * AuthWorld :=
  if negb (hasSupabaseConfig w) then
    (Ok {| data_session := None; data_user := None; error := Some not_configured |}, w)
  else
    let w1 := send (TokenRequest email password) w in
    match answer with
    | FetchRejects e => (Throw e, w1)
    | BodyUnparsable e => (Throw e, w1)
    | Answers ok payload =>
        if negb ok || bool_decide (is_Some (p_error payload)) then
          (Ok (failed (or_else (default "" (p_error payload)) "Unable to sign in.")), w1)
        else
          let session :=
            match p_access_token payload, p_user payload with
            | Some token, Some u =>
                if truthy token then
                  Some {| access_token := token; refresh_token := None; expires_in := None;
                          expires_at := None; token_type := None; user := u |}
                else None
            | _, _ => None
            end in
          let w2 := persistSession session w1 in
          let w3 := match session with
                    | Some s => notify SIGNED_IN (Some s) w2
                    | None => w2
                    end in
          (Ok {| data_session := session; data_user := p_user payload; error := None |}, w3)
    end.

Definition signUp (email password : string) (answer : TokenAnswer)
    (w : AuthWorld) : result AuthResponse * AuthWorld :=
  if negb (hasSupabaseConfig w) then
    (Ok {| data_session := None; data_user := None; error := Some not_configured |}, w)
  else
    let w1 := send (SignupRequest email password) w in
    match answer with
    | FetchRejects e => (Throw e, w1)
    | BodyUnparsable e => (Throw e, w1)
    | Answers ok payload =>
        if negb ok || bool_decide (is_Some (p_error payload)) then
          (Ok (failed (or_else (default "" (p_error payload)) "Unable to sign up.")), w1)
        else
          let session := p_session payload in
          let w2 := persistSession session w1 in
          let w3 := match session with
                    | Some s => notify SIGNED_IN (Some s) w2
                    | None => w2
                    end in
          (Ok {| data_session := session;
                 data_user := match p_user payload with
                              | Some u => Some u
                              | None => user <$> p_session payload
                              end;
                 error := None |}, w3)
    end.

(** [signOut] resolves to [{ error: null }] on every path, so only the
    world is returned.  The answer to the logout request is not looked
    at, and its rejection is dropped by [.catch(() => undefined)]. *)
Definition signOut (w : AuthWorld) : AuthWorld :=
  if negb (hasSupabaseConfig w) then
    notify SIGNED_OUT None (persistSession None w)
  else
    match getStoredSession w with
    | None => w
    | Some session =>
        notify SIGNED_OUT None
          (persistSession None (send (LogoutRequest (access_token session)) w))
    end.

(** The calls a page can make on the client. *)
Inductive AuthCall :=
| CallSubscribe (callback : nat)
| CallUnsubscribe (callback : nat)
| CallSignIn (email password : string) (answer : TokenAnswer)
| CallSignUp (email password : string) (answer : TokenAnswer)
| CallSignOut.

Definition call (w : AuthWorld) (c : AuthCall) : AuthWorld :=
  match c with
  | CallSubscribe cb => onAuthStateChange cb w
  | CallUnsubscribe cb => unsubscribe cb w
  | CallSignIn email password answer => snd (signInWithPassword email password answer w)
  | CallSignUp email password answer => snd (signUp email password answer w)
  | CallSignOut => signOut w
  end.

End Auth.

Section AuthTerms.
Import JS Supabase Auth.

(** What a callback has heard. *)
Definition heard_by (callback : nat) (w : AuthWorld)
    : list (AuthEvent * option SupabaseSession) :=
  map (fun h => (snd (fst h), snd h))
      (List.filter (fun h => Nat.eqb (fst (fst h)) callback) (heard w)).

Definition cook_account : SupabaseAuthUser :=
  {| auth_id := "u"; auth_email := Some "cook@example.com" |}.

Definition token_session (token : string) (u : SupabaseAuthUser) : SupabaseSession :=
  {| access_token := token; refresh_token := None; expires_in := None;
     expires_at := None; token_type := None; user := u |}.

(** A configured client with a stored session and two subscribers. *)
Definition signed_in_page : AuthWorld :=
  {| hasSupabaseConfig := true; slot := Some (Snapshot (token_session "t0" cook_account));
     listeners := [1; 2]%nat; heard := []; requests := [] |}.

Definition granted (token : string) : TokenAnswer :=
  Answers true {| p_error := None; p_access_token := Some token;
                  p_user := Some cook_account; p_session := None |}.

Definition refused (message : string) : TokenAnswer :=
  Answers false {| p_error := Some message; p_access_token := None;
                   p_user := None; p_session := None |}.

End AuthTerms.

(** ** Session upkeep of the Google sign-in (services/supabaseAuth.ts) *)

Module GoogleAuth.
Import JS.

Record SupabaseUserInfo := {
  info_id : string;
  info_email : string;
  info_provider : option string
}.

Record AuthSession := {
  accessToken : string;
  refreshToken : option string;
  expiresAt : option Z;
  tokenType : option string;
  session_user : option SupabaseUserInfo
}.

(** The object parsed from a 2xx answer of the token endpoint. *)
Record RawUser := {
  raw_id : option string;
  raw_email : option string;
  raw_provider : option string        (* [app_metadata?.provider] *)
}.

Record TokenData := {
  d_access_token : string;
  d_refresh_token : option string;
  d_expires_in : option Z;
  d_token_type : option string;
  d_user : option RawUser
}.

(** How the refresh request settles; the body is read only when [ok]. *)
Inductive RefreshAnswer :=
| RefreshRejects (e : exn)
| RefreshAnswers (ok : bool) (body : result TokenData).

Inductive Effect :=
| Warned                         (* the [console.warn] of [ensureConfigured] *)
| Posted (refresh_token : string).

(** Truthiness of an optional number and of an optional string. *)
Definition truthy_number (n : option Z) : bool :=
  match n with Some v => negb (v =? 0)%Z | None => false end.

Definition truthy_text (s : option string) : bool :=
  match s with Some v => truthy v | None => false end.

Section Clock.
(** [isSupabaseConfigured], and [Math.floor(Date.now() / 1000)] when the
    answer to the refresh request is read. *)
Variable configured : bool.
Variable later : Z.

Definition refreshSession (token : string) (answer : RefreshAnswer)
    : result (option AuthSession) * list Effect :=
  if negb configured then (Ok None, [Warned])
  else
    match answer with
    | RefreshRejects e => (Throw e, [Posted token])
    | RefreshAnswers false _ => (Ok None, [Posted token])
    | RefreshAnswers true (Throw e) => (Throw e, [Posted token])
    | RefreshAnswers true (Ok data) =>
        (Ok (Some
           {| accessToken := d_access_token data;
              refreshToken := Some (default token (d_refresh_token data));
              expiresAt := if truthy_number (d_expires_in data)
                           then Some (later + default 0 (d_expires_in data))%Z
                           else None;
              tokenType := d_token_type data;
              session_user :=
                match d_user data with
                | Some u =>
                    if truthy_text (raw_id u) && truthy_text (raw_email u) then
                      Some {| info_id := default "" (raw_id u);
                              info_email := default "" (raw_email u);
                              info_provider := raw_provider u |}
                    else None
                | None => None
                end |}),
         [Posted token])
    end.

(** [now] is [Math.floor(Date.now() / 1000)] at the check. *)
Definition ensureValidSession (now : Z) (existing : option AuthSession)
    (answer : RefreshAnswer) : result (option AuthSession) * list Effect :=
  match existing with
  | None => (Ok None, [])
  | Some session =>
      if truthy_number (expiresAt session)
         && (default 0 (expiresAt session) - 60 <=? now)%Z
         && truthy_text (refreshToken session)
      then refreshSession (default "" (refreshToken session)) answer
      else (Ok (Some session), [])
  end.

End Clock.

End GoogleAuth.

Section GoogleAuthTerms.
Import JS GoogleAuth.

(** A refreshable session has an expiry and a refresh token. *)
Definition refreshable (s : AuthSession) : bool :=
  truthy_number (expiresAt s) && truthy_text (refreshToken s).

(** Seconds left before expiry at time [now], for a session that has an
    expiry. *)
Definition seconds_left (now : Z) (s : AuthSession) : Z :=
  (default 0 (expiresAt s) - now)%Z.

(** The lifetimes the token endpoint grants are longer than the margin of
    60 seconds. *)
Definition long_lived (answer : RefreshAnswer) : Prop :=
  match answer with
  | RefreshAnswers true (Ok data) =>
      match d_expires_in data with Some d => (60 < d)%Z | None => True end
  | _ => True
  end.

Definition almost_expired : AuthSession :=
  {| accessToken := "a0"; refreshToken := Some "r0"; expiresAt := Some 1030%Z;
     tokenType := Some "bearer"; session_user := None |}.

Definition renewal : RefreshAnswer :=
  RefreshAnswers true
    (Ok {| d_access_token := "a1"; d_refresh_token := None; d_expires_in := Some 3600%Z;
           d_token_type := Some "bearer"; d_user := None |}).

End GoogleAuthTerms.

(** * Properties *)

(** ** The resilient request executor *)

Section ExecutorFacts.
Import JS Gemini.

Variable net : nat -> FetchOutcome.
Variable action : string.

Lemma attempts_unfold fuel attempt delay :
  attempts net action (S fuel) attempt delay =
  if (attempt <=? MAX_RETRIES)%nat then
    match try_block (net attempt) attempt delay with
    | Returns v => (Done (Ok v), [EFetch action attempt])
    | Continues evs delay' =>
        let '(r, tr) := attempts net action fuel (S attempt) delay' in
        (r, EFetch action attempt :: evs ++ tr)
    | Throws error =>
        if (attempt <? MAX_RETRIES)%nat then
          let '(r, tr) := attempts net action fuel (S attempt) (delay * 2) in
          (r, EFetch action attempt :: EWarnFailed attempt error delay :: ESleep delay :: tr)
        else
          (Done (Throw (if instanceof_Error error then error
                        else Thrown Error "An unknown error occurred during the API call.")),
           [EFetch action attempt; EConsoleError action MAX_RETRIES error])
    end
  else
    (Done (Throw (Thrown Error ("API call for " +:+ action +:+ " failed after all retries."))), []).
Proof. reflexivity. Qed.

(** The three ways out of the [try] block; a [continue] always comes with
    one warning and one wait of the current delay, and doubles the delay. *)
Lemma try_block_exits outcome attempt delay :
  (exists v, try_block outcome attempt delay = Returns v) \/
  ((attempt < MAX_RETRIES)%nat /\
   try_block outcome attempt delay =
     Continues [EWarnOverloaded attempt delay; ESleep delay] (delay * 2)) \/
  (exists e, try_block outcome attempt delay = Throws e).
Proof.
  unfold try_block.
  destruct outcome as [e | r]; [right; right; eauto |].
  destruct (ok r).
  - destruct (json_body r); [left | right; right]; eauto.
  - destruct (json_body r) as [errorData |]; [| right; right; eauto].
    destruct (errorMessage errorData) as [msg | e]; [| right; right; eauto].
    destruct (isRetryable msg); simpl; [| right; right; eauto].
    destruct (attempt <? MAX_RETRIES)%nat eqn:Hlt; [| right; right; eauto].
    right; left. split; [by apply Nat.ltb_lt | done].
Qed.

(** A retryable-classified outcome never makes the [try] block return:
    before the last attempt it continues or throws, at the last attempt it
    throws. *)
Lemma try_block_retryable outcome attempt delay :
  retryable_outcome outcome ->
  (attempt < MAX_RETRIES)%nat /\
    try_block outcome attempt delay =
      Continues [EWarnOverloaded attempt delay; ESleep delay] (delay * 2)
  \/ exists e, try_block outcome attempt delay = Throws e.
Proof.
  intros Hr.
  destruct (try_block_exits outcome attempt delay) as [[v Hv] | [H | H]]; auto.
  exfalso. unfold try_block in Hv.
  destruct outcome as [e | r]; [done |].
  destruct Hr as (Hok & errorData & msg & Hbody & Hmsg & Hretry).
  rewrite Hok, Hbody, Hmsg, Hretry in Hv. simpl in Hv.
  by destruct (attempt <? MAX_RETRIES)%nat.
Qed.

(** The last iteration: one request, no wait. *)
Lemma last_attempt delay :
  schedule (snd (attempts net action 2 3 delay)) = [Request].
Proof.
  rewrite attempts_unfold. change (3 <=? MAX_RETRIES)%nat with true. cbn match.
  destruct (try_block_exits (net 3) 3 delay) as [[v ->] | [[Hlt _] | [e ->]]].
  - reflexivity.
  - unfold MAX_RETRIES in Hlt. lia.
  - reflexivity.
Qed.

Lemma last_attempt_retryable delay :
  retryable_outcome (net 3) ->
  exists e, fst (attempts net action 2 3 delay) = Done (Throw e).
Proof.
  intros Hr. rewrite attempts_unfold. change (3 <=? MAX_RETRIES)%nat with true. cbn match.
  destruct (try_block_retryable (net 3) 3 delay Hr) as [[Hlt _] | [e ->]].
  - unfold MAX_RETRIES in Hlt. lia.
  - change (3 <? MAX_RETRIES)%nat with false. cbn match. eauto.
Qed.

(** From the second attempt on. *)
Lemma second_attempt delay :
  schedule (snd (attempts net action 3 2 delay)) = [Request] \/
  schedule (snd (attempts net action 3 2 delay)) = [Request; Wait delay; Request].
Proof.
  rewrite attempts_unfold. change (2 <=? MAX_RETRIES)%nat with true. cbn match.
  destruct (try_block_exits (net 2) 2 delay) as [[v ->] | [[_ ->] | [e ->]]].
  - by left.
  - right. pose proof (last_attempt (delay * 2)) as Hl.
    destruct (attempts net action 2 3 (delay * 2)) as [r tr]. simpl in *. by rewrite Hl.
  - right. change (2 <? MAX_RETRIES)%nat with true. cbn match.
    pose proof (last_attempt (delay * 2)) as Hl.
    destruct (attempts net action 2 3 (delay * 2)) as [r tr]. simpl in *. by rewrite Hl.
Qed.

Lemma second_attempt_retryable delay :
  retryable_outcome (net 2) -> retryable_outcome (net 3) ->
  schedule (snd (attempts net action 3 2 delay)) = [Request; Wait delay; Request] /\
  exists e, fst (attempts net action 3 2 delay) = Done (Throw e).
Proof.
  intros H2 H3. rewrite attempts_unfold. change (2 <=? MAX_RETRIES)%nat with true. cbn match.
  pose proof (last_attempt (delay * 2)) as Hl.
  pose proof (last_attempt_retryable (delay * 2) H3) as [e3 He3].
  destruct (try_block_retryable (net 2) 2 delay H2) as [[_ ->] | [e ->]].
  - destruct (attempts net action 2 3 (delay * 2)) as [r tr]. simpl in *.
    rewrite Hl. eauto.
  - change (2 <? MAX_RETRIES)%nat with true. cbn match.
    destruct (attempts net action 2 3 (delay * 2)) as [r tr]. simpl in *.
    rewrite Hl. eauto.
Qed.

End ExecutorFacts.

Section ExecutorTheorems.
Import JS Gemini.

(** The executor always settles: the fuel of the model is never used up. *)
Lemma callGeminiApi_settles net action :
  exists r, fst (callGeminiApi net action) = Done r.
Proof.
  unfold callGeminiApi. change (S MAX_RETRIES) with 4%nat.
  assert (H3 : forall d, exists r, fst (attempts net action 2 3 d) = Done r).
  { intros d. rewrite attempts_unfold. change (3 <=? MAX_RETRIES)%nat with true. cbn match.
    destruct (try_block_exits (net 3) 3 d) as [[v ->] | [[Hlt _] | [e ->]]];
      [simpl; eauto | unfold MAX_RETRIES in Hlt; lia | simpl; eauto]. }
  assert (H2 : forall d, exists r, fst (attempts net action 3 2 d) = Done r).
  { intros d. rewrite attempts_unfold. change (2 <=? MAX_RETRIES)%nat with true. cbn match.
    destruct (H3 (d * 2)%Z) as [r3 Hr3].
    destruct (try_block_exits (net 2) 2 d) as [[v ->] | [[_ ->] | [e ->]]];
      [simpl; eauto | |].
    - destruct (attempts net action 2 3 (d * 2)) as [r tr]. simpl in *. eauto.
    - change (2 <? MAX_RETRIES)%nat with true. cbn match.
      destruct (attempts net action 2 3 (d * 2)) as [r tr]. simpl in *. eauto. }
  rewrite attempts_unfold. change (1 <=? MAX_RETRIES)%nat with true. cbn match.
  destruct (H2 (1000 * 2)%Z) as [r2 Hr2].
  destruct (try_block_exits (net 1) 1 1000) as [[v ->] | [[_ ->] | [e ->]]];
    [simpl; eauto | |].
  - destruct (attempts net action 3 2 (1000 * 2)) as [r tr]. simpl in *. eauto.
  - change (1 <? MAX_RETRIES)%nat with true. cbn match.
    destruct (attempts net action 3 2 (1000 * 2)) as [r tr]. simpl in *. eauto.
Qed.

(** C2.  Whatever the network does, an execution of [callGeminiApi] issues
    one, two or three requests, waits 1000 ms before the second and
    2000 ms before the third, and never waits after the last one.  When
    the three outcomes are classified retryable (an error message that
    contains "overloaded" or "503", or a network-level exception), it
    makes exactly the three attempts with the waits 1000 ms and 2000 ms
    and then raises the failure without a further wait. *)
Theorem callGeminiApi_backoff net action :
  (schedule (snd (callGeminiApi net action)) = [Request] \/
   schedule (snd (callGeminiApi net action)) = [Request; Wait 1000; Request] \/
   schedule (snd (callGeminiApi net action)) =
     [Request; Wait 1000; Request; Wait 2000; Request]) /\
  (retryable_outcome (net 1) -> retryable_outcome (net 2) -> retryable_outcome (net 3) ->
   schedule (snd (callGeminiApi net action)) =
     [Request; Wait 1000; Request; Wait 2000; Request] /\
   exists e, fst (callGeminiApi net action) = Done (Throw e)).
Proof.
  unfold callGeminiApi. change (S MAX_RETRIES) with 4%nat. rewrite attempts_unfold.
  change (1 <=? MAX_RETRIES)%nat with true. cbn match.
  split.
  - pose proof (second_attempt net action (1000 * 2)) as H2.
    destruct (try_block_exits (net 1) 1 1000) as [[v ->] | [[_ ->] | [e ->]]].
    + by left.
    + destruct (attempts net action 3 2 (1000 * 2)) as [r tr]. simpl in *.
      destruct H2 as [-> | ->]; auto.
    + change (1 <? MAX_RETRIES)%nat with true. cbn match.
      destruct (attempts net action 3 2 (1000 * 2)) as [r tr]. simpl in *.
      destruct H2 as [-> | ->]; auto.
  - intros H1 H2 H3.
    destruct (second_attempt_retryable net action (1000 * 2) H2 H3) as [Hs [e He]].
    destruct (try_block_retryable (net 1) 1 1000 H1) as [[_ ->] | [e1 ->]].
    + destruct (attempts net action 3 2 (1000 * 2)) as [r tr]. simpl in *.
      rewrite Hs. eauto.
    + change (1 <? MAX_RETRIES)%nat with true. cbn match.
      destruct (attempts net action 3 2 (1000 * 2)) as [r tr]. simpl in *.
      rewrite Hs. eauto.
Qed.

Lemma callGeminiApi_backoff_witness :
  schedule (snd (callGeminiApi (fun _ => overloaded_503) "getRecipeDetails")) =
    [Request; Wait 1000; Request; Wait 2000; Request] /\
  exists e, fst (callGeminiApi (fun _ => overloaded_503) "getRecipeDetails") = Done (Throw e).
Proof.
  apply (proj2 (callGeminiApi_backoff (fun _ => overloaded_503) "getRecipeDetails"));
    (split; [reflexivity |
             exists (JObj [("error", JStr "The model is overloaded (503)")]),
                    (MsgString "The model is overloaded (503)");
             repeat split; reflexivity]).
Defined.

(** C1 (the code departs from the claim).  An error answer whose body is
    not JSON is not failed at once: at the first attempt the error thrown
    for it lands in the enclosing [catch], which warns, waits 1000 ms and
    lets the loop issue the next request. *)
Theorem callGeminiApi_retries_unparsable_body net action r :
  net 1 = Resolves r -> ok r = false -> json_body r = None ->
  snd (callGeminiApi net action) =
    EFetch action 1
    :: EWarnFailed 1
         (Thrown Error (or_else (text r) ("API call failed with status: " +:+ pretty (status r))))
         1000
    :: ESleep 1000
    :: snd (attempts net action 3 2 2000) /\
  exists rest,
    schedule (snd (callGeminiApi net action)) = Request :: Wait 1000 :: Request :: rest.
Proof.
  intros Hnet Hok Hbody.
  assert (Htrace : snd (callGeminiApi net action) =
    EFetch action 1
    :: EWarnFailed 1
         (Thrown Error (or_else (text r) ("API call failed with status: " +:+ pretty (status r))))
         1000
    :: ESleep 1000
    :: snd (attempts net action 3 2 2000)).
  { unfold callGeminiApi. change (S MAX_RETRIES) with 4%nat. rewrite attempts_unfold.
    change (1 <=? MAX_RETRIES)%nat with true. cbn match.
    unfold try_block. rewrite Hnet, Hok, Hbody.
    change (1 <? MAX_RETRIES)%nat with true. cbn match.
    change (1000 * 2)%Z with 2000%Z.
    by destruct (attempts net action 3 2 2000). }
  split; [exact Htrace |].
  rewrite Htrace. cbn [schedule].
  destruct (second_attempt net action 2000) as [-> | ->]; eauto.
Qed.

Lemma callGeminiApi_retries_unparsable_body_witness :
  exists rest,
    schedule (snd (callGeminiApi (fun _ => gateway_timeout) "getRecipeRecommendations")) =
      Request :: Wait 1000 :: Request :: rest.
Proof.
  exact (proj2 (callGeminiApi_retries_unparsable_body (fun _ => gateway_timeout)
                  "getRecipeRecommendations" _ eq_refl eq_refl eq_refl)).
Defined.

(** With that page at every attempt the executor makes all three attempts
    and both waits before it raises the raw text. *)
Example callGeminiApi_gateway_timeout_run :
  callGeminiApi (fun _ => gateway_timeout) "getRecipeRecommendations" =
  (Done (Throw (Thrown Error "<html>504 Gateway Time-out</html>")),
   [EFetch "getRecipeRecommendations" 1;
    EWarnFailed 1 (Thrown Error "<html>504 Gateway Time-out</html>") 1000;
    ESleep 1000;
    EFetch "getRecipeRecommendations" 2;
    EWarnFailed 2 (Thrown Error "<html>504 Gateway Time-out</html>") 2000;
    ESleep 2000;
    EFetch "getRecipeRecommendations" 3;
    EConsoleError "getRecipeRecommendations" 3
      (Thrown Error "<html>504 Gateway Time-out</html>")]).
Proof. reflexivity. Qed.

End ExecutorTheorems.

(** ** The recipe retrieval protocol *)

Section RetrievalTheorems.
Import JS Recipes.


(** What a selection does to the entry at position [i] of the list. *)
Lemma handleRecipeSelect_lookup svc names lang recipe v i r :
  recipes v !! i = Some r ->
  recipes (handleRecipeSelect svc names lang recipe v) !! i =
    Some (if negb (isDetailsLoaded recipe) then
            match svc (recipeName recipe) names lang with
            | Ok details =>
                if String.eqb (recipeName r) (recipeName recipe)
                then updatedRecipe recipe details else r
            | Throw _ => r
            end
          else r).
Proof.
  intros Hi. unfold handleRecipeSelect.
  destruct (negb (isDetailsLoaded recipe)); [| done].
  destruct (svc _ _ _) as [details | e]; simpl; [| done].
  change (map ?f ?l) with (f <$> l).
  by rewrite list_lookup_fmap, Hi.
Qed.

(** C6.  Every recipe of a Stage-A answer has [isDetailsLoaded = false]
    and empty [instructions] and [substitutions].  A selection turns the
    flag of a list entry from [false] to [true] only if the entry bears
    the name of the selected recipe and the Stage-B call for that name
    succeeded.  A failed Stage-B call leaves the list as it was, every
    overview field included, and the selected recipe is the overview
    itself, its flag still [false]. *)
Theorem isDetailsLoaded_lifecycle :
  (forall generated overview r,
     handleGetRecipeRecommendations generated = Ok overview ->
     r ∈ overview ->
     isDetailsLoaded r = false /\ instructions r = [] /\ substitutions r = []) /\
  (forall svc names lang recipe v i r r',
     recipes v !! i = Some r ->
     recipes (handleRecipeSelect svc names lang recipe v) !! i = Some r' ->
     isDetailsLoaded r = false ->
     isDetailsLoaded r' = true ->
     recipeName r = recipeName recipe /\
     exists details, svc (recipeName recipe) names lang = Ok details) /\
  (forall svc names lang recipe v e,
     isDetailsLoaded recipe = false ->
     svc (recipeName recipe) names lang = Throw e ->
     recipes (handleRecipeSelect svc names lang recipe v) = recipes v /\
     selectedRecipe (handleRecipeSelect svc names lang recipe v) = Some recipe).
Proof.
  split; [| split].
  - intros generated overview r Hgen Hin.
    destruct generated as [raw | e]; [| done].
    simpl in Hgen. injection Hgen as <-.
    change (map ?f ?l) with (f <$> l) in Hin.
    apply list_elem_of_fmap in Hin as (r0 & -> & _). done.
  - intros svc names lang recipe v i r r' Hi Hi' Hr Hr'.
    rewrite (handleRecipeSelect_lookup _ _ _ _ _ _ _ Hi) in Hi'.
    injection Hi' as <-.
    destruct (negb (isDetailsLoaded recipe)); [| congruence].
    destruct (svc _ _ _) as [details | e]; [| congruence].
    destruct (String.eqb_spec (recipeName r) (recipeName recipe)); [| congruence].
    eauto.
  - intros svc names lang recipe v e Hflag Hsvc.
    unfold handleRecipeSelect. rewrite Hflag, Hsvc. done.
Qed.


Lemma isDetailsLoaded_lifecycle_witness :
  (isDetailsLoaded (mark_overview stew) = false /\
   instructions (mark_overview stew) = [] /\ substitutions (mark_overview stew) = []) /\
  (recipeName stew_twin = recipeName stew /\
   exists details, details_available (recipeName stew) ["Kimchi"] ko = Ok details) /\
  (recipes (handleRecipeSelect details_unavailable ["Kimchi"] ko stew sample_view)
     = recipes sample_view /\
   selectedRecipe (handleRecipeSelect details_unavailable ["Kimchi"] ko stew sample_view)
     = Some stew).
Proof.
  destruct isDetailsLoaded_lifecycle as (HA & HB & HC).
  split; [| split].
  - apply (HA (Ok [stew; pancake]) [mark_overview stew; mark_overview pancake]);
      [reflexivity | by left].
  - apply (HB details_available ["Kimchi"] ko stew sample_view 1%nat stew_twin
              (updatedRecipe stew stew_details)); reflexivity.
  - apply (HC details_unavailable ["Kimchi"] ko stew sample_view
              (Thrown Error "The model is overloaded (503)")); reflexivity.
Defined.


End RetrievalTheorems.

(** ** The remote persistence client *)

Section ClientFacts.
Import JS Types Supabase.

(** A request that the store processes. *)
Lemma request_served t (req : Request t) w representation rest :
  isSupabaseConfigured (config w) = true ->
  script w = Serve representation :: rest ->
  Client.supabaseRequest t req w =
    handleResponse (fst (serve t req representation (store w)))
      (with_store (snd (serve t req representation (store w)))
         (with_request (line_of req) w)).
Proof.
  intros Hcfg Hscript.
  unfold Client.supabaseRequest, bind, fetch, next_behaviour.
  rewrite Hcfg, Hscript. cbn [negb].
  by destruct (serve t req representation (store w)).
Qed.

(** A request that the store answers with a non-2xx status. *)
Lemma request_refused t (req : Request t) w status statusText text rest :
  isSupabaseConfigured (config w) = true ->
  script w = Refuse status statusText text :: rest ->
  Client.supabaseRequest t req w =
    (Throw (Thrown Error ("Supabase request failed (" +:+ pretty status +:+ "): "
                          +:+ or_else text statusText)),
     with_request (line_of req) w).
Proof.
  intros Hcfg Hscript.
  unfold Client.supabaseRequest, bind, fetch, next_behaviour.
  by rewrite Hcfg, Hscript.
Qed.

(** A request that does not reach the store. *)
Lemma request_unreachable t (req : Request t) w e rest :
  isSupabaseConfigured (config w) = true ->
  script w = Unreachable e :: rest ->
  Client.supabaseRequest t req w = (Throw e, with_request (line_of req) w).
Proof.
  intros Hcfg Hscript.
  unfold Client.supabaseRequest, bind, fetch, next_behaviour.
  by rewrite Hcfg, Hscript.
Qed.

Lemma truthy_nonempty (s : string) : s <> "" -> truthy s = true.
Proof. by destruct s. Qed.

Lemma selected_pantry userId (l : list UserIngredientRecord) :
  filter (selected ingredient_column (by_user userId)) l = filter (owned_by userId) l.
Proof.
  apply list_filter_iff. intros r. unfold selected, owned_by, by_user.
  change (ingredient_column _ r) with (Some (user_id r)). cbn [equals].
  split; congruence.
Qed.

Lemma unselected_pantry userId (l : list UserIngredientRecord) :
  filter (fun r => ~ selected ingredient_column (by_user userId) r) l =
  filter (fun r => ~ owned_by userId r) l.
Proof.
  apply list_filter_iff. intros r. unfold selected, owned_by, by_user.
  change (ingredient_column _ r) with (Some (user_id r)). cbn [equals].
  split; intros H Hc; apply H; congruence.
Qed.

Lemma records_owned userId ingredients :
  filter (owned_by userId) (records_of userId ingredients) = records_of userId ingredients.
Proof.
  induction ingredients as [| i l IH]; [done |].
  simpl. rewrite filter_cons_True by done. by rewrite IH.
Qed.

Lemma others_not_owned userId (l : list UserIngredientRecord) :
  filter (owned_by userId) (filter (fun r => ~ owned_by userId r) l) = [].
Proof.
  induction l as [| r l IH]; [done |].
  destruct (decide (owned_by userId r)) as [Hr | Hr].
  - by rewrite (filter_cons_False (fun r => ~ owned_by userId r)) by tauto.
  - rewrite (filter_cons_True (fun r => ~ owned_by userId r)) by done.
    by rewrite filter_cons_False.
Qed.

End ClientFacts.

Section PantryFacts.
Import JS Types Supabase.

Lemma delete_pantry_served userId w representation rest :
  isSupabaseConfigured (config w) = true ->
  script w = Serve representation :: rest ->
  Client.supabaseRequest user_ingredients (delete_pantry userId) w =
    (Ok (if representation
         then Some (filter (owned_by userId) (pantry (store w))) else None),
     with_store
       (with_pantry (filter (fun r => ~ owned_by userId r) (pantry (store w))) (store w))
       (with_request (line_of (delete_pantry userId)) w)).
Proof.
  intros Hcfg Hscript. rewrite (request_served _ _ _ _ _ Hcfg Hscript).
  cbn [serve delete_pantry serve_rows filter_by method body prefer fst snd].
  rewrite selected_pantry, unselected_pantry.
  by destruct representation.
Qed.

Lemma insert_pantry_served rows w representation rest :
  isSupabaseConfigured (config w) = true ->
  script w = Serve representation :: rest ->
  Client.supabaseRequest user_ingredients (insert_pantry rows) w =
    (Ok (if representation then Some rows else None),
     with_store (with_pantry (pantry (store w) ++ rows)%list (store w))
       (with_request (line_of (insert_pantry rows)) w)).
Proof.
  intros Hcfg Hscript. rewrite (request_served _ _ _ _ _ Hcfg Hscript).
  cbn [serve insert_pantry serve_rows filter_by method body prefer fst snd].
  by destruct representation.
Qed.

Lemma select_pantry_served userId w representation rest :
  isSupabaseConfigured (config w) = true ->
  script w = Serve representation :: rest ->
  Client.supabaseRequest user_ingredients (select_pantry userId) w =
    (Ok (Some (filter (owned_by userId) (pantry (store w)))),
     with_store (with_pantry (pantry (store w)) (store w))
       (with_request (line_of (select_pantry userId)) w)).
Proof.
  intros Hcfg Hscript. rewrite (request_served _ _ _ _ _ Hcfg Hscript).
  cbn [serve select_pantry serve_rows filter_by method body prefer fst snd].
  by rewrite selected_pantry.
Qed.

(** [getUserIngredients] against a store that answers. *)
Lemma getUserIngredients_served userId w representation rest :
  isSupabaseConfigured (config w) = true ->
  userId <> "" ->
  script w = Serve representation :: rest ->
  fst (getUserIngredients Client.supabaseRequest userId w) =
    Ok (filter (owned_by userId) (pantry (store w))).
Proof.
  intros Hcfg Hid Hscript. unfold getUserIngredients.
  rewrite (truthy_nonempty _ Hid). cbn [negb]. unfold bind.
  change (mkRequest user_ingredients _ GET None None) with (select_pantry userId).
  by rewrite (select_pantry_served _ _ _ _ Hcfg Hscript).
Qed.

End PantryFacts.

Section PantryTheorems.
Import JS Types Supabase.

(** C5.  Against a configured store that processes the requests, and for
    a non-empty user id, [replaceUserIngredients] sends the DELETE of the
    user's rows first and the bulk INSERT second (no INSERT for an empty
    list); afterwards the stored pantry consists of the rows of the other
    users followed by exactly the given items, the other tables are
    untouched, and the next [getUserIngredients] of that user yields
    exactly the given items: none for the empty list. *)
Theorem replaceUserIngredients_replaces userId ingredients w b1 b2 b3 rest r w' :
  isSupabaseConfigured (config w) = true ->
  userId <> "" ->
  script w = Serve b1 :: Serve b2 :: Serve b3 :: rest ->
  replaceUserIngredients Client.supabaseRequest userId ingredients w = (r, w') ->
  (exists rows, r = Ok rows) /\
  sent w' =
    (sent w ++ line_of (delete_pantry userId)
       :: match ingredients with
          | [] => []
          | _ => [line_of (insert_pantry (records_of userId ingredients))]
          end)%list /\
  pantry (store w') =
    (filter (fun row => ~ owned_by userId row) (pantry (store w))
       ++ records_of userId ingredients)%list /\
  (profiles (store w') = profiles (store w) /\ saved (store w') = saved (store w) /\
   events (store w') = events (store w) /\ counts (store w') = counts (store w)) /\
  fst (getUserIngredients Client.supabaseRequest userId w') =
    Ok (records_of userId ingredients).
Proof.
  intros Hcfg Hid Hscript Hrun.
  unfold replaceUserIngredients in Hrun.
  rewrite (truthy_nonempty _ Hid) in Hrun. cbn [negb] in Hrun. unfold bind at 1 in Hrun.
  change (mkRequest user_ingredients _ DELETE None None) with (delete_pantry userId) in Hrun.
  rewrite (delete_pantry_served _ _ _ _ Hcfg Hscript) in Hrun.
  set (w1 := with_store _ _) in Hrun.
  assert (Hcfg1 : isSupabaseConfigured (config w1) = true) by exact Hcfg.
  assert (Hscript1 : script w1 = Serve b2 :: Serve b3 :: rest)
    by (subst w1; simpl; by rewrite Hscript).
  destruct ingredients as [| i l].
  - cbn in Hrun. injection Hrun as <- <-.
    split; [eauto |]. split; [done |]. split; [by rewrite app_nil_r |].
    split; [done |].
    rewrite (getUserIngredients_served _ _ _ _ Hcfg1 Hid Hscript1).
    subst w1. cbn [store with_store with_pantry pantry].
    by rewrite others_not_owned.
  - cbn [length Nat.eqb] in Hrun. unfold bind in Hrun.
    change (map _ (i :: l)) with (records_of userId (i :: l)) in Hrun.
    change (mkRequest user_ingredients None POST (Some ?rows) None)
      with (insert_pantry rows) in Hrun.
    rewrite (insert_pantry_served _ _ _ _ Hcfg1 Hscript1) in Hrun.
    set (w2 := with_store _ _) in Hrun.
    assert (Hcfg2 : isSupabaseConfigured (config w2) = true) by exact Hcfg.
    assert (Hscript2 : script w2 = Serve b3 :: rest)
      by (subst w2; simpl; by rewrite Hscript).
    assert (Hr : r = Ok (default [] (if b2 then Some (records_of userId (i :: l)) else None))
                 /\ w' = w2).
    { unfold ret in Hrun. by injection Hrun as <- <-. }
    destruct Hr as [-> ->].
    split; [eauto |].
    split; [subst w2 w1; simpl; by rewrite <- app_assoc |].
    split; [done |]. split; [done |].
    rewrite (getUserIngredients_served _ _ _ _ Hcfg2 Hid Hscript2).
    subst w2 w1. cbn [store with_store with_pantry pantry].
    by rewrite filter_app, others_not_owned, records_owned.
Qed.

(** The scenario of the specification: the pantry of "u" holds one egg
    row, it is replaced by the empty list, and the next fetch is empty. *)
Lemma replaceUserIngredients_replaces_witness :
  pantry (store (snd (replaceUserIngredients Client.supabaseRequest "u" []
                        (world_of configured egg_store [Serve false; Serve false; Serve false]))))
    = [ {| user_id := "v"; ingredient_name := "Milk"; ingredient_quantity := "1L" |} ] /\
  fst (getUserIngredients Client.supabaseRequest "u"
         (snd (replaceUserIngredients Client.supabaseRequest "u" []
                 (world_of configured egg_store [Serve false; Serve false; Serve false]))))
    = Ok [].
Proof.
  pose proof (replaceUserIngredients_replaces "u" []
                (world_of configured egg_store [Serve false; Serve false; Serve false])
                false false false [] _ _ eq_refl ltac:(discriminate) eq_refl eq_refl)
    as (_ & _ & Hpantry & _ & Hfetch).
  split; [exact Hpantry | exact Hfetch].
Defined.

End PantryTheorems.

Section AtomicityTheorems.
Import JS Types Supabase.

(** C9.  For a non-empty user id and a non-empty item list, when the
    store processes the DELETE and the INSERT fails (a non-2xx answer or a
    network failure), [replaceUserIngredients] raises the error of the
    INSERT and the stored pantry has lost every row of the user: what
    remains is the rows of the other users, so a store that held a row of
    the user is not the store it was. *)
Theorem replaceUserIngredients_not_atomic
    userId ingredients w b failing e rest r w' :
  isSupabaseConfigured (config w) = true ->
  userId <> "" ->
  ingredients <> [] ->
  script w = Serve b :: failing :: rest ->
  failure_of failing = Some e ->
  replaceUserIngredients Client.supabaseRequest userId ingredients w = (r, w') ->
  r = Throw e /\
  sent w' =
    (sent w ++ [line_of (delete_pantry userId);
                line_of (insert_pantry (records_of userId ingredients))])%list /\
  pantry (store w') = filter (fun row => ~ owned_by userId row) (pantry (store w)) /\
  filter (owned_by userId) (pantry (store w')) = [] /\
  ((exists row, row ∈ pantry (store w) /\ owned_by userId row) -> store w' <> store w).
Proof.
  intros Hcfg Hid Hne Hscript Hfail Hrun.
  unfold replaceUserIngredients in Hrun.
  rewrite (truthy_nonempty _ Hid) in Hrun. cbn [negb] in Hrun. unfold bind at 1 in Hrun.
  change (mkRequest user_ingredients _ DELETE None None) with (delete_pantry userId) in Hrun.
  rewrite (delete_pantry_served _ _ _ _ Hcfg Hscript) in Hrun.
  set (w1 := with_store _ _) in Hrun.
  assert (Hcfg1 : isSupabaseConfigured (config w1) = true) by exact Hcfg.
  assert (Hscript1 : script w1 = failing :: rest)
    by (subst w1; simpl; by rewrite Hscript).
  destruct ingredients as [| i l]; [done |].
  cbn [length Nat.eqb] in Hrun. unfold bind in Hrun.
  change (map _ (i :: l)) with (records_of userId (i :: l)) in Hrun.
  change (mkRequest user_ingredients None POST (Some ?rows) None)
    with (insert_pantry rows) in Hrun.
  assert (Hinsert : Client.supabaseRequest user_ingredients
                      (insert_pantry (records_of userId (i :: l))) w1 =
                    (Throw e,
                     with_request (line_of (insert_pantry (records_of userId (i :: l)))) w1)).
  { destruct failing as [e0 | status statusText text | representation];
      simpl in Hfail; [| | done]; injection Hfail as <-.
    - by apply (request_unreachable _ _ _ _ rest).
    - by apply (request_refused _ _ _ _ _ _ rest). }
  rewrite Hinsert in Hrun.
  set (w2 := with_request _ w1) in Hrun.
  assert (Hpantry : pantry (store w2) =
            filter (fun row => ~ owned_by userId row) (pantry (store w))) by done.
  assert (Hsent : sent w2 =
            (sent w ++ [line_of (delete_pantry userId);
                        line_of (insert_pantry (records_of userId (i :: l)))])%list).
  { subst w2 w1. simpl. by rewrite <- app_assoc. }
  clearbody w2. injection Hrun as <- <-.
  split; [done |]. split; [exact Hsent |]. split; [exact Hpantry |]. split.
  - rewrite Hpantry. apply others_not_owned.
  - intros (row & Hin & Hown) Heq.
    assert (Hin' : row ∈ filter (fun row => ~ owned_by userId row) (pantry (store w))).
    { rewrite <- Hpantry, Heq. exact Hin. }
    apply list_elem_of_filter in Hin' as [Hnot _]. by apply Hnot.
Qed.

Lemma replaceUserIngredients_not_atomic_witness :
  fst (replaceUserIngredients Client.supabaseRequest "u"
         [ {| name := "Rice"; quantity := "1kg" |} ]
         (world_of configured egg_store
            [Serve false; Refuse 500 "Internal Server Error" ""]))
    = Throw (Thrown Error "Supabase request failed (500): Internal Server Error") /\
  pantry (store (snd (replaceUserIngredients Client.supabaseRequest "u"
         [ {| name := "Rice"; quantity := "1kg" |} ]
         (world_of configured egg_store
            [Serve false; Refuse 500 "Internal Server Error" ""]))))
    = [ {| user_id := "v"; ingredient_name := "Milk"; ingredient_quantity := "1L" |} ].
Proof.
  pose proof (replaceUserIngredients_not_atomic "u"
                [ {| name := "Rice"; quantity := "1kg" |} ]
                (world_of configured egg_store
                   [Serve false; Refuse 500 "Internal Server Error" ""])
                false (Refuse 500 "Internal Server Error" "") _ [] _ _
                eq_refl ltac:(discriminate) ltac:(discriminate) eq_refl eq_refl eq_refl)
    as (Hr & _ & Hpantry & _).
  split; [exact Hr | exact Hpantry].
Defined.

End AtomicityTheorems.

Section CounterTheorems.
Import JS Types Supabase.

Variable trim : string -> string.

Lemma insert_event_served event w representation rest :
  isSupabaseConfigured (config w) = true ->
  script w = Serve representation :: rest ->
  Client.supabaseRequest search_events
      (mkRequest search_events None POST (Some [event]) None) w =
    (Ok (if representation then Some [event] else None),
     with_store (with_events (events (store w) ++ [event])%list (store w))
       (with_request (line_of (mkRequest search_events None POST (Some [event]) None)) w)).
Proof.
  intros Hcfg Hscript. rewrite (request_served _ _ _ _ _ Hcfg Hscript).
  cbn [serve serve_rows filter_by method body prefer fst snd].
  by destruct representation.
Qed.



(** Up to 2^53 in magnitude the integers are doubles. *)
Lemma nearest_exact a :
  (0 <= a <= 9007199254740992)%Z -> nearest a = a.
Proof.
  intros Ha. destruct (decide (a = 9007199254740992%Z)) as [-> | Hne]; [reflexivity |].
  unfold nearest. cbv zeta.
  assert (Hshift : (Z.log2 a - 52 <=? 0)%Z = true).
  { apply Z.leb_le. destruct (decide (a = 0%Z)) as [-> | Hpos]; [done |].
    assert (Z.log2 a < 53)%Z; [| lia].
    apply Z.log2_lt_pow2; [lia |]. change (2 ^ 53)%Z with 9007199254740992%Z. lia. }
  by rewrite Hshift.
Qed.

Lemma to_double_exact n :
  (-9007199254740992 <= n <= 9007199254740992)%Z -> to_double n = n.
Proof.
  intros Hn. unfold to_double. destruct (n <? 0)%Z eqn:Hneg.
  - apply Z.ltb_lt in Hneg. rewrite nearest_exact; lia.
  - apply Z.ltb_ge in Hneg. apply nearest_exact. lia.
Qed.

(** The increment of the counter is exact below 2^53. *)
Lemma next_count_exact (c : Z) :
  counted_exactly c -> js_add (to_double c) 1 = (c + 1)%Z.
Proof.
  unfold counted_exactly, js_add. intros Hc.
  rewrite (to_double_exact c) by lia. apply to_double_exact. lia.
Qed.



End CounterTheorems.

Section CounterScenario.
Import JS Types Supabase.



End CounterScenario.

Section UnconfiguredTheorems.
Import JS Types Supabase.




End UnconfiguredTheorems.

(** ** The synchronisation engine *)

Section GateTheorems.
Import JS Types Supabase App.

Variable request : Primitive.

Lemma persistEffect_local st w :
  exists w', persistEffect st w = (Ok tt, w') /\
             sent w' = sent w /\ store w' = store w /\ console w' = console w /\
             script w' = script w /\ config w' = config w.
Proof.
  unfold persistEffect. destruct (currentUser st); eexists; (split; [reflexivity | done]).
Qed.

Lemma pushIngredientsEffect_closed st w :
  ingredientsLoaded st = false -> pushIngredientsEffect request st w = (Ok tt, w).
Proof.
  intros Hgate. unfold pushIngredientsEffect. rewrite Hgate. by destruct (currentUser st).
Qed.

Lemma pushSavedRecipesEffect_closed st w :
  savedRecipesLoaded st = false -> pushSavedRecipesEffect request st w = (Ok tt, w).
Proof.
  intros Hgate. unfold pushSavedRecipesEffect. rewrite Hgate. by destruct (currentUser st).
Qed.

Lemma mutateIngredients_closed f st w :
  ingredientsLoaded st = false ->
  exists w',
    mutateIngredients request f st w = (Ok (setIngredients (f (ingredients st)) st), w') /\
    sent w' = sent w /\ store w' = store w.
Proof.
  intros Hgate. unfold mutateIngredients, run_effects, bind.
  change (triggered [VIngredients] persist_deps) with true.
  change (triggered [VIngredients] pushIngredients_deps) with true.
  change (triggered [VIngredients] pushSavedRecipes_deps) with false.
  cbn [when].
  destruct (persistEffect_local (setIngredients (f (ingredients st)) st) w)
    as (w1 & -> & Hsent & Hstore & _).
  rewrite pushIngredientsEffect_closed by exact Hgate.
  exists w1. by unfold ret.
Qed.

Lemma mutateSavedRecipes_closed f st w :
  savedRecipesLoaded st = false ->
  exists w',
    mutateSavedRecipes request f st w = (Ok (setSavedRecipes (f (savedRecipes st)) st), w') /\
    sent w' = sent w /\ store w' = store w.
Proof.
  intros Hgate. unfold mutateSavedRecipes, run_effects, bind.
  change (triggered [VSavedRecipes] persist_deps) with true.
  change (triggered [VSavedRecipes] pushIngredients_deps) with false.
  change (triggered [VSavedRecipes] pushSavedRecipes_deps) with true.
  cbn [when].
  destruct (persistEffect_local (setSavedRecipes (f (savedRecipes st)) st) w)
    as (w1 & -> & Hsent & Hstore & _).
  unfold ret at 1. rewrite pushSavedRecipesEffect_closed by exact Hgate.
  exists w1. by unfold ret.
Qed.

(** While both gates are closed, no sequence of local mutations reaches
    the remote store, and the gates stay closed. *)
Lemma mutations_closed ms : forall st w,
  ingredientsLoaded st = false -> savedRecipesLoaded st = false ->
  exists st' w',
    mutations request ms st w = (Ok st', w') /\
    sent w' = sent w /\ store w' = store w /\
    ingredientsLoaded st' = false /\ savedRecipesLoaded st' = false.
Proof.
  induction ms as [| m ms IH]; intros st w Hi Hs.
  - by exists st, w.
  - cbn [mutations]. unfold bind.
    assert (Hstep : exists st1 w1,
              mutate request m st w = (Ok st1, w1) /\ sent w1 = sent w /\ store w1 = store w /\
              ingredientsLoaded st1 = false /\ savedRecipesLoaded st1 = false).
    { destruct m as [f | f]; cbn [mutate].
      - destruct (mutateIngredients_closed f st w Hi) as (w1 & H & Hsent & Hstore).
        by eexists _, w1.
      - destruct (mutateSavedRecipes_closed f st w Hs) as (w1 & H & Hsent & Hstore).
        by eexists _, w1. }
    destruct Hstep as (st1 & w1 & -> & Hsent1 & Hstore1 & Hi1 & Hs1).
    destruct (IH st1 w1 Hi1 Hs1) as (st' & w' & Hrun & Hsent & Hstore & Hi' & Hs').
    exists st', w'. rewrite Hrun, Hsent, Hstore. by rewrite Hsent1, Hstore1.
Qed.

(** C3.  A local mutation of the pantry made while [ingredientsLoaded] is
    false updates the state and runs the effects of the render without a
    single request to the remote store; the same holds for the saved
    recipes and [savedRecipesLoaded], and for any sequence of such
    mutations while both gates are false.  Hence an effect run that sends
    anything for a collection was made with the gate of that collection
    true.  (Whatever the request primitive is.) *)
Theorem no_push_before_gate st w :
  (ingredientsLoaded st = false ->
   forall f, exists w',
     mutateIngredients request f st w = (Ok (setIngredients (f (ingredients st)) st), w') /\
     sent w' = sent w /\ store w' = store w) /\
  (savedRecipesLoaded st = false ->
   forall f, exists w',
     mutateSavedRecipes request f st w = (Ok (setSavedRecipes (f (savedRecipes st)) st), w') /\
     sent w' = sent w /\ store w' = store w) /\
  (ingredientsLoaded st = false -> savedRecipesLoaded st = false ->
   forall ms, exists st' w',
     mutations request ms st w = (Ok st', w') /\ sent w' = sent w /\ store w' = store w) /\
  (sent (snd (pushIngredientsEffect request st w)) <> sent w -> ingredientsLoaded st = true) /\
  (sent (snd (pushSavedRecipesEffect request st w)) <> sent w -> savedRecipesLoaded st = true).
Proof.
  split; [| split; [| split; [| split]]].
  - intros Hgate f. by apply mutateIngredients_closed.
  - intros Hgate f. by apply mutateSavedRecipes_closed.
  - intros Hi Hs ms.
    destruct (mutations_closed ms st w Hi Hs) as (st' & w' & H & Hsent & Hstore & _).
    by exists st', w'.
  - intros Hsent. destruct (ingredientsLoaded st) eqn:Hgate; [done |].
    by rewrite pushIngredientsEffect_closed in Hsent.
  - intros Hsent. destruct (savedRecipesLoaded st) eqn:Hgate; [done |].
    by rewrite pushSavedRecipesEffect_closed in Hsent.
Qed.

End GateTheorems.

Section GateScenario.
Import JS Types Supabase App.

Lemma no_push_before_gate_witness :
  exists w',
    mutateIngredients Client.supabaseRequest add_rice reconciling
      (world_of configured egg_store []) =
    (Ok (setIngredients (add_rice (ingredients reconciling)) reconciling), w') /\
    sent w' = [] /\ store w' = egg_store.
Proof.
  exact (proj1 (no_push_before_gate Client.supabaseRequest reconciling
                  (world_of configured egg_store [])) eq_refl add_rice).
Defined.

(** With the gate open the same mutation is pushed: DELETE, then INSERT. *)
Example push_after_gate :
  sent (snd (mutateIngredients Client.supabaseRequest add_rice
               (setIngredientsLoaded true reconciling)
               (world_of configured egg_store []))) =
  [ line_of (delete_pantry "u");
    line_of (insert_pantry (records_of "u" (add_rice (ingredients reconciling)))) ].
Proof. reflexivity. Qed.

End GateScenario.

Section SyncFacts.
Import JS Types Supabase App.

Lemma selected_saved userId (l : list UserSavedRecipeRecord) :
  filter (selected saved_column (by_user userId)) l = filter (saved_by userId) l.
Proof.
  apply list_filter_iff. intros r. unfold selected, saved_by, by_user.
  change (saved_column _ r) with (Some (saved_user_id r)). cbn [equals].
  split; congruence.
Qed.

Lemma store_eta s :
  {| profiles := profiles s; pantry := pantry s; saved := saved s;
     events := events s; counts := counts s |} = s.
Proof. by destruct s. Qed.

(** [getUserIngredients(id).catch(() => [])] *)
Lemma getUserIngredients_or_empty userId w b rest :
  isSupabaseConfigured (config w) = true ->
  userId <> "" ->
  script w = b :: rest ->
  exists w',
    catch (getUserIngredients Client.supabaseRequest userId) (fun _ => ret []) w =
      (Ok (fetched_pantry b userId (store w)), w') /\
    config w' = config w /\ script w' = rest /\ store w' = store w.
Proof.
  intros Hcfg Hid Hscript. unfold catch, getUserIngredients.
  rewrite (truthy_nonempty _ Hid). cbn [negb]. unfold bind.
  destruct b as [e | status statusText text | representation].
  - rewrite (request_unreachable _ _ _ _ _ Hcfg Hscript).
    eexists. split; [reflexivity |]. simpl. by rewrite Hscript.
  - rewrite (request_refused _ _ _ _ _ _ _ Hcfg Hscript).
    eexists. split; [reflexivity |]. simpl. by rewrite Hscript.
  - change (mkRequest user_ingredients _ GET None None) with (select_pantry userId).
    rewrite (select_pantry_served _ _ _ _ Hcfg Hscript).
    eexists. split; [reflexivity |]. simpl. rewrite Hscript.
    split; [done |]. split; [done |]. apply store_eta.
Qed.

(** [getUserSavedRecipes(id).catch(() => [])] *)
Lemma getUserSavedRecipes_or_empty userId w b rest :
  isSupabaseConfigured (config w) = true ->
  script w = b :: rest ->
  exists w',
    catch (getUserSavedRecipes Client.supabaseRequest userId) (fun _ => ret []) w =
      (Ok (fetched_saved b userId (store w)), w') /\
    config w' = config w /\ script w' = rest /\ store w' = store w.
Proof.
  intros Hcfg Hscript. unfold catch, getUserSavedRecipes, bind.
  destruct b as [e | status statusText text | representation].
  - rewrite (request_unreachable _ _ _ _ _ Hcfg Hscript).
    eexists. split; [reflexivity |]. simpl. by rewrite Hscript.
  - rewrite (request_refused _ _ _ _ _ _ _ Hcfg Hscript).
    eexists. split; [reflexivity |]. simpl. by rewrite Hscript.
  - rewrite (request_served _ _ _ _ _ Hcfg Hscript).
    cbn [serve serve_rows filter_by method body prefer fst snd handleResponse].
    change (Some {| column := "user_id"; equals := userId |}) with (by_user userId).
    rewrite selected_saved.
    eexists. split; [reflexivity |]. simpl. rewrite Hscript.
    split; [done |]. split; [done |]. apply store_eta.
Qed.

(** The profile upsert against a store that echoes the written row. *)
Lemma saveUserProfile_served profile w rest :
  isSupabaseConfigured (config w) = true ->
  script w = Serve true :: rest ->
  exists row w',
    saveUserProfile Client.supabaseRequest profile w = (Ok (Some row), w') /\
    config w' = config w /\ script w' = rest /\
    pantry (store w') = pantry (store w) /\ saved (store w') = saved (store w).
Proof.
  intros Hcfg Hscript. unfold saveUserProfile, bind.
  rewrite (request_served _ _ _ _ _ Hcfg Hscript).
  cbn [serve serve_keyed filter_by method body prefer fst snd merge merge_duplicates].
  change (String.eqb "resolution=merge-duplicates" "resolution=merge-duplicates") with true.
  cbn [orb reply handleResponse ret first_row head].
  eexists _, _. split; [reflexivity |]. simpl. by rewrite Hscript.
Qed.

Lemma map_or_empty {A B} (f : A -> B) (l : list A) :
  (if (0 <? length l)%nat then map f l else []) = map f l.
Proof. by destruct l. Qed.

End SyncFacts.

Section SyncTheorems.
Import JS Types Supabase App.

Lemma bind_ok {A B} (m : M A) (k : A -> M B) w a w' :
  m w = (Ok a, w') -> bind m k w = k a w'.
Proof. intros H. unfold bind. by rewrite H. Qed.

Lemma bind_throw {A B} (m : M A) (k : A -> M B) w e w' :
  m w = (Throw e, w') -> bind m k w = (Throw e, w').
Proof. intros H. unfold bind. by rewrite H. Qed.

Lemma catch_ok {A} (m : M A) (h : exn -> M A) w a w' :
  m w = (Ok a, w') -> catch m h w = (Ok a, w').
Proof. intros H. unfold catch. by rewrite H. Qed.

Lemma catch_throw {A} (m : M A) (h : exn -> M A) w e w' :
  m w = (Throw e, w') -> catch m h w = h e w'.
Proof. intros H. unfold catch. by rewrite H. Qed.

(** Every effect run settles without an error. *)
Lemma run_effects_resolves request changed st w :
  exists w', run_effects request changed st w = (Ok tt, w').
Proof.
  assert (Hpush : forall w0, exists w1, pushIngredientsEffect request st w0 = (Ok tt, w1)).
  { intros w0. unfold pushIngredientsEffect.
    destruct (currentUser st) as [user |]; [| by eexists].
    destruct (negb (ingredientsLoaded st)); [by eexists |].
    unfold catch, bind.
    destruct (replaceUserIngredients request (user_key user) (ingredients st) w0)
      as [[rows | e] w1]; by eexists. }
  assert (Hsaved : forall w0, exists w1, pushSavedRecipesEffect request st w0 = (Ok tt, w1)).
  { intros w0. unfold pushSavedRecipesEffect.
    destruct (currentUser st) as [user |]; [| by eexists].
    destruct (negb (savedRecipesLoaded st)); [by eexists |].
    unfold catch, bind.
    destruct (replaceUserSavedRecipes request (user_key user) (savedRecipes st) w0)
      as [[rows | e] w1]; by eexists. }
  unfold run_effects.
  assert (H1 : exists w1, when (triggered changed persist_deps) (persistEffect st) w = (Ok tt, w1)).
  { destruct (triggered changed persist_deps); [| by eexists].
    destruct (persistEffect_local st w) as (w1 & H & _). by exists w1. }
  destruct H1 as [w1 H1]. rewrite (bind_ok _ _ _ _ _ H1).
  assert (H2 : exists w2, when (triggered changed pushIngredients_deps)
                            (pushIngredientsEffect request st) w1 = (Ok tt, w2)).
  { destruct (triggered changed pushIngredients_deps); [apply Hpush | by eexists]. }
  destruct H2 as [w2 H2]. rewrite (bind_ok _ _ _ _ _ H2).
  destruct (triggered changed pushSavedRecipes_deps); [apply Hsaved | by eexists].
Qed.

(** With both gates closed an effect run leaves the remote side alone. *)
Lemma run_effects_closed request changed st w :
  ingredientsLoaded st = false -> savedRecipesLoaded st = false ->
  exists w', run_effects request changed st w = (Ok tt, w') /\
             config w' = config w /\ script w' = script w /\ store w' = store w /\
             sent w' = sent w.
Proof.
  intros Hi Hs. unfold run_effects.
  assert (H1 : exists w1, when (triggered changed persist_deps) (persistEffect st) w = (Ok tt, w1)
                          /\ config w1 = config w /\ script w1 = script w /\
                          store w1 = store w /\ sent w1 = sent w).
  { destruct (triggered changed persist_deps); [| by eexists].
    destruct (persistEffect_local st w) as (w1 & H & Ha & Hb & Hc & Hd & He). by exists w1. }
  destruct H1 as (w1 & H1 & Ha & Hb & Hc & Hd). rewrite (bind_ok _ _ _ _ _ H1).
  assert (H2 : when (triggered changed pushIngredients_deps)
                 (pushIngredientsEffect request st) w1 = (Ok tt, w1)).
  { destruct (triggered changed pushIngredients_deps);
      [by apply pushIngredientsEffect_closed | done]. }
  rewrite (bind_ok _ _ _ _ _ H2).
  exists w1. split; [| done].
  destruct (triggered changed pushSavedRecipes_deps);
    [by apply pushSavedRecipesEffect_closed | done].
Qed.

(** [syncUserData] when the profile upsert went through: the state is
    overwritten with what the two fetches bring back. *)
Lemma syncUserData_served user cachedSettings st w b2 b3 rest :
  isSupabaseConfigured (config w) = true ->
  user_key user <> "" ->
  script w = Serve true :: b2 :: b3 :: rest ->
  exists w',
    syncUserData Client.supabaseRequest user cachedSettings st w =
      (Ok (synced st (fetched_pantry b2 (user_key user) (store w))
                     (fetched_saved b3 (user_key user) (store w))), w').
Proof.
  intros Hcfg Hid Hscript. unfold syncUserData.
  destruct (saveUserProfile_served
              {| id := user_key user; email := user_email user;
                 display_name := Some (before_at (user_email user));
                 has_completed_onboarding := Some (hasCompletedOnboarding user);
                 preferred_cuisines := Some (preferredCuisines cachedSettings) |}
              w _ Hcfg Hscript)
    as (row & w1 & Hsave & Hcfg1 & Hscript1 & Hpantry1 & Hsaved1).
  rewrite <- Hcfg1 in Hcfg.
  destruct (getUserIngredients_or_empty (user_key user) w1 b2 _ Hcfg Hid Hscript1)
    as (w2 & Hfetch1 & Hcfg2 & Hscript2 & Hstore2).
  rewrite <- Hcfg2 in Hcfg.
  destruct (getUserSavedRecipes_or_empty (user_key user) w2 b3 _ Hcfg Hscript2)
    as (w3 & Hfetch2 & _).
  exists w3.
  erewrite bind_ok.
  2: { apply catch_ok.
       rewrite (bind_ok _ _ _ _ _ Hsave), (bind_ok _ _ _ _ _ Hfetch1),
         (bind_ok _ _ _ _ _ Hfetch2).
       rewrite !map_or_empty. reflexivity. }
  unfold ret, synced, fetched_pantry, fetched_saved.
  by rewrite Hstore2, Hpantry1, Hsaved1.
Qed.

End SyncTheorems.

Section ReconciliationTheorems.
Import JS Types Supabase App.

(** Whatever the requests do, [syncUserData] settles without an error and
    with both gates open. *)
Lemma syncUserData_opens_gates request user cachedSettings st w :
  exists st' w',
    syncUserData request user cachedSettings st w = (Ok st', w') /\
    ingredientsLoaded st' = true /\ savedRecipesLoaded st' = true.
Proof.
  unfold syncUserData.
  match goal with
  | |- context [bind (catch ?body ?handler) _ w] =>
      destruct (body w) as [[st2 | e] w1] eqn:Hbody
  end.
  - eexists _, _. erewrite bind_ok; [| apply catch_ok; exact Hbody]. by unfold ret.
  - eexists _, _. erewrite bind_ok.
    2: { rewrite (catch_throw _ _ _ _ _ Hbody). reflexivity. }
    by unfold ret.
Qed.

(** C4.  [syncUserData] never raises and always ends with both gates
    true.  When the profile upsert that precedes the fetches went through
    (so that both fetches are issued), each fetch brings back the user's
    remote rows if the store processed it and the empty list if it failed
    in any way, and the in-memory pantry and saved recipes are exactly
    those results, whatever they held before; in particular the session
    effect, which first loads the locally cached collections, ends with
    the remote ones. *)
Theorem syncUserData_remote_wins user cachedSettings st w :
  (exists st' w',
     syncUserData Client.supabaseRequest user cachedSettings st w = (Ok st', w') /\
     ingredientsLoaded st' = true /\ savedRecipesLoaded st' = true) /\
  (forall b2 b3 rest,
     isSupabaseConfigured (config w) = true ->
     user_key user <> "" ->
     script w = Serve true :: b2 :: b3 :: rest ->
     (exists w',
        syncUserData Client.supabaseRequest user cachedSettings st w =
          (Ok (synced st (fetched_pantry b2 (user_key user) (store w))
                         (fetched_saved b3 (user_key user) (store w))), w')) /\
     (currentUser st = Some user ->
      exists w',
        sessionEffect Client.supabaseRequest st w =
          (Ok (synced (fst (loadSession st w))
                      (fetched_pantry b2 (user_key user) (store w))
                      (fetched_saved b3 (user_key user) (store w))), w'))).
Proof.
  split; [apply syncUserData_opens_gates |].
  intros b2 b3 rest Hcfg Hid Hscript.
  split; [by eapply syncUserData_served |].
  intros Huser. unfold sessionEffect.
  destruct (loadSession st w) as [st1 cached] eqn:Hload. rewrite Huser.
  assert (Hgates : ingredientsLoaded st1 = false /\ savedRecipesLoaded st1 = false).
  { unfold loadSession in Hload. rewrite Huser in Hload. by injection Hload as <- _. }
  destruct Hgates as [Hg1 Hg2].
  destruct (run_effects_closed Client.supabaseRequest
              [VSettings; VIngredients; VSavedRecipes; VShoppingList;
               VIngredientsLoaded; VSavedRecipesLoaded] st1 w Hg1 Hg2)
    as (w1 & Hrun1 & Hcfg1 & Hscript1 & Hstore1 & _).
  rewrite (bind_ok _ _ _ _ _ Hrun1).
  rewrite <- Hcfg1 in Hcfg. rewrite <- Hscript1 in Hscript.
  destruct (syncUserData_served user cached st1 w1 b2 b3 rest Hcfg Hid Hscript)
    as (w2 & Hsync).
  rewrite (bind_ok _ _ _ _ _ Hsync).
  destruct (run_effects_resolves Client.supabaseRequest
              [VIngredients; VSavedRecipes; VIngredientsLoaded; VSavedRecipesLoaded]
              (synced st1 (fetched_pantry b2 (user_key user) (store w1))
                          (fetched_saved b3 (user_key user) (store w1))) w2)
    as (w3 & Hrun2).
  rewrite (bind_ok _ _ _ _ _ Hrun2).
  exists w3. unfold ret. cbn [fst]. by rewrite Hstore1.
Qed.

Lemma syncUserData_remote_wins_witness :
  exists w',
    syncUserData Client.supabaseRequest cook defaultSettings stale sync_world =
      (Ok {| currentUser := Some cook; settings := defaultSettings;
             ingredients := [ {| name := "Egg"; quantity := "2" |} ];
             shoppingList := []; savedRecipes := [];
             ingredientsLoaded := true; savedRecipesLoaded := true |}, w').
Proof.
  exact (proj1 (proj2 (syncUserData_remote_wins cook defaultSettings stale sync_world)
                  (Serve false) (Refuse 503 "Service Unavailable" "") []
                  eq_refl ltac:(discriminate) eq_refl)).
Defined.

(** When the profile upsert is answered without a body, [saveUserProfile]
    rejects, the fetches are not issued and the cached collections stay;
    the gates open all the same. *)
Example syncUserData_without_echo :
  fst (syncUserData Client.supabaseRequest cook defaultSettings stale
         (world_of configured egg_store [Serve false; Serve false; Serve false])) =
  Ok (setSavedRecipesLoaded true (setIngredientsLoaded true stale)) /\
  sent (snd (syncUserData Client.supabaseRequest cook defaultSettings stale
         (world_of configured egg_store [Serve false; Serve false; Serve false]))) =
  [ {| to_table := user_profiles; with_filter := None; with_method := POST |} ].
Proof. split; reflexivity. Qed.

End ReconciliationTheorems.

(** * Further properties *)

(** ** The executor: success, exhaustion and the error that is raised *)

Section ExecutorMore.
Import JS Gemini.

Lemma try_block_returned o attempt delay v :
  returned o = Some v -> try_block o attempt delay = Returns v.
Proof.
  destruct o as [e | r]; [done |]. simpl. unfold try_block.
  destruct (ok r); [| done]. by intros ->.
Qed.

(** An outcome that is not a parsed 2xx answer leaves the [try] block by
    [continue] or by an exception. *)
Lemma try_block_not_returned o attempt delay :
  returned o = None ->
  ((attempt < MAX_RETRIES)%nat /\
   try_block o attempt delay =
     Continues [EWarnOverloaded attempt delay; ESleep delay] (delay * 2)) \/
  (exists e, try_block o attempt delay = Throws e).
Proof.
  intros Hnone.
  destruct (try_block_exits o attempt delay) as [[v Hv] | H]; [| exact H].
  exfalso. destruct o as [e | r]; [done |]. unfold try_block in Hv. simpl in Hnone.
  destruct (ok r).
  - by rewrite Hnone in Hv.
  - destruct (json_body r) as [j |]; [| done].
    destruct (errorMessage j) as [m | e]; [| done].
    by destruct (isRetryable m && (attempt <? MAX_RETRIES)%nat).
Qed.

(** One iteration before the last, for an outcome that is not a success:
    the request, a wait of the current delay, and the rest of the loop
    with the doubled delay. *)
Lemma attempts_retry net action fuel attempt delay :
  (attempt < MAX_RETRIES)%nat ->
  returned (net attempt) = None ->
  fst (attempts net action (S fuel) attempt delay) =
    fst (attempts net action fuel (S attempt) (delay * 2)) /\
  schedule (snd (attempts net action (S fuel) attempt delay)) =
    Request :: Wait delay :: schedule (snd (attempts net action fuel (S attempt) (delay * 2))).
Proof.
  intros Hlt Hnone. rewrite attempts_unfold.
  assert (Hle : (attempt <=? MAX_RETRIES)%nat = true) by (apply Nat.leb_le; lia).
  assert (Hltb : (attempt <? MAX_RETRIES)%nat = true) by (by apply Nat.ltb_lt).
  rewrite Hle.
  destruct (try_block_not_returned (net attempt) attempt delay Hnone) as [[_ ->] | [e ->]].
  - by destruct (attempts net action fuel (S attempt) (delay * 2)).
  - rewrite Hltb. by destruct (attempts net action fuel (S attempt) (delay * 2)).
Qed.

Lemma attempts_return net action fuel attempt delay v :
  (attempt <= MAX_RETRIES)%nat ->
  returned (net attempt) = Some v ->
  attempts net action (S fuel) attempt delay = (Done (Ok v), [EFetch action attempt]).
Proof.
  intros Hle Hv. rewrite attempts_unfold.
  assert (Hleb : (attempt <=? MAX_RETRIES)%nat = true) by (by apply Nat.leb_le).
  by rewrite Hleb, (try_block_returned _ _ _ _ Hv).
Qed.

(** The last iteration, for an outcome that is not a success. *)
Lemma attempts_exhausted net action fuel delay :
  returned (net 3%nat) = None ->
  exists e,
    try_block (net 3%nat) 3 delay = Throws e /\
    attempts net action (S fuel) 3 delay =
      (Done (Throw (if instanceof_Error e then e
                    else Thrown Error "An unknown error occurred during the API call.")),
       [EFetch action 3; EConsoleError action MAX_RETRIES e]).
Proof.
  intros Hnone. rewrite attempts_unfold.
  destruct (try_block_not_returned (net 3%nat) 3 delay Hnone) as [[Hlt _] | [e He]].
  - unfold MAX_RETRIES in Hlt. lia.
  - exists e. split; [exact He |]. by rewrite He.
Qed.

(** X1.  The number of requests is the position of the first 2xx answer
    with a JSON body: that answer is returned at once, with no wait after
    it, and every other outcome before it costs a wait (1000 ms, then
    2000 ms) and a new request; without such an answer in three attempts
    the call raises after the third request. *)
Theorem callGeminiApi_first_success net action :
  (forall v, returned (net 1%nat) = Some v ->
     callGeminiApi net action = (Done (Ok v), [EFetch action 1])) /\
  (forall v, returned (net 1%nat) = None -> returned (net 2%nat) = Some v ->
     fst (callGeminiApi net action) = Done (Ok v) /\
     schedule (snd (callGeminiApi net action)) = [Request; Wait 1000; Request]) /\
  (forall v, returned (net 1%nat) = None -> returned (net 2%nat) = None ->
     returned (net 3%nat) = Some v ->
     fst (callGeminiApi net action) = Done (Ok v) /\
     schedule (snd (callGeminiApi net action)) =
       [Request; Wait 1000; Request; Wait 2000; Request]) /\
  (returned (net 1%nat) = None -> returned (net 2%nat) = None ->
   returned (net 3%nat) = None ->
     (exists e, fst (callGeminiApi net action) = Done (Throw e)) /\
     schedule (snd (callGeminiApi net action)) =
       [Request; Wait 1000; Request; Wait 2000; Request]).
Proof.
  unfold callGeminiApi. change (S MAX_RETRIES) with 4%nat.
  assert (H12 : (1 < MAX_RETRIES)%nat) by (unfold MAX_RETRIES; lia).
  assert (H22 : (2 < MAX_RETRIES)%nat) by (unfold MAX_RETRIES; lia).
  assert (H2 : (2 <= MAX_RETRIES)%nat) by (unfold MAX_RETRIES; lia).
  assert (H3 : (3 <= MAX_RETRIES)%nat) by (unfold MAX_RETRIES; lia).
  split; [| split; [| split]].
  - intros v Hv. apply attempts_return; [unfold MAX_RETRIES; lia | done].
  - intros v Hn1 Hv.
    destruct (attempts_retry net action 3 1 1000 H12 Hn1) as [-> ->].
    by rewrite (attempts_return net action 2 2 _ v H2 Hv).
  - intros v Hn1 Hn2 Hv.
    destruct (attempts_retry net action 3 1 1000 H12 Hn1) as [-> ->].
    destruct (attempts_retry net action 2 2 (1000 * 2) H22 Hn2) as [-> ->].
    by rewrite (attempts_return net action 1 3 _ v H3 Hv).
  - intros Hn1 Hn2 Hn3.
    destruct (attempts_retry net action 3 1 1000 H12 Hn1) as [-> ->].
    destruct (attempts_retry net action 2 2 (1000 * 2) H22 Hn2) as [-> ->].
    destruct (attempts_exhausted net action 1 (1000 * 2 * 2) Hn3) as (e & _ & ->).
    split; [simpl; eauto | done].
Qed.

Lemma callGeminiApi_first_success_witness :
  fst (callGeminiApi second_time_lucky "analyzeReceipt") = Done (Ok (JObj [("result", JArr [])])) /\
  schedule (snd (callGeminiApi second_time_lucky "analyzeReceipt")) =
    [Request; Wait 1000; Request].
Proof.
  exact (proj1 (proj2 (callGeminiApi_first_success second_time_lucky "analyzeReceipt"))
           _ eq_refl eq_refl).
Defined.

(** X2.  What [callGeminiApi] raises is always an [Error] object: a
    rejection of [fetch] with any other value is replaced, at the last
    attempt, by a generic error. *)
Theorem callGeminiApi_raises_errors net action e :
  fst (callGeminiApi net action) = Done (Throw e) -> instanceof_Error e = true.
Proof.
  unfold callGeminiApi. change (S MAX_RETRIES) with 4%nat.
  assert (H12 : (1 < MAX_RETRIES)%nat) by (unfold MAX_RETRIES; lia).
  assert (H22 : (2 < MAX_RETRIES)%nat) by (unfold MAX_RETRIES; lia).
  assert (H1 : (1 <= MAX_RETRIES)%nat) by (unfold MAX_RETRIES; lia).
  assert (H2 : (2 <= MAX_RETRIES)%nat) by (unfold MAX_RETRIES; lia).
  assert (H3 : (3 <= MAX_RETRIES)%nat) by (unfold MAX_RETRIES; lia).
  destruct (returned (net 1%nat)) as [v1 |] eqn:Hr1.
  { by rewrite (attempts_return net action 3 1 _ v1 H1 Hr1). }
  destruct (attempts_retry net action 3 1 1000 H12 Hr1) as [-> _].
  destruct (returned (net 2%nat)) as [v2 |] eqn:Hr2.
  { by rewrite (attempts_return net action 2 2 _ v2 H2 Hr2). }
  destruct (attempts_retry net action 2 2 (1000 * 2) H22 Hr2) as [-> _].
  destruct (returned (net 3%nat)) as [v3 |] eqn:Hr3.
  { by rewrite (attempts_return net action 1 3 _ v3 H3 Hr3). }
  destruct (attempts_exhausted net action 1 (1000 * 2 * 2) Hr3) as (e3 & _ & ->).
  simpl. intros [= <-]. by destruct e3.
Qed.

Lemma callGeminiApi_raises_errors_witness :
  instanceof_Error (Thrown Error "An unknown error occurred during the API call.") = true.
Proof.
  exact (callGeminiApi_raises_errors odd_rejection "chatWithAIChef" _ eq_refl).
Defined.

(** X3.  After three failures the error raised is that of the third
    outcome alone; the errors of the first two attempts are only logged.
    For an error body whose [error] is a string, it is that string, or
    the status line when the string is empty. *)
Theorem callGeminiApi_raises_last_error net action r errorData s :
  returned (net 1%nat) = None -> returned (net 2%nat) = None ->
  net 3%nat = Resolves r -> ok r = false ->
  json_body r = Some errorData -> errorMessage errorData = Ok (MsgString s) ->
  fst (callGeminiApi net action) =
    Done (Throw (Thrown Error
                   (or_else s ("API call failed with status: " +:+ pretty (status r))))).
Proof.
  intros Hn1 Hn2 Hnet Hok Hbody Hmsg.
  unfold callGeminiApi. change (S MAX_RETRIES) with 4%nat.
  assert (H12 : (1 < MAX_RETRIES)%nat) by (unfold MAX_RETRIES; lia).
  assert (H22 : (2 < MAX_RETRIES)%nat) by (unfold MAX_RETRIES; lia).
  destruct (attempts_retry net action 3 1 1000 H12 Hn1) as [-> _].
  destruct (attempts_retry net action 2 2 (1000 * 2) H22 Hn2) as [-> _].
  rewrite attempts_unfold. change (3 <=? MAX_RETRIES)%nat with true. cbn match.
  unfold try_block. rewrite Hnet, Hok, Hbody, Hmsg.
  change (3 <? MAX_RETRIES)%nat with false. rewrite andb_false_r. done.
Qed.

Lemma callGeminiApi_raises_last_error_witness :
  fst (callGeminiApi silent_failure "getRecipeDetails") =
    Done (Throw (Thrown Error "API call failed with status: 500")).
Proof.
  exact (callGeminiApi_raises_last_error silent_failure "getRecipeDetails" _ (JObj []) ""
           eq_refl eq_refl eq_refl eq_refl eq_refl eq_refl).
Defined.

End ExecutorMore.

(** ** The persistence operations against a store that answers *)

Section ReliableStore.
Import JS Types Supabase SupabaseMore.

Lemma reliable_next w : reliable w -> exists b, next_behaviour w = Serve b.
Proof.
  intros [_ Hall]. unfold next_behaviour.
  destruct (script w) as [| b rest]; [by eexists |].
  apply Forall_cons in Hall as [Hb _]. destruct b; [done | done | by eexists].
Qed.

Lemma reliable_after s l w : reliable w -> reliable (with_store s (with_request l w)).
Proof.
  intros [Hcfg Hall]. split; [exact Hcfg |]. simpl.
  destruct (script w) as [| b rest]; [done |]. by apply Forall_cons in Hall as [_ ?].
Qed.

Lemma reliable_scripted w b rest :
  isSupabaseConfigured (config w) = true -> script w = Serve b :: rest ->
  Forall processes rest -> reliable w.
Proof. intros Hcfg Hs Hrest. split; [done |]. rewrite Hs. by constructor. Qed.

(** A request under a behaviour that processes it. *)
Lemma request_processed t (req : Request t) w representation :
  isSupabaseConfigured (config w) = true ->
  next_behaviour w = Serve representation ->
  Client.supabaseRequest t req w =
    handleResponse (fst (serve t req representation (store w)))
      (with_store (snd (serve t req representation (store w)))
         (with_request (line_of req) w)).
Proof.
  intros Hcfg Hnext.
  unfold Client.supabaseRequest, bind, fetch.
  rewrite Hcfg, Hnext. cbn [negb].
  by destruct (serve t req representation (store w)).
Qed.

(** A request that fails, by the network or by a non-2xx answer: its
    error is raised and the store is as it was. *)
Lemma request_failed t (req : Request t) w failing e rest :
  isSupabaseConfigured (config w) = true ->
  script w = failing :: rest ->
  failure_of failing = Some e ->
  Client.supabaseRequest t req w = (Throw e, with_request (line_of req) w).
Proof.
  intros Hcfg Hscript Hfail.
  destruct failing as [e0 | status statusText text | representation];
    simpl in Hfail; [| | done]; injection Hfail as <-.
  - by apply (request_unreachable _ _ _ _ rest).
  - by apply (request_refused _ _ _ _ _ _ rest).
Qed.

Lemma delete_pantry_processed userId w representation :
  isSupabaseConfigured (config w) = true ->
  next_behaviour w = Serve representation ->
  Client.supabaseRequest user_ingredients (delete_pantry userId) w =
    (Ok (if representation
         then Some (filter (owned_by userId) (pantry (store w))) else None),
     with_store
       (with_pantry (filter (fun r => ~ owned_by userId r) (pantry (store w))) (store w))
       (with_request (line_of (delete_pantry userId)) w)).
Proof.
  intros Hcfg Hnext. rewrite (request_processed _ _ _ _ Hcfg Hnext).
  cbn [serve delete_pantry serve_rows filter_by method body prefer fst snd].
  rewrite selected_pantry, unselected_pantry.
  by destruct representation.
Qed.

Lemma insert_pantry_processed rows p w representation :
  isSupabaseConfigured (config w) = true ->
  next_behaviour w = Serve representation ->
  Client.supabaseRequest user_ingredients
      (mkRequest user_ingredients None POST (Some rows) p) w =
    (Ok (if representation then Some rows else None),
     with_store (with_pantry (pantry (store w) ++ rows)%list (store w))
       (with_request (line_of (mkRequest user_ingredients None POST (Some rows) p)) w)).
Proof.
  intros Hcfg Hnext. rewrite (request_processed _ _ _ _ Hcfg Hnext).
  cbn [serve serve_rows filter_by method body prefer fst snd].
  by destruct representation.
Qed.

Lemma select_pantry_processed userId w representation :
  isSupabaseConfigured (config w) = true ->
  next_behaviour w = Serve representation ->
  Client.supabaseRequest user_ingredients (select_pantry userId) w =
    (Ok (Some (filter (owned_by userId) (pantry (store w)))),
     with_store (with_pantry (pantry (store w)) (store w))
       (with_request (line_of (select_pantry userId)) w)).
Proof.
  intros Hcfg Hnext. rewrite (request_processed _ _ _ _ Hcfg Hnext).
  cbn [serve select_pantry serve_rows filter_by method body prefer fst snd].
  by rewrite selected_pantry.
Qed.

(** [getUserIngredients] in front of a reliable store. *)
Lemma getUserIngredients_reliable userId w :
  reliable w -> userId <> "" ->
  exists w',
    getUserIngredients Client.supabaseRequest userId w =
      (Ok (filter (owned_by userId) (pantry (store w))), w') /\
    reliable w' /\ store w' = store w.
Proof.
  intros Hrel Hid. destruct (reliable_next w Hrel) as [b Hnext].
  unfold getUserIngredients. rewrite (truthy_nonempty _ Hid). cbn [negb]. unfold bind.
  change (mkRequest user_ingredients _ GET None None) with (select_pantry userId).
  rewrite (select_pantry_processed _ _ _ (proj1 Hrel) Hnext).
  eexists. split; [reflexivity |]. split; [by apply reliable_after |].
  cbn [store with_store with_pantry]. apply store_eta.
Qed.

(** [replaceUserIngredients] in front of a reliable store. *)
Lemma replaceUserIngredients_reliable userId ingredients w :
  reliable w -> userId <> "" ->
  exists rows w',
    replaceUserIngredients Client.supabaseRequest userId ingredients w = (Ok rows, w') /\
    reliable w' /\
    pantry (store w') =
      (filter (fun row => ~ owned_by userId row) (pantry (store w))
         ++ records_of userId ingredients)%list.
Proof.
  intros Hrel Hid. destruct (reliable_next w Hrel) as [b1 Hnext1].
  unfold replaceUserIngredients. rewrite (truthy_nonempty _ Hid). cbn [negb].
  unfold bind at 1.
  change (mkRequest user_ingredients _ DELETE None None) with (delete_pantry userId).
  rewrite (delete_pantry_processed _ _ _ (proj1 Hrel) Hnext1).
  set (w1 := with_store _ _).
  assert (Hrel1 : reliable w1) by (by apply reliable_after).
  destruct ingredients as [| i l].
  - cbn [length Nat.eqb]. eexists _, w1. split; [reflexivity |]. split; [done |].
    subst w1. cbn [store with_store with_pantry pantry records_of map]. by rewrite app_nil_r.
  - cbn [length Nat.eqb]. unfold bind.
    destruct (reliable_next w1 Hrel1) as [b2 Hnext2].
    change (map _ (i :: l)) with (records_of userId (i :: l)).
    rewrite (insert_pantry_processed _ _ _ _ (proj1 Hrel1) Hnext2).
    eexists _, _. split; [reflexivity |]. split; [by apply reliable_after | done].
Qed.

Lemma records_of_other userId other ingredients :
  other <> userId -> filter (owned_by other) (records_of userId ingredients) = [].
Proof.
  intros Hne. induction ingredients as [| i l IH]; [done |].
  simpl. rewrite filter_cons_False; [exact IH |]. unfold owned_by. simpl. congruence.
Qed.

Lemma records_of_dropped userId ingredients :
  filter (fun row => ~ owned_by userId row) (records_of userId ingredients) = [].
Proof.
  induction ingredients as [| i l IH]; [done |].
  simpl. rewrite filter_cons_False; [exact IH |]. unfold owned_by. simpl. tauto.
Qed.

(** X4.  Replacing the pantry of one user leaves what every other user
    fetches as it was. *)
Theorem replaceUserIngredients_other_users userId other ingredients w :
  reliable w -> userId <> "" -> other <> "" -> other <> userId ->
  fst (getUserIngredients Client.supabaseRequest other
         (snd (replaceUserIngredients Client.supabaseRequest userId ingredients w))) =
  fst (getUserIngredients Client.supabaseRequest other w).
Proof.
  intros Hrel Hid Hother Hne.
  destruct (replaceUserIngredients_reliable userId ingredients w Hrel Hid)
    as (rows & w1 & -> & Hrel1 & Hpantry).
  cbn [snd].
  destruct (getUserIngredients_reliable other w1 Hrel1 Hother) as (w2 & -> & _).
  destruct (getUserIngredients_reliable other w Hrel Hother) as (w3 & -> & _).
  cbn [fst snd]. rewrite Hpantry, filter_app. f_equal.
  rewrite list_filter_filter.
  rewrite (records_of_other _ _ _ Hne), app_nil_r.
  apply list_filter_iff. intros row. unfold owned_by. split; [tauto |].
  intros Hrow. split; [exact Hrow | congruence].
Qed.

Lemma replaceUserIngredients_other_users_witness :
  fst (getUserIngredients Client.supabaseRequest "v"
         (snd (replaceUserIngredients Client.supabaseRequest "u" [rice]
                 (world_of configured egg_store [])))) =
  Ok [ {| user_id := "v"; ingredient_name := "Milk"; ingredient_quantity := "1L" |} ].
Proof.
  exact (replaceUserIngredients_other_users "u" "v" [rice] (world_of configured egg_store [])
           (conj eq_refl (Forall_nil_2 _)) ltac:(discriminate) ltac:(discriminate)
           ltac:(discriminate)).
Defined.

(** X5.  The last replacement wins: after two replacements of a user's
    pantry the user fetches exactly the items of the second one, and
    repeating a replacement leaves the stored pantry as the first one made
    it. *)
Theorem replaceUserIngredients_last_wins userId first second w :
  reliable w -> userId <> "" ->
  fst (getUserIngredients Client.supabaseRequest userId
         (snd (replaceUserIngredients Client.supabaseRequest userId second
                 (snd (replaceUserIngredients Client.supabaseRequest userId first w))))) =
    Ok (records_of userId second) /\
  pantry (store (snd (replaceUserIngredients Client.supabaseRequest userId first
                        (snd (replaceUserIngredients Client.supabaseRequest userId first w))))) =
  pantry (store (snd (replaceUserIngredients Client.supabaseRequest userId first w))).
Proof.
  intros Hrel Hid.
  destruct (replaceUserIngredients_reliable userId first w Hrel Hid)
    as (rows1 & w1 & -> & Hrel1 & Hp1).
  cbn [snd].
  assert (Hdrop : forall l : list UserIngredientRecord,
            filter (fun row => ~ owned_by userId row)
              (filter (fun row => ~ owned_by userId row) l ++ records_of userId first)%list
            = filter (fun row => ~ owned_by userId row) l).
  { intros l. rewrite filter_app, list_filter_filter.
    rewrite records_of_dropped, app_nil_r. apply list_filter_iff. tauto. }
  split.
  - destruct (replaceUserIngredients_reliable userId second w1 Hrel1 Hid)
      as (rows2 & w2 & -> & Hrel2 & Hp2).
    cbn [snd].
    destruct (getUserIngredients_reliable userId w2 Hrel2 Hid) as (w3 & -> & _).
    cbn [fst snd]. rewrite Hp2, filter_app, others_not_owned, records_owned. done.
  - destruct (replaceUserIngredients_reliable userId first w1 Hrel1 Hid)
      as (rows2 & w2 & -> & _ & Hp2).
    cbn [snd]. by rewrite Hp2, Hp1, Hdrop.
Qed.

Lemma replaceUserIngredients_last_wins_witness :
  fst (getUserIngredients Client.supabaseRequest "u"
         (snd (replaceUserIngredients Client.supabaseRequest "u" [tofu]
                 (snd (replaceUserIngredients Client.supabaseRequest "u" [rice; tofu]
                         (world_of configured egg_store [Serve true; Serve false])))))) =
    Ok [ {| user_id := "u"; ingredient_name := "Tofu"; ingredient_quantity := "1 block" |} ].
Proof.
  apply (replaceUserIngredients_last_wins "u" [rice; tofu] [tofu]
           (world_of configured egg_store [Serve true; Serve false])).
  - split; [reflexivity | by repeat constructor].
  - discriminate.
Defined.

End ReliableStore.

Section ServiceFailures.
Import JS Types Supabase SupabaseMore App.

(** X6.  When the DELETE of [replaceUserIngredients] fails, its error is
    raised, the INSERT is never sent and the store is as it was. *)
Theorem replaceUserIngredients_delete_fails userId ingredients w failing e rest :
  isSupabaseConfigured (config w) = true ->
  userId <> "" ->
  script w = failing :: rest ->
  failure_of failing = Some e ->
  replaceUserIngredients Client.supabaseRequest userId ingredients w =
    (Throw e, with_request (line_of (delete_pantry userId)) w) /\
  store (snd (replaceUserIngredients Client.supabaseRequest userId ingredients w)) = store w /\
  sent (snd (replaceUserIngredients Client.supabaseRequest userId ingredients w)) =
    (sent w ++ [line_of (delete_pantry userId)])%list.
Proof.
  intros Hcfg Hid Hscript Hfail.
  assert (Hrun : replaceUserIngredients Client.supabaseRequest userId ingredients w =
                 (Throw e, with_request (line_of (delete_pantry userId)) w)).
  { unfold replaceUserIngredients. rewrite (truthy_nonempty _ Hid). cbn [negb].
    apply bind_throw.
    change (mkRequest user_ingredients _ DELETE None None) with (delete_pantry userId).
    by apply (request_failed _ _ _ failing e rest). }
  by rewrite Hrun.
Qed.

Lemma replaceUserIngredients_delete_fails_witness :
  replaceUserIngredients Client.supabaseRequest "u" [rice]
    (world_of configured egg_store [Unreachable (Thrown TypeError "Failed to fetch")]) =
  (Throw (Thrown TypeError "Failed to fetch"),
   with_request (line_of (delete_pantry "u"))
     (world_of configured egg_store [Unreachable (Thrown TypeError "Failed to fetch")])).
Proof.
  exact (proj1 (replaceUserIngredients_delete_fails "u" [rice]
                  (world_of configured egg_store
                     [Unreachable (Thrown TypeError "Failed to fetch")])
                  _ _ [] eq_refl ltac:(discriminate) eq_refl eq_refl)).
Defined.

(** X7.  For a user whose id is empty, the pantry push with the gate open
    sends nothing: the service rejects before any request, and the effect
    swallows the error into one console line.  (Whatever the request
    primitive is.) *)
Theorem pushIngredientsEffect_without_id request st user w :
  currentUser st = Some user -> user_key user = "" -> ingredientsLoaded st = true ->
  pushIngredientsEffect request st w =
    (Ok tt,
     with_log (ErrorEntry "Failed to persist ingredients to Supabase"
                 (Thrown Error "User ID is required to update ingredients.")) w).
Proof.
  intros Huser Hid Hgate. unfold pushIngredientsEffect.
  by rewrite Huser, Hgate, Hid.
Qed.

End ServiceFailures.

Section ServiceFailuresWitness.
Import JS Types Supabase SupabaseMore App.

Lemma pushIngredientsEffect_without_id_witness :
  sent (snd (pushIngredientsEffect Client.supabaseRequest nameless_session
               (world_of configured egg_store []))) = [] /\
  fst (pushIngredientsEffect Client.supabaseRequest nameless_session
         (world_of configured egg_store [])) = Ok tt.
Proof.
  rewrite (pushIngredientsEffect_without_id Client.supabaseRequest nameless_session nameless
             (world_of configured egg_store []) eq_refl eq_refl eq_refl).
  by split.
Defined.

End ServiceFailuresWitness.

Section ProfileAndCounter.
Import JS Types Supabase SupabaseMore.

Lemma upsert_profile_processed row w representation :
  isSupabaseConfigured (config w) = true ->
  next_behaviour w = Serve representation ->
  Client.supabaseRequest user_profiles
      (mkRequest user_profiles None POST (Some [row]) merge) w =
    (Ok (if representation then Some [row] else None),
     with_store (with_profiles (<[id row := row]> (profiles (store w))) (store w))
       (with_request (line_of (mkRequest user_profiles None POST (Some [row]) merge)) w)).
Proof.
  intros Hcfg Hnext. rewrite (request_processed _ _ _ _ Hcfg Hnext).
  cbn [serve serve_keyed filter_by method body prefer fst snd merge merge_duplicates].
  change (String.eqb "resolution=merge-duplicates" "resolution=merge-duplicates") with true.
  cbn [orb upsert foldl]. by destruct representation.
Qed.

(** X8.  [saveUserProfile] sends one row with the missing fields filled
    in ([has_completed_onboarding] false, [preferred_cuisines] empty).
    Once the store has processed it, that row is the profile of its id,
    whatever was there before, and the other profiles and tables are
    untouched; the call resolves to the row when the store echoes it,
    and rejects with a TypeError, the row stored all the same, when the
    store answers without a body. *)
Theorem saveUserProfile_upserts profile w representation rest :
  isSupabaseConfigured (config w) = true ->
  script w = Serve representation :: rest ->
  fst (saveUserProfile Client.supabaseRequest profile w) =
    (if representation then Ok (Some (profile_payload profile))
     else Throw (Thrown TypeError "undefined is not iterable")) /\
  profiles (store (snd (saveUserProfile Client.supabaseRequest profile w))) !! id profile =
    Some (profile_payload profile) /\
  (forall other, other <> id profile ->
     profiles (store (snd (saveUserProfile Client.supabaseRequest profile w))) !! other =
       profiles (store w) !! other) /\
  pantry (store (snd (saveUserProfile Client.supabaseRequest profile w))) = pantry (store w) /\
  sent (snd (saveUserProfile Client.supabaseRequest profile w)) =
    (sent w ++ [ {| to_table := user_profiles; with_filter := None; with_method := POST |} ])%list.
Proof.
  intros Hcfg Hscript.
  assert (Hnext : next_behaviour w = Serve representation)
    by (unfold next_behaviour; by rewrite Hscript).
  unfold saveUserProfile, bind.
  change {| id := id profile; email := _; display_name := _;
            has_completed_onboarding := _; preferred_cuisines := _ |}
    with (profile_payload profile).
  rewrite (upsert_profile_processed _ _ _ Hcfg Hnext).
  destruct representation; cbn [first_row head ret throw fst snd store with_store
    with_profiles profiles pantry sent with_request line_of filter_by method];
    (split; [done |]; split; [apply lookup_insert_eq |]; split; [| done];
     intros other Hne; apply lookup_insert_ne; by cbn [id profile_payload]).
Qed.

Lemma saveUserProfile_upserts_witness :
  fst (saveUserProfile Client.supabaseRequest bare_profile
         (world_of configured egg_store [Serve false])) =
    Throw (Thrown TypeError "undefined is not iterable") /\
  profiles (store (snd (saveUserProfile Client.supabaseRequest bare_profile
                          (world_of configured egg_store [Serve false])))) !! "u" =
    Some {| id := "u"; email := "cook@example.com"; display_name := None;
            has_completed_onboarding := Some false; preferred_cuisines := Some [] |}.
Proof.
  destruct (saveUserProfile_upserts bare_profile (world_of configured egg_store [Serve false])
              false [] eq_refl eq_refl) as (Hr & Hp & _).
  split; [exact Hr | exact Hp].
Defined.

Variable trim : string -> string.

(** X9.  [recordRecipeSearch] is not atomic.  If the insert of the event
    fails, nothing is stored and the counter is neither read nor written;
    if the read of the counter fails, the event is already stored and the
    counter keeps its value; in both cases the error of the failing
    request is raised. *)
Theorem recordRecipeSearch_partial_failure userId recipeName searchTerm w failing e :
  isSupabaseConfigured (config w) = true ->
  failure_of failing = Some e ->
  (forall rest, script w = failing :: rest ->
     fst (recordRecipeSearch Client.supabaseRequest trim userId recipeName searchTerm w) = Throw e /\
     store (snd (recordRecipeSearch Client.supabaseRequest trim userId recipeName searchTerm w))
       = store w /\
     sent (snd (recordRecipeSearch Client.supabaseRequest trim userId recipeName searchTerm w))
       = (sent w ++ [ {| to_table := search_events; with_filter := None;
                         with_method := POST |} ])%list) /\
  (forall b rest, script w = Serve b :: failing :: rest ->
     fst (recordRecipeSearch Client.supabaseRequest trim userId recipeName searchTerm w) = Throw e /\
     events (store (snd (recordRecipeSearch Client.supabaseRequest trim userId recipeName
                           searchTerm w))) =
       (events (store w) ++
          [ {| event_user_id := userId; event_recipe_name := trim recipeName;
               search_term := trim (default (trim recipeName) searchTerm) |} ])%list /\
     counts (store (snd (recordRecipeSearch Client.supabaseRequest trim userId recipeName
                           searchTerm w))) = counts (store w)).
Proof.
  intros Hcfg Hfail. split.
  - intros rest Hscript. unfold recordRecipeSearch.
    erewrite bind_throw; [| by apply (request_failed _ _ _ failing e rest)].
    done.
  - intros b rest Hscript. unfold recordRecipeSearch.
    erewrite bind_ok; [| by apply (insert_event_served _ _ b (failing :: rest))].
    erewrite bind_throw.
    2: { apply (request_failed _ _ _ failing e rest); [exact Hcfg | | exact Hfail].
         simpl. by rewrite Hscript. }
    done.
Qed.

End ProfileAndCounter.

Section CounterRuns.
Import JS Types Supabase SupabaseMore.

Lemma recordRecipeSearch_partial_failure_witness :
  fst (recordRecipeSearch Client.supabaseRequest trim_blanks None "Kimchi Stew" None
         (world_of configured kimchi_store
            [Serve false; Refuse 500 "Internal Server Error" ""])) =
    Throw (Thrown Error "Supabase request failed (500): Internal Server Error") /\
  length (events (store (snd (recordRecipeSearch Client.supabaseRequest trim_blanks None
         "Kimchi Stew" None
         (world_of configured kimchi_store
            [Serve false; Refuse 500 "Internal Server Error" ""]))))) = 1%nat /\
  stored_count "Kimchi Stew"
    (store (snd (recordRecipeSearch Client.supabaseRequest trim_blanks None "Kimchi Stew" None
         (world_of configured kimchi_store
            [Serve false; Refuse 500 "Internal Server Error" ""])))) = 5%Z.
Proof.
  destruct (proj2 (recordRecipeSearch_partial_failure trim_blanks None "Kimchi Stew" None
              (world_of configured kimchi_store
                 [Serve false; Refuse 500 "Internal Server Error" ""])
              (Refuse 500 "Internal Server Error" "") _ eq_refl eq_refl)
              false [] eq_refl) as (Hr & He & Hc).
  split; [exact Hr |]. split; [by rewrite He |].
  unfold stored_count. by rewrite Hc.
Defined.

Variable trim : string -> string.

Lemma insert_event_processed event w representation :
  isSupabaseConfigured (config w) = true ->
  next_behaviour w = Serve representation ->
  Client.supabaseRequest search_events
      (mkRequest search_events None POST (Some [event]) None) w =
    (Ok (if representation then Some [event] else None),
     with_store (with_events (events (store w) ++ [event])%list (store w))
       (with_request (line_of (mkRequest search_events None POST (Some [event]) None)) w)).
Proof.
  intros Hcfg Hnext. rewrite (request_processed _ _ _ _ Hcfg Hnext).
  cbn [serve serve_rows filter_by method body prefer fst snd].
  by destruct representation.
Qed.

Lemma select_count_processed label w representation :
  isSupabaseConfigured (config w) = true ->
  next_behaviour w = Serve representation ->
  Client.supabaseRequest recipe_search_counts
      (mkRequest recipe_search_counts
         (Some {| column := "recipe_name"; equals := label |}) GET None None) w =
    (Ok (Some (option_list (counts (store w) !! label))),
     with_store (with_counts (counts (store w)) (store w))
       (with_request
          (line_of (mkRequest recipe_search_counts
                      (Some {| column := "recipe_name"; equals := label |}) GET None None))
          w)).
Proof.
  intros Hcfg Hnext. by rewrite (request_processed _ _ _ _ Hcfg Hnext).
Qed.

Lemma upsert_count_processed row w representation :
  isSupabaseConfigured (config w) = true ->
  next_behaviour w = Serve representation ->
  Client.supabaseRequest recipe_search_counts
      (mkRequest recipe_search_counts None POST (Some [row]) merge) w =
    (Ok (if representation then Some [row] else None),
     with_store (with_counts (<[recipe_name row := row]> (counts (store w))) (store w))
       (with_request
          (line_of (mkRequest recipe_search_counts None POST (Some [row]) merge)) w)).
Proof.
  intros Hcfg Hnext. rewrite (request_processed _ _ _ _ Hcfg Hnext).
  cbn [serve serve_keyed filter_by method body prefer fst snd merge merge_duplicates].
  change (String.eqb "resolution=merge-duplicates" "resolution=merge-duplicates") with true.
  cbn [orb upsert foldl]. by destruct representation.
Qed.

(** One search in front of a reliable store. *)
Lemma recordRecipeSearch_reliable userId recipeName searchTerm w :
  reliable w ->
  exists r w',
    recordRecipeSearch Client.supabaseRequest trim userId recipeName searchTerm w = (r, w') /\
    reliable w' /\
    counts (store w') =
      <[trim recipeName :=
          {| recipe_name := trim recipeName;
             search_count :=
               js_add (to_double (stored_count (trim recipeName) (store w))) 1 |}]>
        (counts (store w)) /\
    length (events (store w')) = S (length (events (store w))).
Proof.
  intros Hrel. unfold recordRecipeSearch.
  destruct (reliable_next w Hrel) as [b1 Hn1].
  unfold bind at 1. rewrite (insert_event_processed _ _ _ (proj1 Hrel) Hn1).
  set (w1 := with_store _ _).
  assert (Hrel1 : reliable w1) by (by apply reliable_after).
  destruct (reliable_next w1 Hrel1) as [b2 Hn2].
  unfold bind at 1. rewrite (select_count_processed _ _ _ (proj1 Hrel1) Hn2).
  set (w2 := with_store _ _).
  assert (Hrel2 : reliable w2) by (by apply reliable_after).
  cbv beta iota zeta.
  set (previous := default 0%Z _).
  assert (Hread : previous = to_double (stored_count (trim recipeName) (store w))).
  { subst previous. unfold stored_count. subst w1. cbn [store with_store with_events counts].
    by destruct (counts (store w) !! trim recipeName). }
  clearbody previous. subst previous.
  destruct (reliable_next w2 Hrel2) as [b3 Hn3].
  unfold bind. rewrite (upsert_count_processed _ _ _ (proj1 Hrel2) Hn3).
  set (w3 := with_store _ _).
  assert (Hrel3 : reliable w3) by (by apply reliable_after).
  assert (Hcounts : counts (store w3) =
            <[trim recipeName :=
                {| recipe_name := trim recipeName;
                   search_count :=
                     js_add (to_double (stored_count (trim recipeName) (store w))) 1 |}]>
              (counts (store w))) by done.
  assert (Hevents : length (events (store w3)) = S (length (events (store w)))).
  { subst w3 w2 w1. cbn [store with_store with_counts with_events events].
    rewrite length_app. simpl. lia. }
  clearbody w3.
  destruct b3; cbn [first_row]; unfold ret, throw;
    eexists _, w3; (split; [reflexivity | done]).
Qed.

(** X10.  In front of a reliable store, [n] searches for one recipe made
    one after the other leave its stored count [n] higher, and [n] more
    search events, as long as the count stays within the integers that
    doubles count exactly: it starts at -2^53 or above and ends at 2^53
    or below. *)
Theorem searches_count n userId recipeName w :
  reliable w ->
  (-9007199254740992 <= stored_count (trim recipeName) (store w))%Z ->
  (stored_count (trim recipeName) (store w) + Z.of_nat n <= 9007199254740992)%Z ->
  stored_count (trim recipeName) (store (searches trim n userId recipeName w)) =
    (stored_count (trim recipeName) (store w) + Z.of_nat n)%Z /\
  length (events (store (searches trim n userId recipeName w))) =
    (length (events (store w)) + n)%nat.
Proof.
  intros Hrel Hlow.
  assert (H : (stored_count (trim recipeName) (store w) + Z.of_nat n <= 9007199254740992)%Z ->
              reliable (searches trim n userId recipeName w) /\
              stored_count (trim recipeName) (store (searches trim n userId recipeName w)) =
                (stored_count (trim recipeName) (store w) + Z.of_nat n)%Z /\
              length (events (store (searches trim n userId recipeName w))) =
                (length (events (store w)) + n)%nat).
  { induction n as [| k IH]; intros Hhigh.
    - cbn [searches]. split; [done |]. split; lia.
    - destruct IH as (Hrelk & Hcount & Hevents); [lia |].
      cbn [searches].
      destruct (recordRecipeSearch_reliable userId recipeName None _ Hrelk)
        as (r & w' & -> & Hrel' & Hcounts' & Hevents').
      cbn [snd]. split; [done |]. split.
      + unfold stored_count at 1. rewrite Hcounts', lookup_insert_eq. simpl.
        rewrite next_count_exact; [rewrite Hcount; lia |].
        unfold counted_exactly. rewrite Hcount. lia.
      + rewrite Hevents', Hevents. lia. }
  intros Hhigh. destruct (H Hhigh) as (_ & Hcount & Hevents). by split.
Qed.

End CounterRuns.

Section CounterRunsWitness.
Import JS Types Supabase SupabaseMore.

Lemma searches_count_witness :
  stored_count "Kimchi Stew"
    (store (searches trim_blanks 3 None " Kimchi Stew " (world_of configured kimchi_store [])))
  = 8%Z.
Proof.
  apply (searches_count trim_blanks 3 None " Kimchi Stew "
           (world_of configured kimchi_store []) (conj eq_refl (Forall_nil_2 _))).
  - by vm_compute.
  - by vm_compute.
Defined.

(** X11.  [appendUserIngredient] adds one row after the rows already
    stored; in front of a store that answers without a body the row is
    stored although the call rejects with a TypeError. *)
Theorem appendUserIngredient_appends userId ingredient w representation rest :
  isSupabaseConfigured (config w) = true ->
  script w = Serve representation :: rest ->
  fst (appendUserIngredient Client.supabaseRequest userId ingredient w) =
    (if representation
     then Ok (Some {| user_id := userId; ingredient_name := name ingredient;
                      ingredient_quantity := quantity ingredient |})
     else Throw (Thrown TypeError "undefined is not iterable")) /\
  pantry (store (snd (appendUserIngredient Client.supabaseRequest userId ingredient w))) =
    (pantry (store w) ++
       [ {| user_id := userId; ingredient_name := name ingredient;
            ingredient_quantity := quantity ingredient |} ])%list.
Proof.
  intros Hcfg Hscript.
  assert (Hnext : next_behaviour w = Serve representation)
    by (unfold next_behaviour; by rewrite Hscript).
  unfold appendUserIngredient, bind.
  rewrite (insert_pantry_processed _ _ _ _ Hcfg Hnext).
  by destruct representation.
Qed.

Lemma appendUserIngredient_appends_witness :
  fst (appendUserIngredient Client.supabaseRequest "u" rice
         (world_of configured egg_store [Serve false])) =
    Throw (Thrown TypeError "undefined is not iterable") /\
  length (pantry (store (snd (appendUserIngredient Client.supabaseRequest "u" rice
                                (world_of configured egg_store [Serve false]))))) = 3%nat.
Proof.
  destruct (appendUserIngredient_appends "u" rice (world_of configured egg_store [Serve false])
              false [] eq_refl eq_refl) as [Hr Hp].
  split; [exact Hr | by rewrite Hp].
Defined.

End CounterRunsWitness.

(** ** Toggles, logout and the local cache *)

Section Toggles.
Import JS Types Supabase App AppMore.

(** X12.  Toggling a saved recipe flips whether a recipe of that name is
    saved, never touches the recipes of other names, and toggling twice
    a recipe whose name was not saved gives the list back. *)
Theorem toggleSaveRecipe_flips recipe (prev : list Recipes.Recipe) :
  let saved_name (l : list Recipes.Recipe) (n : string) :=
    existsb (fun r => String.eqb (Recipes.recipeName r) n) l in
  saved_name (toggleSaveRecipe recipe prev) (Recipes.recipeName recipe) =
    negb (saved_name prev (Recipes.recipeName recipe)) /\
  (forall n, n <> Recipes.recipeName recipe ->
     List.filter (fun r => String.eqb (Recipes.recipeName r) n) (toggleSaveRecipe recipe prev) =
     List.filter (fun r => String.eqb (Recipes.recipeName r) n) prev) /\
  (saved_name prev (Recipes.recipeName recipe) = false ->
   toggleSaveRecipe recipe (toggleSaveRecipe recipe prev) = prev).
Proof.
  cbv zeta. set (n0 := Recipes.recipeName recipe).
  assert (Hgone : forall l : list Recipes.Recipe,
            existsb (fun r => String.eqb (Recipes.recipeName r) n0)
              (List.filter (fun r => negb (String.eqb (Recipes.recipeName r) n0)) l) = false).
  { induction l as [| r l IH]; [done |]. simpl.
    destruct (String.eqb (Recipes.recipeName r) n0) eqn:E; simpl; [exact IH |].
    by rewrite E, IH. }
  assert (Hkeep : forall l : list Recipes.Recipe,
            existsb (fun r => String.eqb (Recipes.recipeName r) n0) l = false ->
            List.filter (fun r => negb (String.eqb (Recipes.recipeName r) n0)) l = l).
  { induction l as [| r l IH]; [done |]. simpl.
    destruct (String.eqb (Recipes.recipeName r) n0) eqn:E; simpl; [done |].
    intros H. by rewrite IH. }
  unfold toggleSaveRecipe. fold n0.
  destruct (existsb (fun r => String.eqb (Recipes.recipeName r) n0) prev) eqn:Hin.
  - split; [by rewrite Hgone |]. split; [| done].
    intros n Hne. induction prev as [| r l IH]; [done |]. simpl in *.
    destruct (String.eqb (Recipes.recipeName r) n0) eqn:E; simpl.
    + apply String.eqb_eq in E.
      destruct (String.eqb_spec (Recipes.recipeName r) n); [congruence |].
      destruct (existsb (fun r => String.eqb (Recipes.recipeName r) n0) l) eqn:El;
        [by apply IH |].
      by rewrite Hkeep.
    + simpl in Hin. rewrite (IH Hin). done.
  - split.
    + rewrite existsb_app. simpl. fold n0. rewrite Hin. by rewrite String.eqb_refl.
    + split.
      * intros n Hne. rewrite List.filter_app. simpl.
        fold n0. destruct (String.eqb_spec n0 n); [congruence |]. by rewrite app_nil_r.
      * intros _. rewrite existsb_app. simpl. fold n0. rewrite String.eqb_refl, orb_true_r.
        rewrite List.filter_app. simpl. fold n0. rewrite String.eqb_refl. simpl.
        by rewrite app_nil_r, Hkeep.
Qed.

Lemma toggleSaveRecipe_flips_witness :
  toggleSaveRecipe stew (toggleSaveRecipe stew [pancake]) = [pancake].
Proof.
  exact (proj2 (proj2 (toggleSaveRecipe_flips stew [pancake])) eq_refl).
Defined.

End Toggles.

Section Onboarding.
Import JS Types Supabase App AppMore.

Lemma existsb_eqb_elem (n : string) (l : list string) :
  existsb (String.eqb n) l = true <-> n ∈ l.
Proof.
  rewrite existsb_exists. split.
  - intros (x & Hin & Heq). apply String.eqb_eq in Heq. subst x. by apply list_elem_of_In.
  - intros Hin. exists n. split; [by apply list_elem_of_In | apply String.eqb_refl].
Qed.

Lemma names_of_added basicUnit (l : list string) :
  map name (map (fun n => {| name := n; quantity := basicUnit |}) l) = l.
Proof. induction l as [| n l IH]; [done |]. simpl. by rewrite IH. Qed.

(** X13.  The onboarding merge keeps every pantry entry in place and
    appends, with the basic unit as quantity, only names of the initial
    list that the pantry does not have; afterwards every initial name is
    in the pantry, so that merging the same list again changes nothing. *)
Theorem addInitialIngredients_merges basicUnit initial (pantry : list Ingredient) :
  (exists added,
     addInitialIngredients basicUnit initial pantry = (pantry ++ added)%list /\
     Forall (fun i => quantity i = basicUnit /\ name i ∈ initial /\
                      name i ∉ map name pantry) added) /\
  (forall n, n ∈ initial -> n ∈ map name (addInitialIngredients basicUnit initial pantry)) /\
  addInitialIngredients basicUnit initial (addInitialIngredients basicUnit initial pantry) =
    addInitialIngredients basicUnit initial pantry.
Proof.
  assert (Hadded : forall l : list string,
            Forall (fun i => quantity i = basicUnit /\ name i ∈ l /\ name i ∉ map name pantry)
              (map (fun n => {| name := n; quantity := basicUnit |})
                   (List.filter (fun n => negb (existsb (String.eqb n) (map name pantry))) l))).
  { intros l. apply Forall_forall. intros i Hi.
    change (map ?f ?l) with (f <$> l) in Hi at 1.
    apply list_elem_of_fmap in Hi as (n & -> & Hn).
    apply list_elem_of_In, List.filter_In in Hn as [Hn Hnot]. simpl.
    split; [done |]. split; [by apply list_elem_of_In |].
    intros Hin. apply existsb_eqb_elem in Hin. by rewrite Hin in Hnot. }
  assert (Hall : forall n, n ∈ initial ->
            n ∈ map name (addInitialIngredients basicUnit initial pantry)).
  { intros n Hn. unfold addInitialIngredients.
    assert (Hlen : (0 <? length initial)%nat = true)
      by (destruct initial; [by apply elem_of_nil in Hn | done]).
    rewrite Hlen, map_app. apply elem_of_app.
    destruct (existsb (String.eqb n) (map name pantry)) eqn:E.
    - left. by apply existsb_eqb_elem.
    - right. rewrite names_of_added.
      apply list_elem_of_In, List.filter_In. split; [by apply list_elem_of_In |].
      by rewrite E. }
  split; [| split; [exact Hall |]].
  - unfold addInitialIngredients. destruct (0 <? length initial)%nat.
    + eexists. split; [reflexivity | apply Hadded].
    + exists []. split; [by rewrite app_nil_r | done].
  - unfold addInitialIngredients at 1.
    destruct (0 <? length initial)%nat eqn:Hlen; [| done].
    set (merged := addInitialIngredients basicUnit initial pantry) in *.
    assert (Hnone : List.filter (fun n => negb (existsb (String.eqb n) (map name merged)))
                      initial = []).
    { assert (Hsub : forall l : list string, (forall n, n ∈ l -> n ∈ initial) ->
                List.filter (fun n => negb (existsb (String.eqb n) (map name merged))) l = []).
      { induction l as [| n l IH]; [done |]. intros Hl. simpl.
        assert (Hn : existsb (String.eqb n) (map name merged) = true).
        { apply existsb_eqb_elem, Hall, Hl. by left. }
        rewrite Hn. simpl. apply IH. intros m Hm. apply Hl. by right. }
      by apply Hsub. }
    rewrite Hnone. simpl. by rewrite app_nil_r.
Qed.

End Onboarding.

Section LogoutAndCache.
Import JS Types Supabase App AppMore.

Variable request : Primitive.

(** X14.  A logout resets the in-memory state and closes both gates
    without touching anything else: no request is sent, nothing is written
    to the local cache (the entries of the user stay), nothing is logged.
    (Whatever the request primitive is.) *)
Theorem logout_is_local st w :
  logout request st w =
    (Ok {| currentUser := None; settings := defaultSettings; ingredients := [];
           shoppingList := []; savedRecipes := [];
           ingredientsLoaded := false; savedRecipesLoaded := false |}, w).
Proof. reflexivity. Qed.

Lemma append_inj (p a b : string) : p +:+ a = p +:+ b -> a = b.
Proof. induction p as [| c p IH]; simpl; [done |]. intros [= H]. by apply IH. Qed.

Lemma getUserScopedKey_inj key a b :
  getUserScopedKey key (Some a) = getUserScopedKey key (Some b) -> a = b.
Proof.
  unfold getUserScopedKey. simpl. intros H.
  apply (append_inj "ohmycook-") in H. apply (append_inj key) in H.
  by apply (append_inj "-") in H.
Qed.

Lemma persist_then_load st user w :
  currentUser st = Some user ->
  loadSession st (snd (persistEffect st w)) =
    ({| currentUser := Some user; settings := settings st; ingredients := ingredients st;
        shoppingList := shoppingList st; savedRecipes := savedRecipes st;
        ingredientsLoaded := false; savedRecipesLoaded := false |}, settings st).
Proof.
  intros Huser. unfold persistEffect. rewrite Huser. cbn [snd].
  unfold loadSession. rewrite Huser.
  cbn [localStorage with_localStorage stored_settings stored_ingredients
       stored_savedRecipes stored_shoppingList].
  unfold loadCachedState. rewrite !lookup_insert_eq.
  destruct st; simpl in *. by subst.
Qed.

(** X15.  The local cache is a faithful, per-user store: what the persist
    effect writes for a user is what the session effect loads for that
    user, and it leaves what is loaded for any other user id as it was. *)
Theorem cache_round_trip st user w :
  currentUser st = Some user ->
  loadSession st (snd (persistEffect st w)) =
    ({| currentUser := Some user; settings := settings st; ingredients := ingredients st;
        shoppingList := shoppingList st; savedRecipes := savedRecipes st;
        ingredientsLoaded := false; savedRecipesLoaded := false |}, settings st) /\
  (forall st' other,
     currentUser st' = Some other -> user_key other <> user_key user ->
     loadSession st' (snd (persistEffect st w)) = loadSession st' w).
Proof.
  intros Huser. split; [by apply persist_then_load |].
  unfold persistEffect. rewrite Huser. cbn [snd].
  intros st' other Hother Hne. unfold loadSession. rewrite Hother.
  cbn [localStorage with_localStorage stored_settings stored_ingredients
       stored_savedRecipes stored_shoppingList].
  unfold loadCachedState.
  rewrite !lookup_insert_ne; [done | | | |];
    intros Heq; apply getUserScopedKey_inj in Heq; congruence.
Qed.

End LogoutAndCache.

Section CacheWitnesses.
Import JS Types Supabase App AppMore.

Lemma addInitialIngredients_merges_witness :
  addInitialIngredients "1" ["Rice"; "Egg"; "Egg"] [rice] =
    [rice; {| name := "Egg"; quantity := "1" |}; {| name := "Egg"; quantity := "1" |}] /\
  "Egg" ∈ map name (addInitialIngredients "1" ["Rice"; "Egg"; "Egg"] [rice]).
Proof.
  split; [reflexivity |].
  apply (proj1 (proj2 (addInitialIngredients_merges "1" ["Rice"; "Egg"; "Egg"] [rice]))).
  by repeat constructor.
Defined.

Lemma cache_round_trip_witness :
  fst (loadSession cooking (snd (persistEffect cooking local_only))) =
    setSavedRecipesLoaded false (setIngredientsLoaded false cooking).
Proof.
  by rewrite (proj1 (cache_round_trip cooking cook local_only eq_refl)).
Defined.

End CacheWitnesses.

Section Establish.
Import JS Types Supabase App AppMore.

(** With both gates closed, an effect run that includes the persist effect
    does to the world what the persist effect does. *)
Lemma run_effects_persists request changed st w :
  ingredientsLoaded st = false -> savedRecipesLoaded st = false ->
  triggered changed persist_deps = true ->
  run_effects request changed st w = (Ok tt, snd (persistEffect st w)).
Proof.
  intros Hi Hs Htrig. unfold run_effects. rewrite Htrig. cbn [when].
  destruct (persistEffect_local st w) as (w1 & Hp & _).
  rewrite (bind_ok _ _ _ _ _ Hp), Hp. cbn [snd].
  assert (H2 : when (triggered changed pushIngredients_deps)
                 (pushIngredientsEffect request st) w1 = (Ok tt, w1)).
  { destruct (triggered changed pushIngredients_deps);
      [by apply pushIngredientsEffect_closed | done]. }
  rewrite (bind_ok _ _ _ _ _ H2).
  destruct (triggered changed pushSavedRecipes_deps);
    [by apply pushSavedRecipesEffect_closed | done].
Qed.

(** Without configuration the profile upsert of [syncUserData] rejects,
    so that nothing is fetched and only the gates change. *)
Lemma syncUserData_unconfigured user cachedSettings st w :
  isSupabaseConfigured (config w) = false ->
  exists w',
    syncUserData Client.supabaseRequest user cachedSettings st w =
      (Ok (setSavedRecipesLoaded true (setIngredientsLoaded true st)), w').
Proof.
  intros Hcfg. unfold syncUserData.
  eexists. erewrite bind_ok; [reflexivity |].
  erewrite catch_throw.
  2: { apply bind_throw. unfold saveUserProfile, bind, Client.supabaseRequest.
       rewrite Hcfg. cbn [negb]. reflexivity. }
  reflexivity.
Qed.

(** X16.  Without a configured remote store, establishing a user from a
    state with closed gates keeps the in-memory collections and opens the
    gates, whatever the local cache holds for that user: the persist
    effect of the same render has overwritten the cache entries before the
    session effect reads them. *)
Theorem establish_ignores_cache user st w :
  isSupabaseConfigured (config w) = false ->
  ingredientsLoaded st = false -> savedRecipesLoaded st = false ->
  fst (establish Client.supabaseRequest user st w) =
    Ok {| currentUser := Some user; settings := settings st; ingredients := ingredients st;
          shoppingList := shoppingList st; savedRecipes := savedRecipes st;
          ingredientsLoaded := true; savedRecipesLoaded := true |}.
Proof.
  intros Hcfg Hi Hs. unfold establish, commitCurrentUser.
  set (st0 := setCurrentUser (Some user) st).
  assert (Hrun0 : run_effects Client.supabaseRequest [VCurrentUser] st0 w =
                  (Ok tt, snd (persistEffect st0 w)))
    by (by apply run_effects_persists).
  rewrite (bind_ok _ _ _ _ _ Hrun0).
  set (w1 := snd (persistEffect st0 w)).
  assert (Hcfg1 : config w1 = config w).
  { destruct (persistEffect_local st0 w) as (w' & Hp & _ & _ & _ & _ & Hc).
    subst w1. by rewrite Hp. }
  unfold sessionEffect.
  pose proof (persist_then_load st0 user w eq_refl) as Hload. fold w1 in Hload.
  rewrite Hload. cbn [currentUser st0 setCurrentUser].
  set (st1 := {| currentUser := Some user; settings := settings st0;
                 ingredients := ingredients st0; shoppingList := shoppingList st0;
                 savedRecipes := savedRecipes st0;
                 ingredientsLoaded := false; savedRecipesLoaded := false |}).
  destruct (run_effects_closed Client.supabaseRequest
              [VSettings; VIngredients; VSavedRecipes; VShoppingList;
               VIngredientsLoaded; VSavedRecipesLoaded] st1 w1 eq_refl eq_refl)
    as (w2 & Hrun1 & Hcfg2 & _).
  rewrite (bind_ok _ _ _ _ _ Hrun1).
  assert (Hcfg2' : isSupabaseConfigured (config w2) = false) by (by rewrite Hcfg2, Hcfg1).
  destruct (syncUserData_unconfigured user (settings st0) st1 w2 Hcfg2') as (w3 & Hsync).
  rewrite (bind_ok _ _ _ _ _ Hsync).
  destruct (run_effects_resolves Client.supabaseRequest
              [VIngredients; VSavedRecipes; VIngredientsLoaded; VSavedRecipesLoaded]
              (setSavedRecipesLoaded true (setIngredientsLoaded true st1)) w3)
    as (w4 & Hrun2).
  by rewrite (bind_ok _ _ _ _ _ Hrun2).
Qed.

(** The pantry cached for "u" is not restored: starting from the state
    after a logout, the pantry stays empty. *)
Lemma establish_ignores_cache_witness :
  ingredients <$> resolved (establish Client.supabaseRequest cook signed_out local_only) = Some [].
Proof.
  unfold resolved.
  by rewrite (establish_ignores_cache cook signed_out local_only eq_refl eq_refl eq_refl).
Defined.

End Establish.

(** ** Recipe retrieval: memoisation and the overview fetch *)

Section RetrievalMore.
Import JS Recipes RecipesMore.

(** X17.  Details are fetched at most once per recipe.  Selecting a recipe
    whose details are loaded makes no Stage-B call and leaves the list
    alone; after a successful selection, selecting the merged recipe
    again adds no call; after a failed one, selecting the recipe again
    calls Stage B again. *)
Theorem handleRecipeSelect_memoises svc names lang recipe v :
  (isDetailsLoaded recipe = true ->
   detailCalls (handleRecipeSelect svc names lang recipe v) = detailCalls v /\
   recipes (handleRecipeSelect svc names lang recipe v) = recipes v) /\
  (forall details,
     isDetailsLoaded recipe = false ->
     svc (recipeName recipe) names lang = Ok details ->
     detailCalls (handleRecipeSelect svc names lang (updatedRecipe recipe details)
                    (handleRecipeSelect svc names lang recipe v)) =
       (detailCalls v ++ [(recipeName recipe, names, lang)])%list /\
     recipes (handleRecipeSelect svc names lang (updatedRecipe recipe details)
                (handleRecipeSelect svc names lang recipe v)) =
       recipes (handleRecipeSelect svc names lang recipe v)) /\
  (forall e,
     isDetailsLoaded recipe = false ->
     svc (recipeName recipe) names lang = Throw e ->
     detailCalls (handleRecipeSelect svc names lang recipe
                    (handleRecipeSelect svc names lang recipe v)) =
       (detailCalls v ++ [(recipeName recipe, names, lang); (recipeName recipe, names, lang)])%list).
Proof.
  split; [| split].
  - intros Hloaded. unfold handleRecipeSelect. by rewrite Hloaded.
  - intros details Hflag Hsvc.
    unfold handleRecipeSelect at 1 3. cbn [isDetailsLoaded updatedRecipe negb].
    unfold handleRecipeSelect. by rewrite Hflag, Hsvc.
  - intros e Hflag Hsvc. unfold handleRecipeSelect. rewrite Hflag, Hsvc. cbn.
    by rewrite <- app_assoc.
Qed.

Lemma handleRecipeSelect_memoises_witness :
  detailCalls (handleRecipeSelect details_available ["Kimchi"] ko
                 (updatedRecipe stew stew_details)
                 (handleRecipeSelect details_available ["Kimchi"] ko stew sample_view)) =
    [("Kimchi Stew", ["Kimchi"], ko)].
Proof.
  exact (proj1 (proj1 (proj2 (handleRecipeSelect_memoises details_available ["Kimchi"] ko
                                stew sample_view)) stew_details eq_refl eq_refl)).
Defined.

(** X18.  An overview fetch with an empty pantry makes no call and keeps
    the recipes shown.  With a non-empty pantry it makes exactly one call,
    ends with [isLoading = false], and shows exactly the recipes of that
    call, none when it failed: an error is set exactly when no recipe is
    shown, so recipes of an earlier search never stay beside an error. *)
Theorem handleFetchRecipes_outcome svc t names priority filters lang p :
  (names = [] ->
   overviewCalls (handleFetchRecipes svc t names priority filters lang p) = overviewCalls p /\
   shown (handleFetchRecipes svc t names priority filters lang p) = shown p /\
   error (handleFetchRecipes svc t names priority filters lang p) =
     Some (t "addIngredientsFirst")) /\
  (names <> [] ->
   overviewCalls (handleFetchRecipes svc t names priority filters lang p) =
     (overviewCalls p ++ [(names, priority, filters, lang)])%list /\
   isLoading (handleFetchRecipes svc t names priority filters lang p) = false /\
   shown (handleFetchRecipes svc t names priority filters lang p) =
     match svc names priority filters lang with Ok fetched => fetched | Throw _ => [] end /\
   (error (handleFetchRecipes svc t names priority filters lang p) = None <->
    shown (handleFetchRecipes svc t names priority filters lang p) <> [])).
Proof.
  split.
  - intros ->. done.
  - intros Hne. unfold handleFetchRecipes.
    destruct names as [| n l]; [done |]. cbn [length Nat.eqb].
    destruct (svc (n :: l) priority filters lang) as [fetched | e]; cbn.
    + split; [done |]. split; [done |]. split; [done |].
      by destruct fetched.
    + split; [done |]. split; [done |]. split; [done |]. split; [done | done].
Qed.

Lemma handleFetchRecipes_outcome_witness :
  shown (handleFetchRecipes overview_fails plain ["Kimchi"] [] any_filters ko earlier_result)
    = [] /\
  error (handleFetchRecipes overview_fails plain ["Kimchi"] [] any_filters ko earlier_result)
    = Some "The model is overloaded (503)".
Proof.
  destruct (proj2 (handleFetchRecipes_outcome overview_fails plain ["Kimchi"] []
                     any_filters ko earlier_result) ltac:(discriminate))
    as (_ & _ & Hshown & _).
  split; [exact Hshown | reflexivity].
Defined.

End RetrievalMore.

(** ** The priority list *)

Section Priority.
Import JS RecipesMore.

Lemma filter_other_elem (n m : string) (l : list string) :
  m ∈ List.filter (fun i => negb (String.eqb i n)) l <-> m ∈ l /\ m <> n.
Proof.
  rewrite !list_elem_of_In, List.filter_In.
  destruct (String.eqb_spec m n); simpl; split; intros [? ?]; split; congruence.
Qed.

Lemma filter_other_NoDup (n : string) (l : list string) :
  NoDup l -> NoDup (List.filter (fun i => negb (String.eqb i n)) l).
Proof.
  induction 1 as [| x l Hx Hl IH]; simpl; [constructor |].
  destruct (negb (String.eqb x n)); [| exact IH].
  constructor; [| exact IH]. rewrite filter_other_elem. tauto.
Qed.

(** X19.  Toggling a priority ingredient flips its membership and leaves
    the membership of every other name alone; the priority list, which
    starts empty and changes by toggles only, never holds a name twice. *)
Theorem togglePriorityIngredient_flips :
  (forall n prev, n ∈ togglePriorityIngredient n prev <-> n ∉ prev) /\
  (forall n m prev, m <> n -> m ∈ togglePriorityIngredient n prev <-> m ∈ prev) /\
  (forall names, NoDup (foldl (fun prev n => togglePriorityIngredient n prev) [] names)).
Proof.
  split; [| split].
  - intros n prev. unfold togglePriorityIngredient.
    destruct (existsb (String.eqb n) prev) eqn:E.
    + apply existsb_eqb_elem in E. rewrite filter_other_elem. tauto.
    + assert (Hnot : n ∉ prev) by (intros Hin; apply existsb_eqb_elem in Hin; congruence).
      rewrite elem_of_app, list_elem_of_singleton. tauto.
  - intros n m prev Hne. unfold togglePriorityIngredient.
    destruct (existsb (String.eqb n) prev) eqn:E.
    + rewrite filter_other_elem. tauto.
    + rewrite elem_of_app, list_elem_of_singleton. tauto.
  - assert (Hstep : forall n prev, NoDup prev -> NoDup (togglePriorityIngredient n prev)).
    { intros n prev Hnd. unfold togglePriorityIngredient.
      destruct (existsb (String.eqb n) prev) eqn:E.
      - by apply filter_other_NoDup.
      - apply NoDup_app. split; [exact Hnd |]. split.
        + intros x Hx Hx'. apply list_elem_of_singleton in Hx'. subst x.
          apply existsb_eqb_elem in Hx. congruence.
        + apply NoDup_singleton. }
    intros names. generalize (NoDup_nil_2 (A := string)).
    generalize (@nil string). induction names as [| n names IH]; intros prev Hnd; [done |].
    simpl. apply IH, Hstep, Hnd.
Qed.

Lemma togglePriorityIngredient_flips_witness :
  "Tofu" ∈ togglePriorityIngredient "Kimchi" ["Tofu"] <-> "Tofu" ∈ ["Tofu"].
Proof.
  apply (proj1 (proj2 togglePriorityIngredient_flips) "Kimchi" "Tofu" ["Tofu"]).
  discriminate.
Defined.

End Priority.

(** ** The endpoint and the client in front of it *)

Section EndpointFacts.
Import JS Gemini Endpoint.

Variable API_KEY : option string.
Variables hRecommend hDetails hReceipt hChat : option json -> result (option json).

Local Open Scope Z_scope.

Local Notation "'served'" := (handler API_KEY hRecommend hDetails hReceipt hChat)
  (only parsing).

Lemma dispatch_status req response :
  dispatch hRecommend hDetails hReceipt hChat req = Ok response ->
  (res_status response = 200 /\ exists r, res_body response = result_body r) \/
  (res_status response = 400 /\ exists m, res_body response = error_body m).
Proof.
  unfold dispatch.
  destruct (req_json req) as [parsed | e]; [| done].
  destruct (destructure parsed) as [[action payload] | e]; [| done].
  destruct (route hRecommend hDetails hReceipt hChat action) as [handle |].
  - destruct (handle payload) as [r | e]; [| done].
    intros [= <-]. left. simpl. eauto.
  - intros [= <-]. right. simpl. eauto.
Qed.

(** Every answer other than 200 is a 400, 405 or 500 with an error body. *)
Lemma handler_failure_body req :
  res_status (fst (served req)) <> 200 ->
  res_status (fst (served req)) ∈ [400; 405; 500]%Z /\
  exists m, res_body (fst (served req)) = error_body m.
Proof.
  unfold handler.
  destruct (negb (String.eqb (req_method req) "POST")).
  { intros _. split; [by repeat constructor | simpl; eauto]. }
  destruct (negb (from_option truthy false API_KEY)).
  { intros _. split; [by repeat constructor | simpl; eauto]. }
  destruct (dispatch _ _ _ _ req) as [response | e] eqn:Hd.
  - destruct (dispatch_status _ _ Hd) as [[Hs Hb] | [Hs Hb]]; cbn [fst]; rewrite Hs.
    + done.
    + intros _. split; [by repeat constructor | exact Hb].
  - intros _. cbn [fst res_status res_body]. split; [by repeat constructor | eauto].
Qed.

(** X20.  The status of a response of [handler] is 200, 400, 405 or 500;
    it is 405 exactly for a method other than POST; a 200 response carries
    [{result}] and logs nothing; every other response carries an object
    whose [error] is a string, so that the client always finds a message
    to parse. *)
Theorem handler_status req :
  (res_status (fst (served req)) = 405 <-> req_method req <> "POST") /\
  (res_status (fst (served req)) = 200 ->
     (exists r, res_body (fst (served req)) = result_body r) /\ snd (served req) = []) /\
  (res_status (fst (served req)) <> 200 ->
     res_status (fst (served req)) ∈ [400; 405; 500]%Z /\
     exists m, res_body (fst (served req)) = error_body m).
Proof.
  split; [| split; [| apply handler_failure_body]].
  - unfold handler.
    destruct (String.eqb_spec (req_method req) "POST") as [Hm | Hm]; cbn [negb]; [| done].
    destruct (negb (from_option truthy false API_KEY)); [done |].
    destruct (dispatch _ _ _ _ req) as [response | e] eqn:Hd; [| done].
    destruct (dispatch_status _ _ Hd) as [[Hs _] | [Hs _]]; cbn [fst]; rewrite Hs; done.
  - unfold handler.
    destruct (negb (String.eqb (req_method req) "POST")); [done |].
    destruct (negb (from_option truthy false API_KEY)); [done |].
    destruct (dispatch _ _ _ _ req) as [response | e] eqn:Hd; [| done].
    destruct (dispatch_status _ _ Hd) as [[Hs Hb] | [Hs Hb]]; cbn [fst snd]; rewrite Hs; done.
Qed.

End EndpointFacts.

Section EndpointClientFacts.
Import JS Gemini Endpoint.

Variable API_KEY : option string.
Variables hRecommend hDetails hReceipt hChat : nat -> option json -> result (option json).
Variable stringify : json -> string.

Local Open Scope Z_scope.

Local Notation "'answer'" := (answered API_KEY hRecommend hDetails hReceipt hChat)
  (only parsing).
Local Notation "'called'" :=
  (remote_call API_KEY hRecommend hDetails hReceipt hChat stringify) (only parsing).
Local Notation "'exported'" :=
  (exported_call API_KEY hRecommend hDetails hReceipt hChat stringify) (only parsing).

(** The [try] block in front of an error body. *)
Lemma try_block_error_body m s attempt delay :
  ((200 <=? s)%Z && (s <=? 299)%Z) = false ->
  try_block (Resolves (delivered stringify {| res_status := s; res_body := error_body m |}))
            attempt delay =
    if (includes "overloaded" m || includes "503" m) && (attempt <? MAX_RETRIES)%nat
    then Continues [EWarnOverloaded attempt delay; ESleep delay] (delay * 2)
    else Throws (Thrown Error (raised_message m s)).
Proof.
  intros Hs. unfold try_block, delivered. cbn [ok json_body status res_status res_body].
  rewrite Hs. destruct m as [| c m']; reflexivity.
Qed.

(** An answer of the handler other than 200 is an error body with a
    status that is not a success. *)
Lemma answered_failure k req :
  res_status (answer k req) <> 200 ->
  exists m s, answer k req = {| res_status := s; res_body := error_body m |} /\
              ((200 <=? s)%Z && (s <=? 299)%Z) = false.
Proof.
  intros Hne. unfold answered in *.
  destruct (handler_failure_body _ _ _ _ _ _ Hne) as (Hin & m & Hm).
  destruct (fst (handler _ _ _ _ _ req)) as [s b]. cbn [res_status res_body] in *. subst b.
  exists m, s. split; [done |].
  set_unfold in Hin. destruct Hin as [-> | [-> | [-> | []]]]; reflexivity.
Qed.

(** X21.  When [handler] answers each of the three attempts of a client
    call with a status other than 200 (the key missing on the server, an
    action it does not know, a handler that throws every time), the
    client sends the request three times, waiting 1000 ms and 2000 ms,
    and then raises an [Error] whose message is the [error] of the third
    answer, or its status line when that is empty. *)
Theorem remote_call_failure action payload :
  (forall k, (1 <= k <= 3)%nat ->
     res_status (answer k (request_of action payload)) <> 200) ->
  exists m,
    res_body (answer 3%nat (request_of action payload)) = error_body m /\
    fst (called action payload) =
      Done (Throw (Thrown Error
             (raised_message m (res_status (answer 3%nat (request_of action payload)))))) /\
    schedule (snd (called action payload)) =
      [Request; Wait 1000; Request; Wait 2000; Request].
Proof.
  intros Hfail. unfold remote_call.
  set (net := fun k : nat =>
                Resolves (delivered stringify (answer k (request_of action payload)))).
  assert (Hret : forall k, (1 <= k <= 3)%nat -> returned (net k) = None).
  { intros k Hk. destruct (answered_failure k _ (Hfail k Hk)) as (m & s & Hans & Hs).
    unfold returned, net, delivered. rewrite Hans. cbn [ok res_status]. by rewrite Hs. }
  destruct (answered_failure 3%nat _ (Hfail 3%nat ltac:(lia))) as (m & s & Hans & Hs).
  exists m. rewrite Hans. cbn [res_body res_status]. split; [done |].
  unfold callGeminiApi. change (S MAX_RETRIES) with 4%nat.
  destruct (attempts_retry net action 3 1 1000 ltac:(unfold MAX_RETRIES; lia)
              (Hret 1%nat ltac:(lia))) as [F1 S1].
  destruct (attempts_retry net action 2 2 (1000 * 2) ltac:(unfold MAX_RETRIES; lia)
              (Hret 2%nat ltac:(lia))) as [F2 S2].
  destruct (attempts_exhausted net action 1 (1000 * 2 * 2) (Hret 3%nat ltac:(lia)))
    as (e & He & Hatt).
  unfold net in He at 1. rewrite Hans, (try_block_error_body _ _ _ _ Hs) in He.
  change (3 <? MAX_RETRIES)%nat with false in He. rewrite andb_false_r in He.
  injection He as <-.
  rewrite F1, F2, S1, S2, Hatt. done.
Qed.

(** X22.  With the key set on the server, an exported call whose action
    the server knows and whose handler returns gets that very value
    back after a single request, without any wait. *)
Theorem exported_call_round_trip action payload handle r :
  from_option truthy false API_KEY = true ->
  routed hRecommend hDetails hReceipt hChat 1 (Some (JStr action)) = Some handle ->
  handle (Some payload) = Ok r ->
  exported action payload = Some (Ok r) /\
  schedule (snd (called action payload)) = [Request].
Proof.
  intros Hkey Hroute Hhandle. unfold routed in Hroute.
  assert (Hserved : answer 1%nat (request_of action payload) =
                    {| res_status := 200; res_body := result_body r |}).
  { unfold answered, handler, request_of. cbn [req_method negb String.eqb].
    change (String.eqb "POST" "POST") with true. cbn [negb].
    rewrite Hkey. cbn [negb].
    unfold dispatch. cbn [req_json destructure field].
    change (String.eqb "action" "action") with true. cbn iota.
    change (String.eqb "action" "payload") with false.
    change (String.eqb "payload" "payload") with true. cbn iota.
    by rewrite Hroute, Hhandle. }
  unfold exported_call, remote_call.
  unfold callGeminiApi. change (S MAX_RETRIES) with 4%nat. cbn [attempts].
  change (1 <=? MAX_RETRIES)%nat with true. cbn iota.
  rewrite Hserved.
  unfold try_block, delivered. cbn.
  split; [| done]. by destruct r.
Qed.

End EndpointClientFacts.

Section EndpointWitnesses.
Import JS Gemini Endpoint.
Local Open Scope Z_scope.

Lemma handler_status_witness :
  exists m,
    res_body (fst (handler (Some "k") echo_handler echo_handler echo_handler echo_handler
                     {| req_method := "GET"; req_json := Ok JNull |}))
    = error_body m.
Proof.
  refine (proj2 (proj2 (proj2 (handler_status (Some "k") echo_handler echo_handler
                                 echo_handler echo_handler
                                 {| req_method := "GET"; req_json := Ok JNull |})) _)).
  discriminate.
Defined.

(** An action the server does not know is asked for three times. *)
Lemma remote_call_failure_witness :
  exists m,
    res_body (answered (Some "k") echo_always echo_always echo_always echo_always 3
                (request_of "getPopularRecipes" JNull)) = error_body m /\
    fst (remote_call (Some "k") echo_always echo_always echo_always echo_always
           plain_stringify "getPopularRecipes" JNull) =
      Done (Throw (Thrown Error (raised_message m 400))) /\
    schedule (snd (remote_call (Some "k") echo_always echo_always echo_always echo_always
                     plain_stringify "getPopularRecipes" JNull)) =
      [Request; Wait 1000; Request; Wait 2000; Request].
Proof.
  apply (remote_call_failure (Some "k") echo_always echo_always echo_always echo_always
           plain_stringify "getPopularRecipes" JNull).
  intros k _. discriminate.
Defined.

(** A failure of the first attempt only is not seen by the caller: the
    second request is answered and its result returned. *)
Example remote_call_transient_failure :
  exported_call (Some "k") flaky_handler flaky_handler flaky_handler flaky_handler
    plain_stringify "getRecipeDetails" (JStr "Kimchi Stew")
    = Some (Ok (Some (JStr "Kimchi Stew"))) /\
  schedule (snd (remote_call (Some "k") flaky_handler flaky_handler flaky_handler
                   flaky_handler plain_stringify "getRecipeDetails" (JStr "Kimchi Stew")))
    = [Request; Wait 1000; Request].
Proof. split; reflexivity. Qed.

Lemma exported_call_round_trip_witness :
  exported_call (Some "k") echo_always echo_always echo_always echo_always
    plain_stringify "getRecipeDetails" (JStr "Kimchi Stew") = Some (Ok (Some (JStr "Kimchi Stew"))).
Proof.
  exact (proj1 (exported_call_round_trip (Some "k") echo_always echo_always echo_always
                  echo_always plain_stringify "getRecipeDetails" (JStr "Kimchi Stew")
                  echo_handler (Some (JStr "Kimchi Stew")) eq_refl eq_refl eq_refl)).
Defined.

End EndpointWitnesses.

(** ** The auth client *)

Section AuthFacts.
Import JS Supabase Auth.

(** X23.  A configured [signInWithPassword] sends one token request.
    When it resolves without error and with a session, that session is
    what [getStoredSession] returns afterwards and every subscriber hears
    SIGNED_IN with it, once, in subscription order.  When it resolves
    without error but the answer lacks a token or a user, the session
    stored before is removed and nobody is told.  When it resolves with an
    error, or rejects, the stored session and the subscribers are left
    alone. *)
Theorem signInWithPassword_outcome email password answer w res w' :
  hasSupabaseConfig w = true ->
  signInWithPassword email password answer w = (res, w') ->
  requests w' = (requests w ++ [TokenRequest email password])%list /\
  listeners w' = listeners w /\
  (forall r s, res = Ok r -> error r = None -> data_session r = Some s ->
     getStoredSession w' = Some s /\
     heard w' = (heard w ++ map (fun cb => (cb, SIGNED_IN, Some s)) (listeners w))%list) /\
  (forall r, res = Ok r -> error r = None -> data_session r = None ->
     slot w' = None /\ heard w' = heard w) /\
  (forall r e, res = Ok r -> error r = Some e ->
     data_session r = None /\ slot w' = slot w /\ heard w' = heard w) /\
  (forall e, res = Throw e -> slot w' = slot w /\ heard w' = heard w).
Proof.
  intros Hcfg. unfold signInWithPassword. rewrite Hcfg. cbn [negb].
  destruct answer as [e0 | e0 | ok payload].
  - intros [= <- <-]. repeat split; intros; by simplify_eq/=.
  - intros [= <- <-]. repeat split; intros; by simplify_eq/=.
  - destruct (negb ok || bool_decide (is_Some (p_error payload))).
    + intros [= <- <-]. repeat split; intros; by simplify_eq/=.
    + destruct (p_access_token payload) as [token |], (p_user payload) as [u |];
        try destruct (truthy token); intros [= <- <-];
        repeat split; intros; by simplify_eq/=.
Qed.

Lemma signInWithPassword_outcome_witness :
  getStoredSession (snd (signInWithPassword "cook@example.com" "secret" (granted "t1")
                           signed_in_page))
    = Some (token_session "t1" cook_account).
Proof.
  exact (proj1 (proj1 (proj2 (proj2 (signInWithPassword_outcome
                  "cook@example.com" "secret" (granted "t1") signed_in_page _ _
                  eq_refl eq_refl))) _ _ eq_refl eq_refl eq_refl)).
Defined.

(** X24.  After [signOut] no session is returned by [getStoredSession],
    whatever the configuration and the network.  Without configuration,
    or with a stored session, the slot is emptied and every subscriber
    hears SIGNED_OUT; the logout request is sent only when the client is
    configured and a session is stored, and carries its token.  A
    configured client without a readable session does nothing at all. *)
Theorem signOut_clears w :
  getStoredSession (signOut w) = None /\
  listeners (signOut w) = listeners w /\
  (hasSupabaseConfig w = false \/ is_Some (getStoredSession w) ->
     slot (signOut w) = None /\
     heard (signOut w) =
       (heard w ++ map (fun cb => (cb, SIGNED_OUT, None)) (listeners w))%list) /\
  (hasSupabaseConfig w = true -> getStoredSession w = None -> signOut w = w) /\
  requests (signOut w) =
    (requests w ++
     match getStoredSession w with
     | Some s => if hasSupabaseConfig w then [LogoutRequest (access_token s)] else []
     | None => []
     end)%list.
Proof.
  unfold signOut. destruct (hasSupabaseConfig w) eqn:Hcfg; cbn [negb].
  - destruct (getStoredSession w) as [s |] eqn:Hs.
    + repeat split; try done.
    + split; [done |]. split; [done |]. split; [by intros [? | [? ?]] |].
      split; [done | by rewrite app_nil_r].
  - split; [done |]. split; [done |]. split; [done |]. split; [done |].
    destruct (getStoredSession w); simpl; by rewrite app_nil_r.
Qed.

Lemma signOut_clears_witness :
  slot (signOut signed_in_page) = None /\
  heard (signOut signed_in_page) =
    [(1%nat, SIGNED_OUT, None); (2%nat, SIGNED_OUT, None)].
Proof.
  exact (proj1 (proj2 (proj2 (signOut_clears signed_in_page)))
           (or_intror (ex_intro _ _ eq_refl))).
Defined.

Lemma heard_by_notified cb event session (w : AuthWorld) :
  cb ∉ listeners w -> heard_by cb (notify event session w) = heard_by cb w.
Proof.
  intros Hnot. unfold heard_by, notify; simpl.
  rewrite List.filter_app, map_app.
  assert (Hnone : List.filter (fun h : nat * AuthEvent * option SupabaseSession =>
                                 Nat.eqb (fst (fst h)) cb)
                    (map (fun c => (c, event, session)) (listeners w)) = []).
  { induction (listeners w) as [| c l IH]; [done |]. simpl.
    destruct (Nat.eqb_spec c cb) as [-> | Hne].
    - exfalso. apply Hnot. by left.
    - apply IH. intros Hin. apply Hnot. by right. }
  rewrite Hnone. simpl. by rewrite app_nil_r.
Qed.

(** A callback that is not subscribed stays so, and hears nothing, through
    every call other than its own subscription. *)
Lemma call_keeps_silent cb c (w : AuthWorld) :
  cb ∉ listeners w -> c <> CallSubscribe cb ->
  (cb ∉ listeners (call w c)) /\ heard_by cb (call w c) = heard_by cb w.
Proof.
  intros Hnot Hc. destruct c as [cb' | cb' | email password answer | email password answer |];
    cbn [call].
  - unfold onAuthStateChange. destruct (existsb (Nat.eqb cb') (listeners w)); [done |].
    split; [| done]. simpl. rewrite elem_of_app, list_elem_of_singleton.
    intros [? | ->]; [done | congruence].
  - split; [| done]. unfold unsubscribe; simpl.
    rewrite list_elem_of_In, List.filter_In, <- list_elem_of_In. tauto.
  - unfold signInWithPassword. destruct (negb (hasSupabaseConfig w)); [done |].
    destruct answer as [e | e | ok payload]; [done | done |].
    destruct (negb ok || bool_decide (is_Some (p_error payload))); [done |].
    destruct (p_access_token payload) as [token |], (p_user payload) as [u |];
      try destruct (truthy token); cbn [snd]; try done.
    split; [done |]. by rewrite heard_by_notified.
  - unfold signUp. destruct (negb (hasSupabaseConfig w)); [done |].
    destruct answer as [e | e | ok payload]; [done | done |].
    destruct (negb ok || bool_decide (is_Some (p_error payload))); [done |].
    destruct (p_session payload) as [s |]; cbn [snd]; [| done].
    split; [done |]. by rewrite heard_by_notified.
  - unfold signOut. destruct (negb (hasSupabaseConfig w)).
    + split; [done |]. by rewrite heard_by_notified.
    + destruct (getStoredSession w) as [s |]; [| done].
      split; [done |]. by rewrite heard_by_notified.
Qed.

(** X25.  Once a callback has unsubscribed it hears nothing more, whatever
    is called on the client afterwards, until it subscribes again. *)
Theorem unsubscribe_silences cb calls (w : AuthWorld) :
  Forall (fun c => c <> CallSubscribe cb) calls ->
  heard_by cb (foldl call (unsubscribe cb w) calls) = heard_by cb w.
Proof.
  intros Hcalls.
  assert (Hgen : forall w0 : AuthWorld, cb ∉ listeners w0 ->
            heard_by cb (foldl call w0 calls) = heard_by cb w0).
  { induction Hcalls as [| c calls Hc _ IH]; [done |].
    intros w0 Hnot. simpl.
    destruct (call_keeps_silent cb c w0 Hnot Hc) as [Hnot' Hsame].
    by rewrite (IH _ Hnot'). }
  rewrite Hgen; [done |].
  unfold unsubscribe; simpl.
  rewrite list_elem_of_In, List.filter_In. intros [_ H].
  by rewrite Nat.eqb_refl in H.
Qed.

Lemma unsubscribe_silences_witness :
  heard_by 2 (foldl call (unsubscribe 2 signed_in_page)
                [CallSignOut; CallSignIn "cook@example.com" "secret" (granted "t1")]) = [].
Proof.
  apply (unsubscribe_silences 2 [CallSignOut; CallSignIn "cook@example.com" "secret" (granted "t1")]
           signed_in_page).
  by repeat constructor.
Defined.

End AuthFacts.

(** ** Session upkeep *)

Section SessionUpkeep.
Import JS GoogleAuth.
Local Open Scope Z_scope.

(** X26.  [ensureValidSession] with a token endpoint that grants
    lifetimes above 60 seconds: a session it returns that is refreshable
    has more than 60 seconds left.  A session is returned either as it
    is, without any request, or from one refresh request made with its
    refresh token when it has 60 seconds or less left; the refreshed
    session has the access token of the answer, the refresh token of the
    answer or, when the answer brings none, the old one, and the expiry
    computed from the answer.  No request is sent for a session without
    expiry or without refresh token, which is returned as it is even when
    it has expired. *)
Theorem ensureValidSession_fresh configured now later existing answer s effects :
  now <= later ->
  long_lived answer ->
  ensureValidSession configured later now (Some existing) answer = (Ok (Some s), effects) ->
  (refreshable s = true -> 60 < seconds_left now s) /\
  (truthy_text (refreshToken existing) = true -> is_Some (refreshToken s)) /\
  (refreshable existing = false -> s = existing /\ effects = []) /\
  (effects = [] /\ s = existing \/
   effects = [Posted (default "" (refreshToken existing))] /\
   refreshToken s <> None /\ seconds_left now existing <= 60 /\
   exists data,
     answer = RefreshAnswers true (Ok data) /\
     accessToken s = d_access_token data /\
     refreshToken s =
       Some (default (default "" (refreshToken existing)) (d_refresh_token data)) /\
     (d_refresh_token data = None -> refreshToken s = refreshToken existing) /\
     expiresAt s =
       (if truthy_number (d_expires_in data)
        then Some (later + default 0 (d_expires_in data))
        else None)).
Proof.
  intros Hclock Hlong. unfold ensureValidSession, refreshable, seconds_left.
  destruct (truthy_number (expiresAt existing)) eqn:Hexp; cbn [andb].
  2: { intros [= <- <-]. rewrite Hexp. cbn [andb].
       split; [done |]. split; [| by split; [| left]].
       destruct (refreshToken existing); [by eexists | done]. }
  destruct (default 0 (expiresAt existing) - 60 <=? now) eqn:Hdue; cbn [andb].
  2: { intros [= <- <-]. rewrite Hexp. cbn [andb]. apply Z.leb_gt in Hdue.
       split; [intros _; lia |]. split; [| split; [| by left]].
       - destruct (refreshToken existing); [by eexists | done].
       - done. }
  destruct (truthy_text (refreshToken existing)) eqn:Href.
  2: { intros [= <- <-]. rewrite Hexp, Href. cbn [andb].
       split; [done |]. split; [done |]. split; [done | by left]. }
  apply Z.leb_le in Hdue.
  unfold refreshSession. destruct configured; cbn [negb]; [| done].
  destruct answer as [e | [|] [data | e]]; try done.
  intros [= <- <-]. cbn [expiresAt refreshToken accessToken].
  split; [| split; [by eexists | split; [done |]]].
  - simpl in Hlong. unfold truthy_number.
    destruct (d_expires_in data) as [d |]; [| done].
    destruct (d =? 0); simpl; [done |]. intros _. lia.
  - right. split; [done |]. split; [done |]. split; [lia |].
    exists data. split; [done |]. split; [done |]. split; [done |]. split; [| done].
    intros ->. simpl. destruct (refreshToken existing) as [t |]; [done | done].
Qed.

(** A session 30 seconds from expiry, renewed for an hour by an answer
    without refresh token. *)
Lemma ensureValidSession_fresh_witness :
  60 < seconds_left 1000
         {| accessToken := "a1"; refreshToken := Some "r0"; expiresAt := Some 4601;
            tokenType := Some "bearer"; session_user := None |}.
Proof.
  apply (proj1 (ensureValidSession_fresh true 1000 1001 almost_expired renewal _ _
                  ltac:(lia) ltac:(simpl; lia) eq_refl)).
  reflexivity.
Defined.

End SessionUpkeep.
